(** * ARM virtual GIC distributor (xen/arch/arm/vgic.c)

    A shallow embedding of the virtual distributor: the rank store, the
    pending-interrupt registry, the trapped-access handlers
    [vgic_distr_mmio_read] / [vgic_distr_mmio_write], the enable/disable
    transitions, the SGI dispatcher [vgic_to_sgi] and the injection engine
    [vgic_vcpu_inject_irq].

    Conventions of the embedding:
    - machine integers are [Z]; a store into a [uint32_t] field is truncated
      with [u32]; bit operations are [Z.land], [Z.lor], [Z.shiftr], ...;
    - C pointers into the domain are indices: a [struct vcpu *] is the index
      of its slot in [d->vcpu[]] (a slot holding [None] is a NULL pointer), a
      [struct vgic_irq_rank *] is a [rank_ptr], a [struct pending_irq *] is a
      [pending_ptr];
    - the intrusive lists are sequences of descriptor pointers; the list node
      of a descriptor is non-empty exactly when some list contains it;
    - the code runs in a monad [M] that threads the domain, collects the calls
      to the collaborators (physical interface, scheduler, console) as a
      trace of [event]s, and distinguishes a normal return from
      [domain_crash_synchronous] ([Crash]) and from undefined behaviour of
      the C program, a NULL or out-of-bounds dereference ([Fault]);
    - spin locks are not modelled: each handler is executed atomically. *)

From Stdlib Require Import ZArith List Bool Lia Sorted.
From stdpp Require Import base list.
Import ListNotations.
Local Open Scope Z_scope.

(** ** Header constants and helpers *)

(** Modelled from the spec: [asm/gic.h], [asm/processor.h], [xen/sched.h] and
    [asm/vgic.h] are not among the sources.  Section 6 of the specification
    fixes the register layout to the architectural distributor frame; the
    byte offsets below are the architectural ones and agree with every
    numeric case range of vgic.c (0x00c follows GICD_IIDR, 0x7fc follows
    GICD_IPRIORITYRN, 0xf04 follows GICD_SGIR, ...). *)
Module Gic.
Definition GICD_CTLR : Z := 0x000.
Definition GICD_TYPER : Z := 0x004.
Definition GICD_IIDR : Z := 0x008.
Definition GICD_IGROUPR : Z := 0x080.
Definition GICD_IGROUPRN : Z := 0x0FC.
Definition GICD_ISENABLER : Z := 0x100.
Definition GICD_ISENABLERN : Z := 0x17C.
Definition GICD_ICENABLER : Z := 0x180.
Definition GICD_ICENABLERN : Z := 0x1FC.
Definition GICD_ISPENDR : Z := 0x200.
Definition GICD_ISPENDRN : Z := 0x27C.
Definition GICD_ICPENDR : Z := 0x280.
Definition GICD_ICPENDRN : Z := 0x2FC.
Definition GICD_ISACTIVER : Z := 0x300.
Definition GICD_ISACTIVERN : Z := 0x37C.
Definition GICD_ICACTIVER : Z := 0x380.
Definition GICD_ICACTIVERN : Z := 0x3FC.
Definition GICD_IPRIORITYR : Z := 0x400.
Definition GICD_IPRIORITYRN : Z := 0x7F8.
Definition GICD_ITARGETSR : Z := 0x800.
Definition GICD_ITARGETSRN : Z := 0xBF8.
Definition GICD_ICFGR : Z := 0xC00.
Definition GICD_ICFGRN : Z := 0xCFC.
Definition GICD_NSACR : Z := 0xE00.
Definition GICD_NSACRN : Z := 0xEFC.
Definition GICD_SGIR : Z := 0xF00.
Definition GICD_CPENDSGIR : Z := 0xF10.
Definition GICD_CPENDSGIRN : Z := 0xF1C.
Definition GICD_SPENDSGIR : Z := 0xF20.
Definition GICD_SPENDSGIRN : Z := 0xF2C.
Definition GICD_ICPIDR2 : Z := 0xFE8.

Definition GICD_CTL_ENABLE : Z := 0x1.
Definition GICD_TYPE_LINES : Z := 0x01f.
Definition GICD_TYPE_CPUS : Z := 0x0e0.

Definition GICD_SGI_TARGET_LIST_SHIFT : Z := 24.
Definition GICD_SGI_TARGET_LIST_MASK : Z := Z.shiftl 0x3 GICD_SGI_TARGET_LIST_SHIFT.
Definition GICD_SGI_TARGET_LIST : Z := Z.shiftl 0 GICD_SGI_TARGET_LIST_SHIFT.
Definition GICD_SGI_TARGET_OTHERS : Z := Z.shiftl 1 GICD_SGI_TARGET_LIST_SHIFT.
Definition GICD_SGI_TARGET_SELF : Z := Z.shiftl 2 GICD_SGI_TARGET_LIST_SHIFT.
Definition GICD_SGI_TARGET_SHIFT : Z := 16.
Definition GICD_SGI_TARGET_MASK : Z := Z.shiftl 0xFF GICD_SGI_TARGET_SHIFT.
Definition GICD_SGI_INTID_MASK : Z := 0xF.

(** Bits of [pending_irq.status]. *)
Definition GIC_IRQ_GUEST_QUEUED : Z := 0.
Definition GIC_IRQ_GUEST_ACTIVE : Z := 1.
Definition GIC_IRQ_GUEST_VISIBLE : Z := 2.
Definition GIC_IRQ_GUEST_ENABLED : Z := 3.

(** Access sizes of a data abort ([dabt.size]); vgic.c itself compares the
    field with the literals 0 (byte) and 2 (word). *)
Definition DABT_BYTE : Z := 0.
Definition DABT_HALF_WORD : Z := 1.
Definition DABT_WORD : Z := 2.
Definition DABT_DOUBLE_WORD : Z := 3.

(** Bit of [vcpu.pause_flags]: the vCPU is administratively offline. *)
Definition _VPF_down : Z := 1.
End Gic.
Import Gic.

(** Truncation of a value stored into a [uint32_t]. *)
Definition u32 (x : Z) : Z := Z.land x 0xffffffff.

Definition test_bit (nr : Z) (word : Z) : bool := Z.testbit word nr.
Definition set_bit (nr : Z) (word : Z) : Z := Z.setbit word nr.
Definition clear_bit (nr : Z) (word : Z) : Z := Z.clearbit word nr.

(** Modelled from the spec: the inline helper [REG_RANK_NR] of [asm/vgic.h]
    (not among the sources), the number of the rank that holds register word
    [n] of a register group with [b] bits per interrupt ("computes a rank
    index from line_offset"); index 0 is the private rank.  vgic.c calls it
    with 1, 2 and 8 bits per interrupt only (any other value is a [BUG()]
    of the hypervisor). *)
Definition REG_RANK_NR (b : Z) (n : Z) : Z :=
  if b =? 8 then Z.shiftr n 3
  else if b =? 4 then Z.shiftr n 2
  else if b =? 2 then Z.shiftr n 1
  else n.

(** Modelled from the spec: the macro [REG_RANK_INDEX] of [asm/vgic.h] (not
    among the sources), the index of register word [n >> s] inside its rank. *)
Definition REG_RANK_INDEX (b n s : Z) : Z :=
  (Z.land (Z.shiftr n s) (b - 1)) mod 32.

(** Modelled from the spec: the inline helper [vgic_byte_read] of
    [asm/vgic.h] (not among the sources), the "byte-addressable read" of a
    register word. *)
Definition vgic_byte_read (val : Z) (sign : bool) (offset : Z) : Z :=
  let byte := Z.land offset 0x3 in
  let val := Z.shiftr val (8 * byte) in
  if sign && negb (Z.land val 0x80 =? 0)
  then u32 (Z.lor val 0xffffff00)
  else Z.land val 0x000000ff.

(** Modelled from the spec: the inline helper [vgic_byte_write] of
    [asm/vgic.h] (not among the sources), the byte-granular write into a
    register word. *)
Definition vgic_byte_write (reg : Z) (var : Z) (offset : Z) : Z :=
  let byte := Z.land offset 0x3 in
  let var := Z.land var (Z.shiftl 0xff (8 * byte)) in
  u32 (Z.lor (Z.land reg (Z.lnot (Z.shiftl 0xff (8 * byte)))) var).

(** [find_next_bit] / [for_each_set_bit]: the set bits of [mask] below
    [size], in ascending order. *)
Definition set_bits (mask : Z) (size : nat) : list nat :=
  flat_map (fun i => if Z.testbit mask (Z.of_nat i) then [i] else []) (seq 0 size).

(** ** Data model *)

(** [struct vgic_irq_rank]: the register state of 32 consecutive lines. *)
Record vgic_irq_rank := mk_rank {
  ienable : Z;
  iactive : Z;
  ipend : Z;
  pendsgi : Z;
  icfg : list Z;       (* uint32_t icfg[2] *)
  ipriority : list Z;  (* uint32_t ipriority[8] *)
  itargets : list Z    (* uint32_t itargets[8] *)
}.

(** An element of one of the [uint32_t] arrays of a rank.  Every index the
    handlers compute with [REG_RANK_INDEX] is inside the array. *)
Definition word_at (a : list Z) (i : Z) : Z := nth (Z.to_nat i) a 0.
Definition set_word_at (a : list Z) (i : Z) (x : Z) : list Z :=
  <[Z.to_nat i := x]> a.

(** [struct pending_irq]; the two list nodes [inflight] and [lr_queue] are
    represented by the membership of the descriptor in the lists below. *)
Record pending_irq := mk_pending {
  p_irq : nat;        (* irq *)
  p_status : Z;       (* status *)
  p_priority : Z;     (* priority *)
  p_desc : option nat (* struct irq_desc *desc, NULL when there is no
                         backing physical interrupt *)
}.

(** A [struct pending_irq *] as computed by [irq_to_pending]. *)
Inductive pending_ptr :=
| vcpu_pending (v : nat) (i : nat)  (* &v->arch.vgic.pending_irqs[i] *)
| domain_pending (i : nat).         (* &d->arch.vgic.pending_irqs[i] *)

(** A [struct vgic_irq_rank *] as computed by [vgic_rank_offset]. *)
Inductive rank_ptr :=
| private_rank (v : nat)            (* v->arch.vgic.private_irqs *)
| shared_rank (i : nat).            (* &d->arch.vgic.shared_irqs[i] *)

(** [struct vcpu], the fields vgic.c uses. *)
Record vcpu := mk_vcpu {
  pause_flags : Z;
  is_running : bool;
  processor : nat;
  evtchn_upcall_pending : bool;        (* vcpu_info(v, evtchn_upcall_pending) *)
  private_irqs : vgic_irq_rank;        (* arch.vgic.private_irqs *)
  vcpu_pending_irqs : list pending_irq;(* arch.vgic.pending_irqs[32] *)
  inflight_irqs : list pending_ptr;    (* arch.vgic.inflight_irqs *)
  lr_pending : list pending_ptr        (* arch.vgic.lr_pending *)
}.

(** [struct domain], the fields vgic.c uses; [max_vcpus] is the length of
    the [vcpu] array. *)
Record domain := mk_domain {
  dbase : Z;                           (* arch.vgic.dbase *)
  ctlr : Z;                            (* arch.vgic.ctlr *)
  nr_lines : Z;                        (* arch.vgic.nr_lines *)
  evtchn_irq : nat;                    (* arch.evtchn_irq *)
  shared_irqs : list vgic_irq_rank;    (* arch.vgic.shared_irqs *)
  domain_pending_irqs : list pending_irq; (* arch.vgic.pending_irqs *)
  d_vcpu : list (option vcpu)          (* vcpu[] *)
}.

Definition max_vcpus (d : domain) : Z := Z.of_nat (length (d_vcpu d)).

(** Modelled from the spec: the macro [DOMAIN_NR_RANKS] of [asm/vgic.h] (not
    among the sources): "indices 1..ceil(N/32) select the domain's shared
    ranks". *)
Definition DOMAIN_NR_RANKS (d : domain) : Z := Z.quot (nr_lines d + 31) 32.

(** [struct hsr_dabt] and [mmio_info_t]. *)
Record hsr_dabt := mk_dabt {
  dabt_size : Z;   (* size *)
  dabt_sign : bool;(* sign *)
  dabt_reg : nat   (* reg *)
}.

Record mmio_info := mk_info {
  gpa : Z;
  dabt : hsr_dabt
}.

(** ** Effects *)

Inductive diagnostic :=
| bad_read_width (sz : Z) (gicd_reg : Z)
| bad_write_width (sz : Z) (gicd_reg : Z)
| unhandled_read (gicd_reg : Z)
| unhandled_write (gicd_reg : Z)
| unhandled_sgir_filter (sgir : Z)
| wrong_cpu_target_list (sgir : Z) (vcpu_mask : Z).

(** Calls that leave vgic.c. *)
Inductive event :=
| Printk (m : diagnostic)
| GicRaiseGuestIrq (v : nat) (virq : nat) (prio : Z)
| GicRaiseInflightIrq (v : nat) (virq : nat)
| GicRemoveFromQueues (v : nat) (virq : nat)
| DescEnable (k : nat)             (* p->desc->handler->enable(p->desc) *)
| DescDisable (k : nat)            (* p->desc->handler->disable(p->desc) *)
| VcpuUnblock (v : nat)
| SmpSendEventCheckMask (cpu : nat)
| DomainCrashSynchronous.

Inductive result (A : Type) :=
| Ok (a : A) (d : domain) (tr : list event)
| Crash (d : domain) (tr : list event)
| Fault (tr : list event).
Arguments Ok {A} a d tr.
Arguments Crash {A} d tr.
Arguments Fault {A} tr.

Definition M (A : Type) : Type := domain -> result A.

Definition ret {A} (a : A) : M A := fun d => Ok a d [].

Definition bind {A B} (m : M A) (f : A -> M B) : M B := fun d =>
  match m d with
  | Ok a d1 tr1 =>
      match f a d1 with
      | Ok b d2 tr2 => Ok b d2 (tr1 ++ tr2)
      | Crash d2 tr2 => Crash d2 (tr1 ++ tr2)
      | Fault tr2 => Fault (tr1 ++ tr2)
      end
  | Crash d1 tr1 => Crash d1 tr1
  | Fault tr1 => Fault tr1
  end.

(** The trace [tr] followed by the outcome [r]. *)
Definition after_trace {A} (tr : list event) (r : result A) : result A :=
  match r with
  | Ok a d t => Ok a d (tr ++ t)
  | Crash d t => Crash d (tr ++ t)
  | Fault t => Fault (tr ++ t)
  end.

Declare Scope vgic_scope.
Delimit Scope vgic_scope with vgic.
Notation "x <- c1 ;; c2" := (bind c1 (fun x => c2))
  (at level 100, c1 at next level, right associativity) : vgic_scope.
Notation "c1 ;; c2" := (bind c1 (fun _ => c2))
  (at level 100, right associativity) : vgic_scope.
Local Open Scope vgic_scope.

Definition get : M domain := fun d => Ok d d [].
Definition put (d : domain) : M unit := fun _ => Ok tt d [].
Definition emit (e : event) : M unit := fun d => Ok tt d [e].
Definition fault {A} : M A := fun _ => Fault [].

(** The collaborators, as far as vgic.c is concerned: a call is recorded. *)
Definition printk (m : diagnostic) : M unit := emit (Printk m).
Definition gic_raise_guest_irq (v irq : nat) (prio : Z) : M unit :=
  emit (GicRaiseGuestIrq v irq prio).
Definition gic_raise_inflight_irq (v irq : nat) : M unit :=
  emit (GicRaiseInflightIrq v irq).
Definition vcpu_unblock (v : nat) : M unit := emit (VcpuUnblock v).
Definition smp_send_event_check_mask (cpu : nat) : M unit :=
  emit (SmpSendEventCheckMask cpu).
(** [domain_crash_synchronous] does not return. *)
Definition domain_crash_synchronous {A} : M A :=
  fun d => Crash d [DomainCrashSynchronous].

(** A loop whose body runs once for each element of [l], in order. *)
Fixpoint for_each {I} (l : list I) (body : I -> M unit) : M unit :=
  match l with
  | [] => ret tt
  | i :: l' => body i ;; for_each l' body
  end.

(** ** Pointers into the domain *)

(** Dereferencing a [struct vcpu *]: slot [v] of [d->vcpu[]].  A NULL
    pointer (an empty slot) cannot be dereferenced. *)
Definition vcpu_at (d : domain) (v : nat) : option vcpu :=
  match d_vcpu d !! v with
  | Some (Some vc) => Some vc
  | _ => None
  end.

Definition get_vcpu (v : nat) : M vcpu := fun d =>
  match vcpu_at d v with
  | Some vc => Ok vc d []
  | None => Fault []
  end.

Definition set_d_vcpu (d : domain) (l : list (option vcpu)) : domain :=
  mk_domain (dbase d) (ctlr d) (nr_lines d) (evtchn_irq d) (shared_irqs d)
            (domain_pending_irqs d) l.

Definition put_vcpu (v : nat) (vc : vcpu) : M unit := fun d =>
  Ok tt (set_d_vcpu d (<[v := Some vc]> (d_vcpu d))) [].

Definition set_private_irqs (vc : vcpu) (r : vgic_irq_rank) : vcpu :=
  mk_vcpu (pause_flags vc) (is_running vc) (processor vc)
          (evtchn_upcall_pending vc) r (vcpu_pending_irqs vc)
          (inflight_irqs vc) (lr_pending vc).

Definition set_vcpu_pending_irqs (vc : vcpu) (l : list pending_irq) : vcpu :=
  mk_vcpu (pause_flags vc) (is_running vc) (processor vc)
          (evtchn_upcall_pending vc) (private_irqs vc) l
          (inflight_irqs vc) (lr_pending vc).

Definition set_inflight_irqs (vc : vcpu) (l : list pending_ptr) : vcpu :=
  mk_vcpu (pause_flags vc) (is_running vc) (processor vc)
          (evtchn_upcall_pending vc) (private_irqs vc) (vcpu_pending_irqs vc)
          l (lr_pending vc).

Definition set_lr_pending (vc : vcpu) (l : list pending_ptr) : vcpu :=
  mk_vcpu (pause_flags vc) (is_running vc) (processor vc)
          (evtchn_upcall_pending vc) (private_irqs vc) (vcpu_pending_irqs vc)
          (inflight_irqs vc) l.

Definition set_shared_irqs (d : domain) (l : list vgic_irq_rank) : domain :=
  mk_domain (dbase d) (ctlr d) (nr_lines d) (evtchn_irq d) l
            (domain_pending_irqs d) (d_vcpu d).

Definition set_domain_pending_irqs (d : domain) (l : list pending_irq) : domain :=
  mk_domain (dbase d) (ctlr d) (nr_lines d) (evtchn_irq d) (shared_irqs d)
            l (d_vcpu d).

Definition set_ctlr (d : domain) (x : Z) : domain :=
  mk_domain (dbase d) x (nr_lines d) (evtchn_irq d) (shared_irqs d)
            (domain_pending_irqs d) (d_vcpu d).

(** Reading and writing through a rank pointer. *)
Definition rank_at (d : domain) (p : rank_ptr) : option vgic_irq_rank :=
  match p with
  | private_rank v => private_irqs <$> vcpu_at d v
  | shared_rank i => shared_irqs d !! i
  end.

Definition load_rank (p : rank_ptr) : M vgic_irq_rank := fun d =>
  match rank_at d p with
  | Some r => Ok r d []
  | None => Fault []
  end.

Definition store_rank (p : rank_ptr) (r : vgic_irq_rank) : M unit := fun d =>
  match p with
  | private_rank v =>
      match vcpu_at d v with
      | Some vc => put_vcpu v (set_private_irqs vc r) d
      | None => Fault []
      end
  | shared_rank i =>
      match shared_irqs d !! i with
      | Some _ => Ok tt (set_shared_irqs d (<[i := r]> (shared_irqs d))) []
      | None => Fault []
      end
  end.

(** Reading and writing through a descriptor pointer. *)
Definition pending_at (d : domain) (p : pending_ptr) : option pending_irq :=
  match p with
  | vcpu_pending v i => vc ← vcpu_at d v; vcpu_pending_irqs vc !! i
  | domain_pending i => domain_pending_irqs d !! i
  end.

Definition load_pending (p : pending_ptr) : M pending_irq := fun d =>
  match pending_at d p with
  | Some x => Ok x d []
  | None => Fault []
  end.

Definition store_pending_in (d : domain) (p : pending_ptr) (x : pending_irq) : domain :=
  match p with
  | vcpu_pending v i =>
      match vcpu_at d v with
      | Some vc =>
          set_d_vcpu d
            (<[v := Some (set_vcpu_pending_irqs vc (<[i := x]> (vcpu_pending_irqs vc)))]>
               (d_vcpu d))
      | None => d
      end
  | domain_pending i =>
      set_domain_pending_irqs d (<[i := x]> (domain_pending_irqs d))
  end.

Definition store_pending (p : pending_ptr) (x : pending_irq) : M unit := fun d =>
  match pending_at d p with
  | Some _ => Ok tt (store_pending_in d p x) []
  | None => Fault []
  end.

Definition set_p_status (x : pending_irq) (s : Z) : pending_irq :=
  mk_pending (p_irq x) s (p_priority x) (p_desc x).

Definition pending_ptr_eqb (p q : pending_ptr) : bool :=
  match p, q with
  | vcpu_pending v i, vcpu_pending w j => Nat.eqb v w && Nat.eqb i j
  | domain_pending i, domain_pending j => Nat.eqb i j
  | _, _ => false
  end.

(** [!list_empty(&p->inflight)]: the descriptor is linked into the inflight
    list of some vCPU of the domain. *)
Definition on_list (sel : vcpu -> list pending_ptr) (d : domain) (p : pending_ptr) : bool :=
  existsb (fun slot =>
             match slot with
             | Some vc => existsb (pending_ptr_eqb p) (sel vc)
             | None => false
             end) (d_vcpu d).

Definition inflight_linked : domain -> pending_ptr -> bool := on_list inflight_irqs.
Definition lr_queue_linked : domain -> pending_ptr -> bool := on_list lr_pending.

(** ** Register rank store *)

(** [vgic_rank_offset]: the rank of register word [n >> s] of a register
    group with [b] bits per interrupt; [None] is the NULL result. *)
Definition vgic_rank_offset (v : nat) (b n s : Z) : M (option rank_ptr) :=
  let rank := REG_RANK_NR b (Z.shiftr n s) in
  _ <- get_vcpu v;;
  d <- get;;
  if rank =? 0 then ret (Some (private_rank v))
  else if rank <=? DOMAIN_NR_RANKS d then ret (Some (shared_rank (Z.to_nat (rank - 1))))
  else ret None.

Definition vgic_rank_irq (v : nat) (irq : nat) : M (option rank_ptr) :=
  vgic_rank_offset v 8 (Z.of_nat irq) DABT_WORD.

(** [irq_to_pending]: the descriptor of a line.  The private table is an
    array inside [struct vcpu] (an address computation); the shared table is
    reached through [v->domain]. *)
Definition irq_to_pending (v : nat) (irq : nat) : M pending_ptr :=
  if (irq <? 32)%nat then ret (vcpu_pending v irq)
  else (_ <- get_vcpu v;; ret (domain_pending (irq - 32))).

(** The value [irq_to_pending] returns. *)
Definition pending_ptr_of (v : nat) (irq : nat) : pending_ptr :=
  if (irq <? 32)%nat then vcpu_pending v irq else domain_pending (irq - 32).

Definition is_vcpu_online (vc : vcpu) : bool :=
  negb (test_bit _VPF_down (pause_flags vc)).

Definition u8 (x : Z) : Z := Z.land x 0xff.

(** The descriptor [p] taken out of the two queues of a vCPU. *)
Definition unlink_pending (p : pending_ptr) (vc : vcpu) : vcpu :=
  let keep := List.filter (fun q => negb (pending_ptr_eqb p q)) in
  set_lr_pending (set_inflight_irqs vc (keep (inflight_irqs vc)))
                 (keep (lr_pending vc)).

(** The descriptor [p] taken out of the queues of every vCPU. *)
Definition unlink_everywhere (p : pending_ptr) (d : domain) : domain :=
  set_d_vcpu d (map (option_map (unlink_pending p)) (d_vcpu d)).

(** Modelled from the spec: [gic_remove_from_queues] of gic.c (not among the
    sources).  Sections 4.3 and 6: the physical interface is asked to
    "remove a line from all physical delivery queues", which removes the
    line "from whatever queue holds it (inflight list or hardware
    list-register queue)".  The call is recorded as well. *)
Definition gic_remove_from_queues (v irq : nat) : M unit :=
  p <- irq_to_pending v irq;;
  emit (GicRemoveFromQueues v irq);;
  d <- get;;
  put (unlink_everywhere p d).

Section Vgic.

(** The vCPU executing on this processor ([current]). *)
Variable current : nat.

(** ** Injection engine *)

(** The [list_for_each_entry] loop of [vgic_vcpu_inject_irq] together with
    the [list_add_tail] after it: [n] is linked in front of the first entry
    whose priority value is greater, at the tail when there is none. *)
Fixpoint inflight_add (priority : Z) (n : pending_ptr) (l : list pending_ptr)
  : M (list pending_ptr) :=
  match l with
  | [] => ret [n]
  | iter :: rest =>
      it <- load_pending iter;;
      if p_priority it >? priority then ret (n :: iter :: rest)
      else (rest' <- inflight_add priority n rest;; ret (iter :: rest'))
  end.

(** The code after the label [out] of [vgic_vcpu_inject_irq]. *)
Definition inject_out (v : nat) : M unit :=
  vc <- get_vcpu v;;
  let running := is_running vc in
  vcpu_unblock v;;
  if running && negb (v =? current)%nat
  then smp_send_event_check_mask (processor vc)
  else ret tt.

Definition vgic_vcpu_inject_irq (v : nat) (irq : nat) : M unit :=
  rank <- vgic_rank_irq v irq;;
  n <- irq_to_pending v irq;;
  np <- load_pending n;;
  d <- get;;
  if inflight_linked d n then
    store_pending n (set_p_status np (set_bit GIC_IRQ_GUEST_QUEUED (p_status np)));;
    gic_raise_inflight_irq v irq;;
    inject_out v
  else
    vc <- get_vcpu v;;
    (* vcpu offline *)
    if test_bit _VPF_down (pause_flags vc) then ret tt
    else
      rk <- match rank with Some rp => load_rank rp | None => fault end;;
      let priority :=
        u8 (vgic_byte_read
              (word_at (ipriority rk) (REG_RANK_INDEX 8 (Z.of_nat irq) DABT_WORD))
              false (Z.land (Z.of_nat irq) 0x3)) in
      let np' := mk_pending irq (set_bit GIC_IRQ_GUEST_QUEUED (p_status np))
                            priority (p_desc np) in
      store_pending n np';;
      (* the irq is enabled *)
      (if test_bit GIC_IRQ_GUEST_ENABLED (p_status np')
       then gic_raise_guest_irq v irq priority else ret tt);;
      vc <- get_vcpu v;;
      l <- inflight_add priority n (inflight_irqs vc);;
      put_vcpu v (set_inflight_irqs vc l);;
      inject_out v.

(** ** Enable/disable transition *)

(** The body of the [while] loop of [vgic_disable_irqs] for bit [i]. *)
Definition vgic_disable_irq (v : nat) (n : Z) (i : nat) : M unit :=
  let irq := (i + 32 * Z.to_nat n)%nat in
  p <- irq_to_pending v irq;;
  pd <- load_pending p;;
  store_pending p (set_p_status pd (clear_bit GIC_IRQ_GUEST_ENABLED (p_status pd)));;
  gic_remove_from_queues v irq;;
  pd <- load_pending p;;
  match p_desc pd with
  | Some k => emit (DescDisable k)
  | None => ret tt
  end.

Definition vgic_disable_irqs (v : nat) (r : Z) (n : Z) : M unit :=
  for_each (set_bits (u32 r) 32) (vgic_disable_irq v n).

(** The body of the [while] loop of [vgic_enable_irqs] for bit [i]. *)
Definition vgic_enable_irq (v : nat) (n : Z) (i : nat) : M unit :=
  let irq := (i + 32 * Z.to_nat n)%nat in
  p <- irq_to_pending v irq;;
  pd <- load_pending p;;
  store_pending p (set_p_status pd (set_bit GIC_IRQ_GUEST_ENABLED (p_status pd)));;
  _ <- get_vcpu v;;
  d <- get;;
  force <- (if (irq =? evtchn_irq d)%nat
            then (cv <- get_vcpu current;;
                  ret (evtchn_upcall_pending cv && negb (inflight_linked d p)))
            else ret false);;
  (if force : bool then vgic_vcpu_inject_irq v irq
   else
     pd <- load_pending p;;
     if inflight_linked d p && negb (test_bit GIC_IRQ_GUEST_VISIBLE (p_status pd))
     then gic_raise_guest_irq v irq (p_priority pd)
     else ret tt);;
  pd <- load_pending p;;
  match p_desc pd with
  | Some k => emit (DescEnable k)
  | None => ret tt
  end.

Definition vgic_enable_irqs (v : nat) (r : Z) (n : Z) : M unit :=
  for_each (set_bits (u32 r) 32) (vgic_enable_irq v n).

(** ** SGI dispatcher *)

(** The [GICD_SGI_TARGET_OTHERS] loop: every online vCPU but the sender. *)
Definition sgi_others_mask (d : domain) : Z :=
  fold_left
    (fun vcpu_mask i =>
       match vcpu_at d i with
       | Some vc =>
           if negb (i =? current)%nat && is_vcpu_online vc
           then set_bit (Z.of_nat i) vcpu_mask else vcpu_mask
       | None => vcpu_mask
       end)
    (seq 0 (length (d_vcpu d))) 0.

(** [vgic_to_sgi].  The two [ASSERT]s (the vCPU ids fit the mask, the line
    id is below 16) are debug checks and are not modelled. *)
Definition vgic_to_sgi (v : nat) (sgir : Z) : M Z :=
  _ <- get_vcpu v;;
  d <- get;;
  let filter := Z.land sgir GICD_SGI_TARGET_LIST_MASK in
  let virtual_irq := Z.to_nat (Z.land sgir GICD_SGI_INTID_MASK) in
  let dispatch (vcpu_mask : Z) : M Z :=
    for_each (set_bits vcpu_mask (length (d_vcpu d)))
      (fun vcpuid =>
         d <- get;;
         if match d_vcpu d !! vcpuid with
            | Some (Some vc) => negb (is_vcpu_online vc)
            | _ => false   (* d->vcpu[vcpuid] == NULL *)
            end
         then printk (wrong_cpu_target_list sgir vcpu_mask)
         else vgic_vcpu_inject_irq vcpuid virtual_irq);;
    ret 1 in
  if filter =? GICD_SGI_TARGET_LIST then
    dispatch (Z.shiftr (Z.land sgir GICD_SGI_TARGET_MASK) GICD_SGI_TARGET_SHIFT)
  else if filter =? GICD_SGI_TARGET_OTHERS then
    dispatch (sgi_others_mask d)
  else if filter =? GICD_SGI_TARGET_SELF then
    dispatch (set_bit (Z.of_nat current) 0)
  else
    printk (unhandled_sgir_filter sgir);;
    ret 0.

(** ** MMIO dispatch *)

Definition in_range (lo hi x : Z) : bool := (lo <=? x) && (x <=? hi).

Definition set_ienable (rk : vgic_irq_rank) (x : Z) : vgic_irq_rank :=
  mk_rank x (iactive rk) (ipend rk) (pendsgi rk) (icfg rk) (ipriority rk) (itargets rk).
Definition set_iactive (rk : vgic_irq_rank) (x : Z) : vgic_irq_rank :=
  mk_rank (ienable rk) x (ipend rk) (pendsgi rk) (icfg rk) (ipriority rk) (itargets rk).
Definition set_icfg (rk : vgic_irq_rank) (l : list Z) : vgic_irq_rank :=
  mk_rank (ienable rk) (iactive rk) (ipend rk) (pendsgi rk) l (ipriority rk) (itargets rk).
Definition set_ipriority (rk : vgic_irq_rank) (l : list Z) : vgic_irq_rank :=
  mk_rank (ienable rk) (iactive rk) (ipend rk) (pendsgi rk) (icfg rk) l (itargets rk).
Definition set_itargets (rk : vgic_irq_rank) (l : list Z) : vgic_irq_rank :=
  mk_rank (ienable rk) (iactive rk) (ipend rk) (pendsgi rk) (icfg rk) (ipriority rk) l.

(** The labels [bad_width] and [read_as_zero] of [vgic_distr_mmio_read]. *)
Definition read_bad_width (dabt : hsr_dabt) (gicd_reg : Z) : M (Z * option Z) :=
  printk (bad_read_width (dabt_size dabt) gicd_reg);;
  domain_crash_synchronous.

Definition read_as_zero (dabt : hsr_dabt) (gicd_reg : Z) : M (Z * option Z) :=
  if negb (dabt_size dabt =? DABT_WORD) then read_bad_width dabt gicd_reg
  else ret (1, Some 0).

(** The [switch ( gicd_reg )] of [vgic_distr_mmio_read] with its two
    labels.  The result is the returned [int] and the value stored into the
    guest register [*r], if any. *)
Definition read_switch (v : nat) (dabt : hsr_dabt) (gicd_reg : Z) : M (Z * option Z) :=
  d <- get;;
  let bad_width := read_bad_width dabt gicd_reg in
  let read_as_zero := read_as_zero dabt gicd_reg in
  let not_word := negb (dabt_size dabt =? DABT_WORD) in
  let not_byte_or_word :=
    negb (dabt_size dabt =? DABT_BYTE) && negb (dabt_size dabt =? DABT_WORD) in
  (* a register of a rank: [rank == NULL] reads as zero *)
  let of_rank (b base : Z) (f : vgic_irq_rank -> Z) : M (Z * option Z) :=
    rank <- vgic_rank_offset v b (gicd_reg - base) DABT_WORD;;
    match rank with
    | None => read_as_zero
    | Some rp => rk <- load_rank rp;; ret (1, Some (f rk))
    end in
  if gicd_reg =? GICD_CTLR then
    if not_word then bad_width else ret (1, Some (ctlr d))
  else if gicd_reg =? GICD_TYPER then
    if not_word then bad_width
    else ret (1, Some (Z.lor (Z.land (Z.shiftl (max_vcpus d) 5) GICD_TYPE_CPUS)
                             (Z.land (Z.quot (nr_lines d) 32) GICD_TYPE_LINES)))
  else if gicd_reg =? GICD_IIDR then
    if not_word then bad_width else ret (1, Some 0x0000043b)
  (* Implementation defined -- read as zero *)
  else if in_range 0x020 0x03c gicd_reg then read_as_zero
  else if in_range GICD_IGROUPR GICD_IGROUPRN gicd_reg then read_as_zero
  else if in_range GICD_ISENABLER GICD_ISENABLERN gicd_reg then
    if not_word then bad_width else of_rank 1 GICD_ISENABLER ienable
  else if in_range GICD_ICENABLER GICD_ICENABLERN gicd_reg then
    if not_word then bad_width else of_rank 1 GICD_ICENABLER ienable
  else if in_range GICD_ISPENDR GICD_ISPENDRN gicd_reg then
    if not_byte_or_word then bad_width
    else of_rank 1 GICD_ISPENDR
           (fun rk => vgic_byte_read (ipend rk) (dabt_sign dabt) gicd_reg)
  else if in_range GICD_ICPENDR GICD_ICPENDRN gicd_reg then
    if not_byte_or_word then bad_width
    else of_rank 1 GICD_ICPENDR
           (fun rk => vgic_byte_read (ipend rk) (dabt_sign dabt) gicd_reg)
  else if in_range GICD_ISACTIVER GICD_ISACTIVERN gicd_reg then
    if not_word then bad_width else of_rank 1 GICD_ISACTIVER iactive
  else if in_range GICD_ICACTIVER GICD_ICACTIVERN gicd_reg then
    if not_word then bad_width else of_rank 1 GICD_ICACTIVER iactive
  else if in_range GICD_ITARGETSR GICD_ITARGETSRN gicd_reg then
    if not_byte_or_word then bad_width
    else of_rank 8 GICD_ITARGETSR
           (fun rk =>
              let r := word_at (itargets rk)
                         (REG_RANK_INDEX 8 (gicd_reg - GICD_ITARGETSR) DABT_WORD) in
              if dabt_size dabt =? DABT_BYTE
              then vgic_byte_read r (dabt_sign dabt) gicd_reg else r)
  else if in_range GICD_IPRIORITYR GICD_IPRIORITYRN gicd_reg then
    if negb (dabt_size dabt =? 0) && negb (dabt_size dabt =? DABT_WORD) then bad_width
    else of_rank 8 GICD_IPRIORITYR
           (fun rk =>
              let r := word_at (ipriority rk)
                         (REG_RANK_INDEX 8 (gicd_reg - GICD_IPRIORITYR) DABT_WORD) in
              if dabt_size dabt =? DABT_BYTE
              then vgic_byte_read r (dabt_sign dabt) gicd_reg else r)
  else if in_range GICD_ICFGR GICD_ICFGRN gicd_reg then
    if not_word then bad_width
    else of_rank 2 GICD_ICFGR
           (fun rk => word_at (icfg rk)
                        (REG_RANK_INDEX 2 (gicd_reg - GICD_ICFGR) DABT_WORD))
  else if in_range GICD_NSACR GICD_NSACRN gicd_reg then read_as_zero
  else if gicd_reg =? GICD_SGIR then
    if not_word then bad_width
    (* Write only -- read unknown *)
    else ret (1, Some 0xdeadbeef)
  else if in_range GICD_CPENDSGIR GICD_CPENDSGIRN gicd_reg then
    if not_byte_or_word then bad_width
    else of_rank 1 GICD_CPENDSGIR
           (fun rk => vgic_byte_read (pendsgi rk) (dabt_sign dabt) gicd_reg)
  else if in_range GICD_SPENDSGIR GICD_SPENDSGIRN gicd_reg then
    if not_byte_or_word then bad_width
    else of_rank 1 GICD_SPENDSGIR
           (fun rk => vgic_byte_read (pendsgi rk) (dabt_sign dabt) gicd_reg)
  (* Implementation defined -- read as zero *)
  else if in_range 0xfd0 0xfe4 gicd_reg then read_as_zero
  else if gicd_reg =? GICD_ICPIDR2 then
    if not_word then bad_width
    else (printk (unhandled_read gicd_reg);; ret (0, None))
  (* Implementation defined -- read as zero *)
  else if in_range 0xfec 0xffc gicd_reg then read_as_zero
  (* Reserved -- read as zero *)
  else if in_range 0x00c 0x01c gicd_reg || in_range 0x040 0x07c gicd_reg
          || (gicd_reg =? 0x7fc) || (gicd_reg =? 0xbfc)
          || in_range 0xf04 0xf0c gicd_reg || in_range 0xf30 0xfcc gicd_reg
  then read_as_zero
  else (printk (unhandled_read gicd_reg);; ret (0, None)).

Definition vgic_distr_mmio_read (v : nat) (info : mmio_info) : M (Z * option Z) :=
  _ <- get_vcpu v;;
  d <- get;;
  let gicd_reg := gpa info - dbase d in
  read_switch v (dabt info) gicd_reg.

(** The labels [bad_width] and [write_ignore] of [vgic_distr_mmio_write]. *)
Definition write_bad_width (dabt : hsr_dabt) (gicd_reg : Z) : M Z :=
  printk (bad_write_width (dabt_size dabt) gicd_reg);;
  domain_crash_synchronous.

Definition write_ignore (dabt : hsr_dabt) (gicd_reg : Z) : M Z :=
  if negb (dabt_size dabt =? DABT_WORD) then write_bad_width dabt gicd_reg
  else ret 1.

(** The [switch ( gicd_reg )] of [vgic_distr_mmio_write] with its two
    labels; [r] is the content of the guest register [*r]. *)
Definition write_switch (v : nat) (dabt : hsr_dabt) (gicd_reg : Z) (r : Z) : M Z :=
  d <- get;;
  let bad_width := write_bad_width dabt gicd_reg in
  let write_ignore := write_ignore dabt gicd_reg in
  let not_word := negb (dabt_size dabt =? DABT_WORD) in
  let not_byte_or_word :=
    negb (dabt_size dabt =? DABT_BYTE) && negb (dabt_size dabt =? DABT_WORD) in
  (* a register of a rank: [rank == NULL] ignores the write *)
  let on_rank (b base : Z) (k : rank_ptr -> vgic_irq_rank -> M Z) : M Z :=
    rank <- vgic_rank_offset v b (gicd_reg - base) DABT_WORD;;
    match rank with
    | None => write_ignore
    | Some rp => rk <- load_rank rp;; k rp rk
    end in
  if gicd_reg =? GICD_CTLR then
    if not_word then bad_width
    (* Ignore all but the enable bit *)
    else (put (set_ctlr d (Z.land r GICD_CTL_ENABLE));; ret 1)
  (* R/O -- write ignored *)
  else if (gicd_reg =? GICD_TYPER) || (gicd_reg =? GICD_IIDR) then write_ignore
  (* Implementation defined -- write ignored *)
  else if in_range 0x020 0x03c gicd_reg then write_ignore
  else if in_range GICD_IGROUPR GICD_IGROUPRN gicd_reg then write_ignore
  else if in_range GICD_ISENABLER GICD_ISENABLERN gicd_reg then
    if not_word then bad_width
    else on_rank 1 GICD_ISENABLER (fun rp rk =>
           let tr := ienable rk in
           store_rank rp (set_ienable rk (u32 (Z.lor (ienable rk) r)));;
           vgic_enable_irqs v (Z.land r (Z.lnot tr))
                            (Z.shiftr (gicd_reg - GICD_ISENABLER) DABT_WORD);;
           ret 1)
  else if in_range GICD_ICENABLER GICD_ICENABLERN gicd_reg then
    if not_word then bad_width
    else on_rank 1 GICD_ICENABLER (fun rp rk =>
           let tr := ienable rk in
           store_rank rp (set_ienable rk (u32 (Z.land (ienable rk) (Z.lnot r))));;
           vgic_disable_irqs v (Z.land r tr)
                             (Z.shiftr (gicd_reg - GICD_ICENABLER) DABT_WORD);;
           ret 1)
  else if in_range GICD_ISPENDR GICD_ISPENDRN gicd_reg then
    if not_byte_or_word then bad_width
    else (printk (unhandled_write gicd_reg);; ret 0)
  else if in_range GICD_ICPENDR GICD_ICPENDRN gicd_reg then
    if not_byte_or_word then bad_width
    else (printk (unhandled_write gicd_reg);; ret 0)
  else if in_range GICD_ISACTIVER GICD_ISACTIVERN gicd_reg then
    if not_word then bad_width
    else on_rank 1 GICD_ISACTIVER (fun rp rk =>
           store_rank rp (set_iactive rk (u32 (Z.land (iactive rk) (Z.lnot r))));;
           ret 1)
  else if in_range GICD_ICACTIVER GICD_ICACTIVERN gicd_reg then
    if not_word then bad_width
    else on_rank 1 GICD_ICACTIVER (fun rp rk =>
           store_rank rp (set_iactive rk (u32 (Z.land (iactive rk) (Z.lnot r))));;
           ret 1)
  (* SGI/PPI target is read only *)
  else if in_range GICD_ITARGETSR (GICD_ITARGETSR + 7) gicd_reg then write_ignore
  else if in_range (GICD_ITARGETSR + 8) GICD_ITARGETSRN gicd_reg then
    if not_byte_or_word then bad_width
    else on_rank 8 GICD_ITARGETSR (fun rp rk =>
           let tr := REG_RANK_INDEX 8 (gicd_reg - GICD_ITARGETSR) DABT_WORD in
           store_rank rp
             (set_itargets rk
                (set_word_at (itargets rk) tr
                   (if dabt_size dabt =? DABT_WORD then u32 r
                    else vgic_byte_write (word_at (itargets rk) tr) r gicd_reg)));;
           ret 1)
  else if in_range GICD_IPRIORITYR GICD_IPRIORITYRN gicd_reg then
    if not_byte_or_word then bad_width
    else on_rank 8 GICD_IPRIORITYR (fun rp rk =>
           let tr := REG_RANK_INDEX 8 (gicd_reg - GICD_IPRIORITYR) DABT_WORD in
           store_rank rp
             (set_ipriority rk
                (set_word_at (ipriority rk) tr
                   (if dabt_size dabt =? DABT_WORD then u32 r
                    else vgic_byte_write (word_at (ipriority rk) tr) r gicd_reg)));;
           ret 1)
  (* SGIs *)
  else if gicd_reg =? GICD_ICFGR then write_ignore
  (* PPIs: it is implementation defined if these are writeable *)
  else if gicd_reg =? GICD_ICFGR + 1 then write_ignore
  (* SPIs *)
  else if in_range (GICD_ICFGR + 2) GICD_ICFGRN gicd_reg then
    if not_word then bad_width
    else on_rank 2 GICD_ICFGR (fun rp rk =>
           store_rank rp
             (set_icfg rk
                (set_word_at (icfg rk)
                   (REG_RANK_INDEX 2 (gicd_reg - GICD_ICFGR) DABT_WORD) (u32 r)));;
           ret 1)
  else if in_range GICD_NSACR GICD_NSACRN gicd_reg then write_ignore
  else if gicd_reg =? GICD_SGIR then
    if negb (dabt_size dabt =? 2) then bad_width
    else vgic_to_sgi v r
  else if in_range GICD_CPENDSGIR GICD_CPENDSGIRN gicd_reg then
    if not_byte_or_word then bad_width
    else (printk (unhandled_write gicd_reg);; ret 0)
  else if in_range GICD_SPENDSGIR GICD_SPENDSGIRN gicd_reg then
    if not_byte_or_word then bad_width
    else (printk (unhandled_write gicd_reg);; ret 0)
  (* Implementation defined -- write ignored *)
  else if in_range 0xfd0 0xfe4 gicd_reg then write_ignore
  (* R/O -- write ignore *)
  else if gicd_reg =? GICD_ICPIDR2 then write_ignore
  (* Implementation defined -- write ignored *)
  else if in_range 0xfec 0xffc gicd_reg then write_ignore
  (* Reserved -- write ignored *)
  else if in_range 0x00c 0x01c gicd_reg || in_range 0x040 0x07c gicd_reg
          || (gicd_reg =? 0x7fc) || (gicd_reg =? 0xbfc)
          || in_range 0xf04 0xf0c gicd_reg || in_range 0xf30 0xfcc gicd_reg
  then write_ignore
  else (printk (unhandled_write gicd_reg);; ret 0).

Definition vgic_distr_mmio_write (v : nat) (info : mmio_info) (r : Z) : M Z :=
  _ <- get_vcpu v;;
  d <- get;;
  let gicd_reg := gpa info - dbase d in
  write_switch v (dabt info) gicd_reg r.

End Vgic.

(** ** Initialisation *)

(** [xzalloc]'ed rank and descriptor. *)
Definition zero_rank : vgic_irq_rank :=
  mk_rank 0 0 0 0 (repeat 0 2) (repeat 0 8) (repeat 0 8).
Definition zero_pending : pending_irq := mk_pending 0 0 0 None.

(** [vcpu_vgic_init] (the allocation succeeds): a zeroed private rank whose
    SGI and PPI targets are this vCPU, 32 zeroed descriptors, empty lists. *)
Definition vcpu_vgic_init (vc : vcpu) (vcpu_id : Z) : vcpu :=
  let t := Z.lor (Z.lor (Z.lor (Z.shiftl 1 (vcpu_id + 0)) (Z.shiftl 1 (vcpu_id + 8)))
                        (Z.shiftl 1 (vcpu_id + 16)))
                 (Z.shiftl 1 (vcpu_id + 24)) in
  mk_vcpu (pause_flags vc) (is_running vc) (processor vc)
          (evtchn_upcall_pending vc)
          (set_itargets zero_rank (repeat t 8))
          (repeat zero_pending 32) [] [].

(** [domain_vgic_init] (the allocations succeed); [lines] is
    [gic_number_lines() - 32] for the hardware domain and 0 for a guest. *)
Definition domain_vgic_init (d : domain) (lines : Z) : domain :=
  mk_domain (dbase d) 0 lines (evtchn_irq d)
            (repeat zero_rank (Z.to_nat (Z.quot (lines + 31) 32)))
            (repeat zero_pending (Z.to_nat lines))
            (d_vcpu d).

(** ** Concrete domains used in the examples *)
Module Ex.
Definition vcpu_blank : vcpu :=
  mk_vcpu 0 false 0 false zero_rank [] [] [].

(** A guest (no shared lines) with two vCPU slots: vCPU 0 is online and
    slot 1 has no vCPU.  The distributor is mapped at 0x2c001000 and the
    event channel uses PPI 31. *)
Definition guest : domain :=
  domain_vgic_init
    (mk_domain 0x2c001000 0 0 31 [] [] [Some (vcpu_vgic_init vcpu_blank 0); None])
    0.

(** The hardware domain with 32 shared lines and two online vCPUs. *)
Definition hwdom : domain :=
  domain_vgic_init
    (mk_domain 0x2c001000 0 0 31 [] []
               [Some (vcpu_vgic_init vcpu_blank 0);
                Some (vcpu_vgic_init vcpu_blank 1)])
    32.

Definition access (gicd_reg : Z) (sz : Z) : mmio_info :=
  mk_info (0x2c001000 + gicd_reg) (mk_dabt sz false 0).

(** The domain of a terminated computation. *)
Definition final {A} (r : result A) (dflt : domain) : domain :=
  match r with
  | Ok _ d _ => d
  | Crash d _ => d
  | Fault _ => dflt
  end.

(** [guest] after the guest wrote the priorities 0x80, 0x10, 0x80, 0x40 of
    the lines 0..3 with one word access. *)
Definition guest_prio : domain :=
  final (vgic_distr_mmio_write 0 0 (access GICD_IPRIORITYR DABT_WORD) 0x40801080 guest)
        guest.

(** [guest_prio] after the lines 0, 1, 2, 3 were injected in that order
    into vCPU 0. *)
Definition injected (d : domain) (irq : nat) : domain :=
  final (vgic_vcpu_inject_irq 0 0 irq d) d.
Definition inflight1 : domain := injected guest_prio 0.
Definition inflight2 : domain := injected inflight1 1.
Definition inflight3 : domain := injected inflight2 2.
Definition inflight4 : domain := injected inflight3 3.

(** [vcpu 0] of [guest] taken offline. *)
Definition guest_offline : domain :=
  set_d_vcpu guest
    [Some (mk_vcpu (set_bit _VPF_down 0) false 0 false
                   (private_irqs (vcpu_vgic_init vcpu_blank 0))
                   (repeat zero_pending 32) [] []);
     None].
End Ex.

(** ** The register table of the specification *)

(** The register groups of the table in section 4.2 of the specification. *)
Inductive reg_group :=
| rg_control | rg_type_id | rg_group | rg_enable | rg_pending | rg_active
| rg_target | rg_priority | rg_config | rg_nsacr | rg_sgi_generate
| rg_sgi_pending | rg_reserved | rg_peripheral_id.

(** The "Width allowed" column of that table. *)
Definition spec_width_allowed (g : reg_group) (sz : Z) : bool :=
  match g with
  | rg_pending | rg_target | rg_priority | rg_sgi_pending =>
      (sz =? DABT_BYTE) || (sz =? DABT_WORD)
  | _ => sz =? DABT_WORD
  end.

(** The offsets that are matched by a [case] label of the two switches
    (both switches match the same offsets), with the register group of the
    label.  A single-word register has one label, its first byte; a register
    range has the labels from its first byte to the first byte of its last
    word. *)
Definition label_reg_group (gicd_reg : Z) : option reg_group :=
  if gicd_reg =? GICD_CTLR then Some rg_control
  else if (gicd_reg =? GICD_TYPER) || (gicd_reg =? GICD_IIDR) then Some rg_type_id
  else if in_range GICD_IGROUPR GICD_IGROUPRN gicd_reg then Some rg_group
  else if in_range GICD_ISENABLER GICD_ISENABLERN gicd_reg
          || in_range GICD_ICENABLER GICD_ICENABLERN gicd_reg then Some rg_enable
  else if in_range GICD_ISPENDR GICD_ISPENDRN gicd_reg
          || in_range GICD_ICPENDR GICD_ICPENDRN gicd_reg then Some rg_pending
  else if in_range GICD_ISACTIVER GICD_ISACTIVERN gicd_reg
          || in_range GICD_ICACTIVER GICD_ICACTIVERN gicd_reg then Some rg_active
  else if in_range GICD_IPRIORITYR GICD_IPRIORITYRN gicd_reg then Some rg_priority
  else if in_range GICD_ITARGETSR GICD_ITARGETSRN gicd_reg then Some rg_target
  else if in_range GICD_ICFGR GICD_ICFGRN gicd_reg then Some rg_config
  else if in_range GICD_NSACR GICD_NSACRN gicd_reg then Some rg_nsacr
  else if gicd_reg =? GICD_SGIR then Some rg_sgi_generate
  else if in_range GICD_CPENDSGIR GICD_CPENDSGIRN gicd_reg
          || in_range GICD_SPENDSGIR GICD_SPENDSGIRN gicd_reg then Some rg_sgi_pending
  else if gicd_reg =? GICD_ICPIDR2 then Some rg_peripheral_id
  else if in_range 0x020 0x03c gicd_reg
          || in_range 0xfd0 0xfe4 gicd_reg || in_range 0xfec 0xffc gicd_reg
          || in_range 0x00c 0x01c gicd_reg || in_range 0x040 0x07c gicd_reg
          || (gicd_reg =? 0x7fc) || (gicd_reg =? 0xbfc)
          || in_range 0xf04 0xf0c gicd_reg || in_range 0xf30 0xfcc gicd_reg
  then Some rg_reserved
  else None.

(** The offsets of each register group, as intervals. *)
Definition group_offsets (g : reg_group) (x : Z) : Prop :=
  match g with
  | rg_control => x = 0x000
  | rg_type_id => x = 0x004 \/ x = 0x008
  | rg_group => 0x080 <= x <= 0x0fc
  | rg_enable => 0x100 <= x <= 0x17c \/ 0x180 <= x <= 0x1fc
  | rg_pending => 0x200 <= x <= 0x27c \/ 0x280 <= x <= 0x2fc
  | rg_active => 0x300 <= x <= 0x37c \/ 0x380 <= x <= 0x3fc
  | rg_priority => 0x400 <= x <= 0x7f8
  | rg_target => 0x800 <= x <= 0xbf8
  | rg_config => 0xc00 <= x <= 0xcfc
  | rg_nsacr => 0xe00 <= x <= 0xefc
  | rg_sgi_generate => x = 0xf00
  | rg_sgi_pending => 0xf10 <= x <= 0xf1c \/ 0xf20 <= x <= 0xf2c
  | rg_peripheral_id => x = 0xfe8
  | rg_reserved =>
      0x00c <= x <= 0x01c \/ 0x020 <= x <= 0x03c \/ 0x040 <= x <= 0x07c \/
      x = 0x7fc \/ x = 0xbfc \/ 0xf04 <= x <= 0xf0c \/
      0xf30 <= x <= 0xfcc \/ 0xfd0 <= x <= 0xfe4 \/ 0xfec <= x <= 0xffc
  end.

(** Following the words of the specification ("a defined register accessed
    with an unsupported width"; the offset is "the byte offset into the
    distributor's fixed 4 KiB register frame"): the registers of the table
    are 32-bit words, and a byte offset belongs to the register whose word
    holds it. *)
Definition spec_reg_group (gicd_reg : Z) : option reg_group :=
  label_reg_group (4 * (gicd_reg / 4)).

(** ** The inflight list as a priority queue *)

(** The snapshotted priority of a linked descriptor. *)
Definition prio_of (d : domain) (p : pending_ptr) : Z :=
  match pending_at d p with
  | Some x => p_priority x
  | None => 0
  end.

Definition inflight_of (d : domain) (v : nat) : list pending_ptr :=
  match vcpu_at d v with
  | Some vc => inflight_irqs vc
  | None => []
  end.

Definition lr_pending_of (d : domain) (v : nat) : list pending_ptr :=
  match vcpu_at d v with
  | Some vc => lr_pending vc
  | None => []
  end.

(** The priorities of the inflight list of vCPU [v], head first. *)
Definition inflight_priorities (d : domain) (v : nat) : list Z :=
  map (prio_of d) (inflight_of d v).

(** Every inflight list is in ascending order of priority value. *)
Definition inflight_sorted (d : domain) : Prop :=
  forall v, StronglySorted Z.le (inflight_priorities d v).

(** What a store through the descriptor pointer [p] does to vCPU [w]. *)
Definition stored_in_vcpu (p : pending_ptr) (x : pending_irq) (w : nat) (vc : vcpu) : vcpu :=
  match p with
  | vcpu_pending v i =>
      if (v =? w)%nat
      then set_vcpu_pending_irqs vc (<[i := x]> (vcpu_pending_irqs vc))
      else vc
  | domain_pending _ => vc
  end.

(** The number of entries of the list [l] that are the descriptor [p]. *)
Definition entries (l : list pending_ptr) (p : pending_ptr) : nat :=
  length (List.filter (pending_ptr_eqb p) l).

(** The call of the handler of the backing physical interrupt, if any. *)
Definition desc_events (e : nat -> event) (pd : pending_irq) : list event :=
  match p_desc pd with
  | Some k => [e k]
  | None => []
  end.

(** What [vgic_disable_irqs] guarantees for the line of a set bit. *)
Definition line_disabled (v irq : nat) (d : domain) (tr : list event) : Prop :=
  exists pd,
    pending_at d (pending_ptr_of v irq) = Some pd /\
    test_bit GIC_IRQ_GUEST_ENABLED (p_status pd) = false /\
    inflight_linked d (pending_ptr_of v irq) = false /\
    lr_queue_linked d (pending_ptr_of v irq) = false /\
    In (GicRemoveFromQueues v irq) tr /\
    (forall k, p_desc pd = Some k -> In (DescDisable k) tr).

(** Line [irq] is in an inflight list (vCPU [w] has [cnt w] entries for
    it), it is not visible to the guest and its snapshotted priority is
    [prio]. *)
Definition line_inflight_hidden (v irq : nat) (prio : Z) (cnt : nat -> nat)
  (d : domain) : Prop :=
  (exists pd,
      pending_at d (pending_ptr_of v irq) = Some pd /\
      test_bit GIC_IRQ_GUEST_VISIBLE (p_status pd) = false /\
      p_priority pd = prio) /\
  (forall w, entries (inflight_of d w) (pending_ptr_of v irq) = cnt w) /\
  (exists w, (0 < cnt w)%nat).

(** What [vgic_enable_irqs] guarantees for such a line: it was raised at
    the physical interface, the number of its list entries is what it was,
    and it is enabled. *)
Definition line_raised (v irq : nat) (prio : Z) (cnt : nat -> nat)
  (d : domain) (tr : list event) : Prop :=
  In (GicRaiseGuestIrq v irq prio) tr /\
  (forall w, entries (inflight_of d w) (pending_ptr_of v irq) = cnt w) /\
  (exists pd,
      pending_at d (pending_ptr_of v irq) = Some pd /\
      test_bit GIC_IRQ_GUEST_ENABLED (p_status pd) = true).

(** The calls made after the label [out] of [vgic_vcpu_inject_irq]. *)
Definition notify_events (cur v : nat) (vc : vcpu) : list event :=
  VcpuUnblock v ::
  (if is_running vc && negb (v =? cur)%nat
   then [SmpSendEventCheckMask (processor vc)] else []).

(** The domains reached from one without inflight interrupts by calls of
    [vgic_vcpu_inject_irq] that return. *)
Inductive inject_reachable : domain -> Prop :=
| reach_empty d :
    (forall v, inflight_of d v = []) -> inject_reachable d
| reach_inject d cur v irq d' tr :
    inject_reachable d ->
    vgic_vcpu_inject_irq cur v irq d = Ok tt d' tr ->
    inject_reachable d'.

(** The call returned normally. *)
Definition returns {A} (r : result A) (a : A) : Prop :=
  exists d tr, r = Ok a d tr.



(** ** Further operations and predicates *)

(** An outcome that left the domain [d] as it was and called nothing but
    the console and, for a crash, [domain_crash_synchronous]. *)
Definition outcome_pure {A} (d : domain) (r : result A) : Prop :=
  match r with
  | Ok _ d' tr => d' = d /\ forall e, In e tr -> exists m, e = Printk m
  | Crash d' tr =>
      d' = d /\ exists m, tr = [Printk m; DomainCrashSynchronous]
  | Fault tr => tr = []
  end.

(** A computation that never ends in [domain_crash_synchronous]. *)
Definition no_crash {A} (m : M A) : Prop :=
  forall d d' tr, m d <> Crash d' tr.

(** If the outcome is a crash, the domain is still [d] and only the
    diagnostic was printed. *)
Definition crash_before_any_store {A} (d : domain) (r : result A) : Prop :=
  match r with
  | Crash d' tr => d' = d /\ exists m, tr = [Printk m; DomainCrashSynchronous]
  | _ => True
  end.

(** The case labels of [vgic_distr_mmio_write] that lead to [write_ignore]
    without touching a rank. *)
Definition write_ignore_case (g : Z) : bool :=
  (g =? GICD_TYPER) || (g =? GICD_IIDR)
  || in_range 0x020 0x03c g
  || in_range GICD_IGROUPR GICD_IGROUPRN g
  || in_range GICD_ITARGETSR (GICD_ITARGETSR + 7) g
  || (g =? GICD_ICFGR) || (g =? GICD_ICFGR + 1)
  || in_range GICD_NSACR GICD_NSACRN g
  || in_range 0xfd0 0xfe4 g
  || (g =? GICD_ICPIDR2)
  || in_range 0xfec 0xffc g
  || in_range 0x00c 0x01c g || in_range 0x040 0x07c g
  || (g =? 0x7fc) || (g =? 0xbfc)
  || in_range 0xf04 0xf0c g || in_range 0xf30 0xfcc g.

(** The case labels of [vgic_distr_mmio_read] that lead to [read_as_zero]
    without touching a rank. *)
Definition read_as_zero_case (g : Z) : bool :=
  in_range 0x020 0x03c g
  || in_range GICD_IGROUPR GICD_IGROUPRN g
  || in_range GICD_NSACR GICD_NSACRN g
  || in_range 0xfd0 0xfe4 g
  || in_range 0xfec 0xffc g
  || in_range 0x00c 0x01c g || in_range 0x040 0x07c g
  || (g =? 0x7fc) || (g =? 0xbfc)
  || in_range 0xf04 0xf0c g || in_range 0xf30 0xfcc g.

(** The case labels of [vgic_distr_mmio_write] whose emulation is not
    implemented. *)
Definition unhandled_write_case (g : Z) : bool :=
  in_range GICD_ISPENDR GICD_ISPENDRN g
  || in_range GICD_ICPENDR GICD_ICPENDRN g
  || in_range GICD_CPENDSGIR GICD_CPENDSGIRN g
  || in_range GICD_SPENDSGIR GICD_SPENDSGIRN g.

(** The domain after a store through a rank pointer. *)
Definition store_rank_in (d : domain) (rp : rank_ptr) (r : vgic_irq_rank) : domain :=
  match rp with
  | private_rank v =>
      match vcpu_at d v with
      | Some vc => set_d_vcpu d (<[v := Some (set_private_irqs vc r)]> (d_vcpu d))
      | None => d
      end
  | shared_rank i => set_shared_irqs d (<[i := r]> (shared_irqs d))
  end.

(** [d'] has the register state of [d]: the same distributor base, control
    register, line count, event-channel line and ranks, and the same vCPU
    slots are populated. *)
Definition same_registers (d d' : domain) : Prop :=
  dbase d' = dbase d /\
  ctlr d' = ctlr d /\
  nr_lines d' = nr_lines d /\
  evtchn_irq d' = evtchn_irq d /\
  length (d_vcpu d') = length (d_vcpu d) /\
  (forall rp, rank_at d' rp = rank_at d rp) /\
  (forall w, is_Some (vcpu_at d' w) <-> is_Some (vcpu_at d w)).

(** [d'] has the registry of [d]: the same descriptors and the same
    inflight lists. *)
Definition same_registry (d d' : domain) : Prop :=
  (forall p, pending_at d' p = pending_at d p) /\
  (forall w, inflight_of d' w = inflight_of d w).

(** The per-line registers that a guest can write with one word: the case
    labels of the priority registers, of the target registers from byte 8
    on and of the config registers from byte 2 on. *)
Inductive word_reg := wr_priority | wr_targets | wr_config.

Definition word_reg_base (k : word_reg) : Z :=
  match k with
  | wr_priority => GICD_IPRIORITYR
  | wr_targets => GICD_ITARGETSR
  | wr_config => GICD_ICFGR
  end.

Definition word_reg_bits (k : word_reg) : Z :=
  match k with
  | wr_priority | wr_targets => 8
  | wr_config => 2
  end.

Definition word_reg_writable (k : word_reg) (g : Z) : bool :=
  match k with
  | wr_priority => in_range GICD_IPRIORITYR GICD_IPRIORITYRN g
  | wr_targets => in_range (GICD_ITARGETSR + 8) GICD_ITARGETSRN g
  | wr_config => in_range (GICD_ICFGR + 2) GICD_ICFGRN g
  end.

Definition word_reg_array (k : word_reg) (rk : vgic_irq_rank) : list Z :=
  match k with
  | wr_priority => ipriority rk
  | wr_targets => itargets rk
  | wr_config => icfg rk
  end.

(** The sizes of the arrays [ipriority], [itargets] and [icfg]. *)
Definition word_reg_len (k : word_reg) : nat :=
  match k with
  | wr_priority | wr_targets => 8
  | wr_config => 2
  end.

(** The rank after word [i] of the array of register group [k] was set. *)
Definition word_reg_update (k : word_reg) (rk : vgic_irq_rank) (i x : Z)
  : vgic_irq_rank :=
  match k with
  | wr_priority => set_ipriority rk (set_word_at (ipriority rk) i x)
  | wr_targets => set_itargets rk (set_word_at (itargets rk) i x)
  | wr_config => set_icfg rk (set_word_at (icfg rk) i x)
  end.

(** The outcome [r] of a computation started in [d], if it still has a
    domain, has one that is related by [R] to [d]. *)
Definition kept (R : domain -> domain -> Prop) {A} (d : domain) (r : result A) : Prop :=
  match r with
  | Ok _ d' _ | Crash d' _ => R d d'
  | Fault _ => True
  end.

Definition keeps (R : domain -> domain -> Prop) {A} (m : M A) : Prop :=
  forall d, kept R d (m d).

(** [P] holds after if it held before. *)
Definition preserves (P : domain -> Prop) (d d' : domain) : Prop := P d -> P d'.

(** The two bitmap registers over [ienable]. *)
Inductive enable_reg := set_enable | clear_enable.

Definition enable_reg_base (k : enable_reg) : Z :=
  match k with set_enable => GICD_ISENABLER | clear_enable => GICD_ICENABLER end.

Definition enable_reg_last (k : enable_reg) : Z :=
  match k with set_enable => GICD_ISENABLERN | clear_enable => GICD_ICENABLERN end.

(** The enable bits of a rank after the word [r] was written: the bits of
    [r] are added to, or taken from, the old ones. *)
Definition enable_reg_value (k : enable_reg) (old r : Z) : Z :=
  match k with
  | set_enable => u32 (Z.lor old r)
  | clear_enable => u32 (Z.land old (Z.lnot r))
  end.

(** The bits that the write changes: those of [r] that were clear, or set,
    before. *)
Definition enable_reg_changed (k : enable_reg) (old r : Z) : Z :=
  match k with
  | set_enable => Z.land r (Z.lnot old)
  | clear_enable => Z.land r old
  end.

(** The descriptors of [d'] are those of [d] but for the lines of rank [n]
    whose bit is set in [mask]. *)
Definition descriptors_kept (v : nat) (mask n : Z) (d d' : domain) : Prop :=
  forall q,
    (forall i, (i < 32)%nat -> Z.testbit mask (Z.of_nat i) = true ->
               q <> pending_ptr_of v (i + 32 * Z.to_nat n)) ->
    pending_at d' q = pending_at d q.

(** Every descriptor is linked at most once, and into at most one inflight
    list: the [inflight] node of a descriptor is in one list at a time. *)
Definition inflight_unique (d : domain) : Prop :=
  forall p w w',
    (entries (inflight_of d w) p <= 1)%nat /\
    (w <> w' ->
     entries (inflight_of d w) p = 0%nat \/ entries (inflight_of d w') p = 0%nat).

(** Every linked descriptor is a descriptor of the domain. *)
Definition inflight_valid (d : domain) : Prop :=
  forall w q, In q (inflight_of d w) -> is_Some (pending_at d q).

(** The invariant of the registry. *)
Definition registry_ok (d : domain) : Prop :=
  inflight_sorted d /\ inflight_unique d /\ inflight_valid d.

(** One call into the distributor that returns: a trapped read, a trapped
    write or an injection. *)
Inductive vgic_step : domain -> domain -> Prop :=
| step_read v info d res d' tr :
    vgic_distr_mmio_read v info d = Ok res d' tr -> vgic_step d d'
| step_write cur v info r d ret d' tr :
    vgic_distr_mmio_write cur v info r d = Ok ret d' tr -> vgic_step d d'
| step_inject cur v irq d d' tr :
    vgic_vcpu_inject_irq cur v irq d = Ok tt d' tr -> vgic_step d d'.

(** The domains reached from one without inflight interrupts. *)
Inductive vgic_reachable : domain -> Prop :=
| vreach_start d : (forall v, inflight_of d v = []) -> vgic_reachable d
| vreach_step d d' : vgic_reachable d -> vgic_step d d' -> vgic_reachable d'.

(** ** The active bitmaps *)



(** ** Further example domains *)
Module Run.
(** The domain after a word write of [r] to the register at [gicd_reg]. *)
Definition written (cur v : nat) (gicd_reg r : Z) (d : domain) : domain :=
  Ex.final (vgic_distr_mmio_write cur v (Ex.access gicd_reg DABT_WORD) r d) d.

(** [Ex.inflight4] (lines 1, 3, 0, 2 inflight) after the guest enabled the
    lines 0 and 1 and then disabled line 1. *)
Definition enabled01 : domain := written 0 0 GICD_ISENABLER 0x3 Ex.inflight4.
Definition disabled1 : domain := written 0 0 GICD_ICENABLER 0x2 enabled01.

(** [Ex.guest] with an event-channel upcall pending for vCPU 0, as common
    code leaves it on vCPU creation. *)
Definition upcall : domain :=
  set_d_vcpu Ex.guest
    [Some (mk_vcpu 0 false 0 true
                   (private_irqs (vcpu_vgic_init Ex.vcpu_blank 0))
                   (repeat zero_pending 32) [] []);
     None].
End Run.

(** ** The targets of an SGI *)

(** The [vcpu_mask] that [vgic_to_sgi] computes for the three filters it
    handles. *)
Definition sgi_target_mask (cur : nat) (d : domain) (sgir : Z) : option Z :=
  let filter := Z.land sgir GICD_SGI_TARGET_LIST_MASK in
  if filter =? GICD_SGI_TARGET_LIST then
    Some (Z.shiftr (Z.land sgir GICD_SGI_TARGET_MASK) GICD_SGI_TARGET_SHIFT)
  else if filter =? GICD_SGI_TARGET_OTHERS then Some (sgi_others_mask cur d)
  else if filter =? GICD_SGI_TARGET_SELF then Some (set_bit (Z.of_nat cur) 0)
  else None.

(** [d->vcpu[w] != NULL && !is_vcpu_online(d->vcpu[w])]. *)
Definition vcpu_offline (d : domain) (w : nat) : bool :=
  match d_vcpu d !! w with
  | Some (Some vc) => negb (is_vcpu_online vc)
  | _ => false
  end.

(** The calls that deliver something to vCPU [w]. *)
Definition event_for (w : nat) (e : event) : bool :=
  match e with
  | GicRaiseGuestIrq u _ _ | GicRaiseInflightIrq u _ | VcpuUnblock u => (u =? w)%nat
  | _ => false
  end.

(** Nothing was delivered to vCPU [w]: its inflight list and its private
    descriptors are as in [d] and no call concerns it. *)
Definition vcpu_spared (w : nat) (d d' : domain) (tr : list event) : Prop :=
  inflight_of d' w = inflight_of d w /\
  (forall j, pending_at d' (vcpu_pending w j) = pending_at d (vcpu_pending w j)) /\
  forall e, In e tr -> event_for w e = false.

(** The scheduling state of every vCPU is as in [d]. *)
Definition same_pause_flags (d d' : domain) : Prop :=
  forall w, pause_flags <$> vcpu_at d' w = pause_flags <$> vcpu_at d w.

(** The body of the delivery loop of [vgic_to_sgi] for the target
    [vcpuid]. *)
Definition sgi_deliver (cur : nat) (sgir vcpu_mask : Z) (vcpuid : nat) : M unit :=
  d <- get;;
  if vcpu_offline d vcpuid
  then printk (wrong_cpu_target_list sgir vcpu_mask)
  else vgic_vcpu_inject_irq cur vcpuid (Z.to_nat (Z.land sgir GICD_SGI_INTID_MASK)).

(** ** Allocated tables *)

(** [shared_irqs] has the [DOMAIN_NR_RANKS] entries that [domain_vgic_init]
    allocates. *)
Definition ranks_allocated (d : domain) : Prop :=
  DOMAIN_NR_RANKS d <= Z.of_nat (length (shared_irqs d)).

(** The computation did not dereference a pointer outside its table. *)
Definition never_faults {A} (r : result A) : Prop :=
  match r with
  | Fault _ => False
  | _ => True
  end.

(** The case labels of [vgic_distr_mmio_read] that read a register of a
    rank, with the bits per interrupt and the base offset of the group. *)
Definition rank_backed_read (g : Z) : option (Z * Z) :=
  if in_range GICD_ISENABLER GICD_ISENABLERN g then Some (1, GICD_ISENABLER)
  else if in_range GICD_ICENABLER GICD_ICENABLERN g then Some (1, GICD_ICENABLER)
  else if in_range GICD_ISPENDR GICD_ISPENDRN g then Some (1, GICD_ISPENDR)
  else if in_range GICD_ICPENDR GICD_ICPENDRN g then Some (1, GICD_ICPENDR)
  else if in_range GICD_ISACTIVER GICD_ISACTIVERN g then Some (1, GICD_ISACTIVER)
  else if in_range GICD_ICACTIVER GICD_ICACTIVERN g then Some (1, GICD_ICACTIVER)
  else if in_range GICD_ITARGETSR GICD_ITARGETSRN g then Some (8, GICD_ITARGETSR)
  else if in_range GICD_IPRIORITYR GICD_IPRIORITYRN g then Some (8, GICD_IPRIORITYR)
  else if in_range GICD_ICFGR GICD_ICFGRN g then Some (2, GICD_ICFGR)
  else if in_range GICD_CPENDSGIR GICD_CPENDSGIRN g then Some (1, GICD_CPENDSGIR)
  else if in_range GICD_SPENDSGIR GICD_SPENDSGIRN g then Some (1, GICD_SPENDSGIR)
  else None.

(** The case labels of [vgic_distr_mmio_write] that write a register of a
    rank. *)
Definition rank_backed_write (g : Z) : option (Z * Z) :=
  if in_range GICD_ISENABLER GICD_ISENABLERN g then Some (1, GICD_ISENABLER)
  else if in_range GICD_ICENABLER GICD_ICENABLERN g then Some (1, GICD_ICENABLER)
  else if in_range GICD_ISACTIVER GICD_ISACTIVERN g then Some (1, GICD_ISACTIVER)
  else if in_range GICD_ICACTIVER GICD_ICACTIVERN g then Some (1, GICD_ICACTIVER)
  else if in_range (GICD_ITARGETSR + 8) GICD_ITARGETSRN g then Some (8, GICD_ITARGETSR)
  else if in_range GICD_IPRIORITYR GICD_IPRIORITYRN g then Some (8, GICD_IPRIORITYR)
  else if in_range (GICD_ICFGR + 2) GICD_ICFGRN g then Some (2, GICD_ICFGR)
  else None.

(** ** Dropping the inflight interrupts of a vCPU *)

(** [list_del_init(&p->inflight)]: the descriptor leaves the inflight list
    that holds it. *)
Definition del_inflight (p : pending_ptr) (d : domain) : domain :=
  set_d_vcpu d
    (map (option_map
            (fun vc =>
               set_inflight_irqs vc
                 (List.filter (fun q => negb (pending_ptr_eqb p q)) (inflight_irqs vc))))
         (d_vcpu d)).

Section ClearPending.

(** [gic_clear_pending_irqs] of gic.c (not among the sources), called with
    the lock of the vCPU held. *)
Variable gic_clear_pending_irqs : nat -> M unit.

(** [vgic_clear_pending_irqs]: the [list_for_each_entry_safe] loop over
    the inflight list of the vCPU, then the physical interface. *)
Definition vgic_clear_pending_irqs (v : nat) : M unit :=
  vc <- get_vcpu v;;
  for_each (inflight_irqs vc) (fun p => d <- get;; put (del_inflight p d));;
  gic_clear_pending_irqs v.

End ClearPending.

(** A physical interface whose [gic_clear_pending_irqs] empties the
    list-register queue of the vCPU. *)
Definition clear_lr_pending (v : nat) : M unit :=
  vc <- get_vcpu v;;
  put_vcpu v (set_lr_pending vc []).

(** The tables have the sizes the init functions give them: a whole number
    of ranks, one shared descriptor per shared line and 32 private
    descriptors per vCPU. *)
Definition tables_allocated (d : domain) : Prop :=
  0 <= nr_lines d /\
  nr_lines d mod 32 = 0 /\
  ranks_allocated d /\
  nr_lines d <= Z.of_nat (length (domain_pending_irqs d)) /\
  forall w vc, vcpu_at d w = Some vc -> (32 <= length (vcpu_pending_irqs vc))%nat.

(** [d'] has the tables of [d]: the same line count, the same vCPU slots
    and tables of the same sizes. *)
Definition same_shape (d d' : domain) : Prop :=
  nr_lines d' = nr_lines d /\
  length (d_vcpu d') = length (d_vcpu d) /\
  length (shared_irqs d') = length (shared_irqs d) /\
  length (domain_pending_irqs d') = length (domain_pending_irqs d) /\
  forall w,
    (fun vc => length (vcpu_pending_irqs vc)) <$> vcpu_at d' w
    = (fun vc => length (vcpu_pending_irqs vc)) <$> vcpu_at d w.

(** Every vCPU that the SGI [sgir] sent by [cur] targets exists. *)
Definition sgi_targets_exist (cur : nat) (d : domain) (sgir : Z) : Prop :=
  forall mask w,
    sgi_target_mask cur d sgir = Some mask ->
    (w < length (d_vcpu d))%nat ->
    Z.testbit mask (Z.of_nat w) = true ->
    is_Some (vcpu_at d w).

(** The tables are allocated and the registry is consistent. *)
Definition sound (d : domain) : Prop := tables_allocated d /\ registry_ok d.

(** The word that [vcpu_vgic_init] stores into the eight target registers
    of the private rank: the bit of the vCPU in each of the four bytes. *)
Definition own_targets (vcpu_id : Z) : Z :=
  Z.lor (Z.lor (Z.lor (Z.shiftl 1 (vcpu_id + 0)) (Z.shiftl 1 (vcpu_id + 8)))
               (Z.shiftl 1 (vcpu_id + 16)))
        (Z.shiftl 1 (vcpu_id + 24)).

(** * Properties *)

(** ** The monad *)

Lemma after_trace_nil {A} (r : result A) : after_trace [] r = r.
Proof. now destruct r. Qed.

Lemma bind_Ok {A B} (m : M A) (f : A -> M B) d a d1 tr1 :
  m d = Ok a d1 tr1 -> bind m f d = after_trace tr1 (f a d1).
Proof. intros H. unfold bind. now rewrite H. Qed.

(** A step that calls no collaborator. *)
Lemma bind_pure {A B} (m : M A) (f : A -> M B) d a d1 :
  m d = Ok a d1 [] -> bind m f d = f a d1.
Proof. intros H. rewrite (bind_Ok _ _ _ _ _ _ H). apply after_trace_nil. Qed.

Lemma bind_Fault {A B} (m : M A) (f : A -> M B) d tr :
  m d = Fault tr -> bind m f d = Fault tr.
Proof. intros H. unfold bind. now rewrite H. Qed.

Lemma bind_Crash {A B} (m : M A) (f : A -> M B) d d1 tr :
  m d = Crash d1 tr -> bind m f d = Crash d1 tr.
Proof. intros H. unfold bind. now rewrite H. Qed.

Lemma bind_emit {B} e (f : unit -> M B) d :
  bind (emit e) f d = after_trace [e] (f tt d).
Proof. reflexivity. Qed.

Lemma bind_inv_Ok {A B} (m : M A) (f : A -> M B) d b d2 tr :
  bind m f d = Ok b d2 tr ->
  exists a d1 tr1 tr2,
    m d = Ok a d1 tr1 /\ f a d1 = Ok b d2 tr2 /\ tr = tr1 ++ tr2.
Proof.
  unfold bind. destruct (m d) as [a d1 tr1| |]; try discriminate.
  destruct (f a d1) as [b' d2' tr2| |] eqn:E; try discriminate.
  intros [= -> -> <-]. now exists a, d1, tr1, tr2.
Qed.

Lemma after_trace_Ok {A} tr (r : result A) a d t :
  after_trace tr r = Ok a d t -> exists t', r = Ok a d t' /\ t = tr ++ t'.
Proof. destruct r; try discriminate. intros [= -> -> <-]. eauto. Qed.

Lemma get_vcpu_Some d v vc :
  vcpu_at d v = Some vc -> get_vcpu v d = Ok vc d [].
Proof. intros H. unfold get_vcpu. now rewrite H. Qed.

Lemma get_vcpu_inv d v vc d' tr :
  get_vcpu v d = Ok vc d' tr -> vcpu_at d v = Some vc /\ d' = d /\ tr = [].
Proof.
  unfold get_vcpu. destruct (vcpu_at d v); [|discriminate].
  now intros [= -> -> <-].
Qed.

Lemma mmio_read_switch d v vc info :
  vcpu_at d v = Some vc ->
  vgic_distr_mmio_read v info d = read_switch v (dabt info) (gpa info - dbase d) d.
Proof.
  intros Hv. unfold vgic_distr_mmio_read.
  rewrite (bind_pure _ _ _ _ _ (get_vcpu_Some _ _ _ Hv)).
  now rewrite (bind_pure get _ d d d eq_refl).
Qed.

Lemma mmio_write_switch cur d v vc info r :
  vcpu_at d v = Some vc ->
  vgic_distr_mmio_write cur v info r d =
  write_switch cur v (dabt info) (gpa info - dbase d) r d.
Proof.
  intros Hv. unfold vgic_distr_mmio_write.
  rewrite (bind_pure _ _ _ _ _ (get_vcpu_Some _ _ _ Hv)).
  now rewrite (bind_pure get _ d d d eq_refl).
Qed.

(** ** Distributor control and SGI generate registers *)

(** C10: every word-width read of the SGI generate register by a vCPU of the
    domain is handled, stores the constant 0xdeadbeef into the guest
    register, calls no collaborator and leaves the domain as it was. *)
Theorem sgir_read_is_constant d v vc sgn rg :
  vcpu_at d v = Some vc ->
  vgic_distr_mmio_read v
    (mk_info (dbase d + GICD_SGIR) (mk_dabt DABT_WORD sgn rg)) d
  = Ok (1, Some 0xdeadbeef) d [].
Proof.
  intros Hv. rewrite (mmio_read_switch _ _ _ _ Hv). cbn [gpa dabt].
  replace (dbase d + GICD_SGIR - dbase d) with GICD_SGIR by lia.
  reflexivity.
Qed.

Lemma sgir_read_is_constant_witness :
  vgic_distr_mmio_read 0 (Ex.access GICD_SGIR DABT_WORD) Ex.guest
  = Ok (1, Some 0xdeadbeef) Ex.guest [].
Proof.
  exact (sgir_read_is_constant Ex.guest 0 _ false 0%nat eq_refl).
Defined.

(** C7: after a word-width write of [w] to the distributor control register
    a word-width read of it is handled and returns [w AND 1], the retained
    enable bit; in particular it returns 1 after writing 0x00000001 and
    after writing 0xFFFFFFFF. *)
Theorem ctlr_write_then_read cur d v vc w sgn rg sgn' rg' :
  vcpu_at d v = Some vc ->
  exists d',
    vgic_distr_mmio_write cur v
      (mk_info (dbase d + GICD_CTLR) (mk_dabt DABT_WORD sgn rg)) w d = Ok 1 d' [] /\
    vgic_distr_mmio_read v
      (mk_info (dbase d + GICD_CTLR) (mk_dabt DABT_WORD sgn' rg')) d'
      = Ok (1, Some (Z.land w 1)) d' [] /\
    (w = 0x00000001 \/ w = 0xFFFFFFFF -> Z.land w 1 = 1).
Proof.
  intros Hv. exists (set_ctlr d (Z.land w GICD_CTL_ENABLE)).
  split; [|split].
  - rewrite (mmio_write_switch _ _ _ _ _ _ Hv). cbn [gpa dabt].
    replace (dbase d + GICD_CTLR - dbase d) with GICD_CTLR by lia.
    reflexivity.
  - assert (Hv' : vcpu_at (set_ctlr d (Z.land w GICD_CTL_ENABLE)) v = Some vc)
      by exact Hv.
    rewrite (mmio_read_switch _ _ _ _ Hv'). cbn [gpa dabt set_ctlr dbase].
    replace (dbase d + GICD_CTLR - dbase d) with GICD_CTLR by lia.
    reflexivity.
  - intros [-> | ->]; reflexivity.
Qed.

Lemma ctlr_write_then_read_witness :
  exists d',
    vgic_distr_mmio_write 0 0 (Ex.access GICD_CTLR DABT_WORD) 0xFFFFFFFF Ex.guest
      = Ok 1 d' [] /\
    vgic_distr_mmio_read 0 (Ex.access GICD_CTLR DABT_WORD) d'
      = Ok (1, Some 1) d' [].
Proof.
  destruct (ctlr_write_then_read 0 Ex.guest 0 _ 0xFFFFFFFF false 0%nat false 0%nat eq_refl)
    as (d' & Hw & Hr & _).
  exists d'. split; [exact Hw | exact Hr].
Defined.

Lemma write_switch_sgir cur d v dabt r :
  dabt_size dabt = DABT_WORD ->
  write_switch cur v dabt GICD_SGIR r d = vgic_to_sgi cur v r d.
Proof.
  intros Hs. unfold write_switch. rewrite (bind_pure get _ d d d eq_refl).
  rewrite Hs. reflexivity.
Qed.

(** C5 (as the code has it): a word-width write to the SGI generate register
    whose target-filter field is none of the three recognized values emits
    the diagnostic, injects nothing, changes nothing and makes the write
    handler return 0: the access is reported unhandled, and it is not
    treated as a width failure (the domain is not crashed). *)
Theorem sgir_unknown_filter_unhandled cur d v vc sgn rg sgir :
  vcpu_at d v = Some vc ->
  Z.land sgir GICD_SGI_TARGET_LIST_MASK <> GICD_SGI_TARGET_LIST ->
  Z.land sgir GICD_SGI_TARGET_LIST_MASK <> GICD_SGI_TARGET_OTHERS ->
  Z.land sgir GICD_SGI_TARGET_LIST_MASK <> GICD_SGI_TARGET_SELF ->
  vgic_distr_mmio_write cur v
    (mk_info (dbase d + GICD_SGIR) (mk_dabt DABT_WORD sgn rg)) sgir d
  = Ok 0 d [Printk (unhandled_sgir_filter sgir)].
Proof.
  intros Hv H0 H1 H2. rewrite (mmio_write_switch _ _ _ _ _ _ Hv). cbn [gpa dabt].
  replace (dbase d + GICD_SGIR - dbase d) with GICD_SGIR by lia.
  rewrite write_switch_sgir by reflexivity.
  unfold vgic_to_sgi.
  rewrite (bind_pure _ _ _ _ _ (get_vcpu_Some _ _ _ Hv)).
  rewrite (bind_pure get _ d d d eq_refl).
  apply Z.eqb_neq in H0, H1, H2. rewrite H0, H1, H2.
  reflexivity.
Qed.

Lemma sgir_unknown_filter_unhandled_witness :
  vgic_distr_mmio_write 0 0 (Ex.access GICD_SGIR DABT_WORD) 0x03000000 Ex.guest
  = Ok 0 Ex.guest [Printk (unhandled_sgir_filter 0x03000000)].
Proof.
  apply (sgir_unknown_filter_unhandled 0 Ex.guest 0 _ false 0%nat 0x03000000 eq_refl);
    vm_compute; discriminate.
Defined.

(** C5 as stated fails: the filter value 3 is not recognized, and the write
    is not reported handled. *)
Lemma sgir_unknown_filter_not_handled :
  Z.land 0x03000000 GICD_SGI_TARGET_LIST_MASK <> GICD_SGI_TARGET_LIST /\
  Z.land 0x03000000 GICD_SGI_TARGET_LIST_MASK <> GICD_SGI_TARGET_OTHERS /\
  Z.land 0x03000000 GICD_SGI_TARGET_LIST_MASK <> GICD_SGI_TARGET_SELF /\
  ~ returns
      (vgic_distr_mmio_write 0 0 (Ex.access GICD_SGIR DABT_WORD) 0x03000000 Ex.guest)
      1.
Proof.
  repeat split; try (vm_compute; discriminate).
  intros (d & tr & H). vm_compute in H. discriminate.
Qed.

(** ** Width policy *)

Lemma in_range_iff lo hi x : in_range lo hi x = true <-> lo <= x <= hi.
Proof. unfold in_range. rewrite andb_true_iff, !Z.leb_le. tauto. Qed.

Ltac gic_consts :=
  unfold GICD_CTLR, GICD_TYPER, GICD_IIDR, GICD_IGROUPR, GICD_IGROUPRN,
    GICD_ISENABLER, GICD_ISENABLERN, GICD_ICENABLER, GICD_ICENABLERN,
    GICD_ISPENDR, GICD_ISPENDRN, GICD_ICPENDR, GICD_ICPENDRN,
    GICD_ISACTIVER, GICD_ISACTIVERN, GICD_ICACTIVER, GICD_ICACTIVERN,
    GICD_IPRIORITYR, GICD_IPRIORITYRN, GICD_ITARGETSR, GICD_ITARGETSRN,
    GICD_ICFGR, GICD_ICFGRN, GICD_NSACR, GICD_NSACRN, GICD_SGIR,
    GICD_CPENDSGIR, GICD_CPENDSGIRN, GICD_SPENDSGIR, GICD_SPENDSGIRN,
    GICD_ICPIDR2, DABT_BYTE, DABT_WORD in *.

Ltac cond_to_prop E :=
  match type of E with
  | _ = true => idtac
  | _ = false => apply not_true_iff_false in E
  end;
  rewrite ?orb_true_iff, ?in_range_iff, ?Z.eqb_eq in E.

Lemma label_reg_group_offsets x g :
  label_reg_group x = Some g -> group_offsets g x.
Proof.
  unfold label_reg_group. gic_consts.
  repeat lazymatch goal with
  | |- (if ?c then _ else _) = _ -> _ =>
      let E := fresh "E" in
      destruct c eqn:E; cond_to_prop E;
      [ intros [= <-]; cbn [group_offsets]; lia | ]
  end.
  discriminate.
Qed.

Ltac walk_switch Hbyte :=
  repeat lazymatch goal with
  | |- (if ?c then _ else _) _ = _ =>
      let E := fresh "E" in
      destruct c eqn:E; cond_to_prop E;
      [ try (exfalso; lia); clear E;
        try rewrite Hbyte; cbn [negb andb]; try reflexivity
      | try (exfalso; lia) ]
  end.

Lemma spec_width_refused g sz :
  spec_width_allowed g sz = false ->
  (sz =? DABT_WORD) = false /\
  match g with
  | rg_pending | rg_target | rg_priority | rg_sgi_pending =>
      (sz =? DABT_BYTE) = false
  | _ => True
  end.
Proof.
  destruct g; cbn [spec_width_allowed]; rewrite ?orb_false_iff; tauto.
Qed.

Lemma write_switch_bad_width cur d v dabt gicd_reg r g :
  label_reg_group gicd_reg = Some g ->
  spec_width_allowed g (dabt_size dabt) = false ->
  write_switch cur v dabt gicd_reg r d
  = Crash d [Printk (bad_write_width (dabt_size dabt) gicd_reg);
             DomainCrashSynchronous].
Proof.
  intros Hg Hw. apply label_reg_group_offsets in Hg.
  apply spec_width_refused in Hw. destruct Hw as [Hword Hbyte].
  unfold write_switch. rewrite (bind_pure get _ d d d eq_refl).
  cbv zeta. unfold write_ignore, write_bad_width. gic_consts.
  rewrite !Hword. cbn [negb andb].
  destruct g; cbn [group_offsets] in Hg, Hbyte.
  all: walk_switch Hbyte.
Qed.

Lemma read_switch_bad_width d v dabt gicd_reg g :
  label_reg_group gicd_reg = Some g ->
  spec_width_allowed g (dabt_size dabt) = false ->
  read_switch v dabt gicd_reg d
  = Crash d [Printk (bad_read_width (dabt_size dabt) gicd_reg);
             DomainCrashSynchronous].
Proof.
  intros Hg Hw. apply label_reg_group_offsets in Hg.
  apply spec_width_refused in Hw. destruct Hw as [Hword Hbyte].
  unfold read_switch. rewrite (bind_pure get _ d d d eq_refl).
  cbv zeta. unfold read_as_zero, read_bad_width. gic_consts.
  rewrite !Hword. cbn [negb andb].
  destruct g; cbn [group_offsets] in Hg, Hbyte.
  all: walk_switch Hbyte.
Qed.

Lemma read_switch_unlabelled d v dabt gicd_reg :
  label_reg_group gicd_reg = None ->
  read_switch v dabt gicd_reg d = Ok (0, None) d [Printk (unhandled_read gicd_reg)].
Proof.
  unfold label_reg_group. intros Hg.
  repeat lazymatch type of Hg with
  | (if ?c then _ else _) = None =>
      let N := fresh "N" in
      destruct c eqn:N; [discriminate|]; cond_to_prop N
  end.
  clear Hg. unfold read_switch. rewrite (bind_pure get _ d d d eq_refl).
  cbv zeta. gic_consts.
  repeat lazymatch goal with
  | |- (if ?c then _ else _) _ = _ =>
      let E := fresh "E" in
      destruct c eqn:E; cond_to_prop E; [exfalso; lia|clear E]
  end.
  reflexivity.
Qed.

Lemma write_switch_unlabelled cur d v dabt gicd_reg r :
  label_reg_group gicd_reg = None ->
  write_switch cur v dabt gicd_reg r d = Ok 0 d [Printk (unhandled_write gicd_reg)].
Proof.
  unfold label_reg_group. intros Hg.
  repeat lazymatch type of Hg with
  | (if ?c then _ else _) = None =>
      let N := fresh "N" in
      destruct c eqn:N; [discriminate|]; cond_to_prop N
  end.
  clear Hg. unfold write_switch. rewrite (bind_pure get _ d d d eq_refl).
  cbv zeta. gic_consts.
  repeat lazymatch goal with
  | |- (if ?c then _ else _) _ = _ =>
      let E := fresh "E" in
      destruct c eqn:E; cond_to_prop E; [exfalso; lia|clear E]
  end.
  reflexivity.
Qed.

(** C9 (amended): the width policy is enforced at the offsets that a case
    label of the dispatch matches.  An access by a vCPU of the domain at
    such an offset with a width that the register table does not allow for
    the group of the label ends in [domain_crash_synchronous], for reads and
    for writes, and the domain at the point of the crash is the domain
    before the access: only the diagnostic was emitted.  An access at an
    offset that no label matches (the bytes 1 to 3 of a single-word register
    and of the last word of a register range among them) is reported
    unhandled whatever its width: the handlers print the diagnostic and
    return 0, the domain is not terminated and nothing changes. *)
Theorem unsupported_width_crashes cur d v vc info r :
  vcpu_at d v = Some vc ->
  (forall g,
      label_reg_group (gpa info - dbase d) = Some g ->
      spec_width_allowed g (dabt_size (dabt info)) = false ->
      vgic_distr_mmio_read v info d
        = Crash d [Printk (bad_read_width (dabt_size (dabt info)) (gpa info - dbase d));
                   DomainCrashSynchronous] /\
      vgic_distr_mmio_write cur v info r d
        = Crash d [Printk (bad_write_width (dabt_size (dabt info)) (gpa info - dbase d));
                   DomainCrashSynchronous]) /\
  (label_reg_group (gpa info - dbase d) = None ->
   vgic_distr_mmio_read v info d
     = Ok (0, None) d [Printk (unhandled_read (gpa info - dbase d))] /\
   vgic_distr_mmio_write cur v info r d
     = Ok 0 d [Printk (unhandled_write (gpa info - dbase d))]).
Proof.
  intros Hv.
  rewrite (mmio_read_switch _ _ _ _ Hv), (mmio_write_switch _ _ _ _ _ _ Hv).
  split.
  - intros g Hg Hw. split.
    + now apply read_switch_bad_width with g.
    + now apply write_switch_bad_width with g.
  - intros Hg. split.
    + now apply read_switch_unlabelled.
    + now apply write_switch_unlabelled.
Qed.

Lemma unsupported_width_crashes_witness :
  (vgic_distr_mmio_read 0 (Ex.access GICD_CTLR DABT_BYTE) Ex.guest
     = Crash Ex.guest [Printk (bad_read_width DABT_BYTE GICD_CTLR); DomainCrashSynchronous] /\
   vgic_distr_mmio_write 0 0 (Ex.access GICD_CTLR DABT_BYTE) 1 Ex.guest
     = Crash Ex.guest [Printk (bad_write_width DABT_BYTE GICD_CTLR); DomainCrashSynchronous]) /\
  (vgic_distr_mmio_read 0 (Ex.access (GICD_ISENABLERN + 1) DABT_BYTE) Ex.guest
     = Ok (0, None) Ex.guest [Printk (unhandled_read (GICD_ISENABLERN + 1))] /\
   vgic_distr_mmio_write 0 0 (Ex.access (GICD_ISENABLERN + 1) DABT_BYTE) 1 Ex.guest
     = Ok 0 Ex.guest [Printk (unhandled_write (GICD_ISENABLERN + 1))]).
Proof.
  split.
  - exact (proj1 (unsupported_width_crashes 0 Ex.guest 0 _ (Ex.access GICD_CTLR DABT_BYTE) 1
                    eq_refl) rg_control eq_refl eq_refl).
  - exact (proj2 (unsupported_width_crashes 0 Ex.guest 0 _
                    (Ex.access (GICD_ISENABLERN + 1) DABT_BYTE) 1 eq_refl) eq_refl).
Defined.

(** C9 as stated fails: byte 1 of the control register is a byte of a
    defined, word-only register, and a byte-width access to it is not
    fatal: the write and the read are reported unhandled and the domain
    runs on, while the same access to byte 0 terminates the domain. *)
Lemma byte_inside_register_not_fatal :
  spec_reg_group (GICD_CTLR + 1) = Some rg_control /\
  spec_width_allowed rg_control DABT_BYTE = false /\
  vgic_distr_mmio_write 0 0 (Ex.access (GICD_CTLR + 1) DABT_BYTE) 1 Ex.guest
    = Ok 0 Ex.guest [Printk (unhandled_write (GICD_CTLR + 1))] /\
  vgic_distr_mmio_read 0 (Ex.access (GICD_CTLR + 1) DABT_BYTE) Ex.guest
    = Ok (0, None) Ex.guest [Printk (unhandled_read (GICD_CTLR + 1))] /\
  vgic_distr_mmio_write 0 0 (Ex.access GICD_CTLR DABT_BYTE) 1 Ex.guest
    = Crash Ex.guest [Printk (bad_write_width DABT_BYTE GICD_CTLR); DomainCrashSynchronous].
Proof. repeat split; vm_compute; reflexivity. Qed.

(** ** Slips of the code *)

(** C1: a byte-width access to a priority register (a width the register
    group permits) of a line beyond the configured line count does not read
    as zero, respectively is not ignored: both handlers crash the domain.
    The guest has no shared lines and offset 0x420 is the priority of line
    32; [vgic_rank_offset] returns NULL for it.  The same accesses with word
    width read zero and are ignored, and the same byte accesses are handled
    in a domain that has line 32. *)
Theorem absent_rank_byte_access_crashes :
  vgic_rank_offset 0 8 (0x420 - GICD_IPRIORITYR) DABT_WORD Ex.guest
    = Ok None Ex.guest [] /\
  vgic_distr_mmio_read 0 (Ex.access 0x420 DABT_BYTE) Ex.guest
    = Crash Ex.guest [Printk (bad_read_width DABT_BYTE 0x420); DomainCrashSynchronous] /\
  vgic_distr_mmio_write 0 0 (Ex.access 0x420 DABT_BYTE) 0xa0 Ex.guest
    = Crash Ex.guest [Printk (bad_write_width DABT_BYTE 0x420); DomainCrashSynchronous] /\
  vgic_distr_mmio_read 0 (Ex.access 0x420 DABT_WORD) Ex.guest
    = Ok (1, Some 0) Ex.guest [] /\
  vgic_distr_mmio_write 0 0 (Ex.access 0x420 DABT_WORD) 0xa0 Ex.guest
    = Ok 1 Ex.guest [] /\
  vgic_distr_mmio_read 0 (Ex.access 0x420 DABT_BYTE) Ex.hwdom
    = Ok (1, Some 0) Ex.hwdom [] /\
  returns (vgic_distr_mmio_write 0 0 (Ex.access 0x420 DABT_BYTE) 0xa0 Ex.hwdom) 1.
Proof.
  repeat split; try (vm_compute; reflexivity).
  eexists _, _. vm_compute. reflexivity.
Qed.

(** C2: an SGI with an explicit target list naming a vCPU slot that has no
    vCPU (the mask 0x02 selects vCPU 1, whose slot is NULL).  The guard of
    the delivery loop lets the NULL slot through (no diagnostic is emitted)
    and [vgic_vcpu_inject_irq] is entered with the NULL pointer, which it
    dereferences. *)
Theorem sgi_to_absent_vcpu_faults :
  Z.land 0x00020001 GICD_SGI_TARGET_LIST_MASK = GICD_SGI_TARGET_LIST /\
  set_bits (Z.shiftr (Z.land 0x00020001 GICD_SGI_TARGET_MASK) GICD_SGI_TARGET_SHIFT) 2
    = [1%nat] /\
  d_vcpu Ex.guest !! 1%nat = Some None /\
  vgic_vcpu_inject_irq 0 1 1 Ex.guest = Fault [] /\
  vgic_to_sgi 0 0 0x00020001 Ex.guest = Fault [] /\
  vgic_distr_mmio_write 0 0 (Ex.access GICD_SGIR DABT_WORD) 0x00020001 Ex.guest
    = Fault [].
Proof. repeat split; vm_compute; reflexivity. Qed.

(** ** The domain as a store *)

Lemma pending_ptr_eqb_eq p q : pending_ptr_eqb p q = true <-> p = q.
Proof.
  destruct p, q; cbn; rewrite ?andb_true_iff, ?Nat.eqb_eq;
    split; try discriminate; try intros [= ]; subst; auto.
  - now intros [-> ->].
Qed.

Lemma pending_ptr_eqb_refl p : pending_ptr_eqb p p = true.
Proof. now apply pending_ptr_eqb_eq. Qed.

Lemma pending_ptr_eqb_spec p q : reflect (p = q) (pending_ptr_eqb p q).
Proof.
  destruct (pending_ptr_eqb p q) eqn:E; constructor.
  - now apply pending_ptr_eqb_eq.
  - intros H. apply pending_ptr_eqb_eq in H. congruence.
Qed.

Lemma vcpu_at_lt d v vc : vcpu_at d v = Some vc -> (v < length (d_vcpu d))%nat.
Proof.
  unfold vcpu_at. destruct (d_vcpu d !! v) eqn:E; [|discriminate].
  intros _. apply lookup_lt_is_Some. eauto.
Qed.

(** Replacing the vCPU of slot [v]. *)
Lemma vcpu_at_put d v vc vc' w :
  vcpu_at d v = Some vc ->
  vcpu_at (set_d_vcpu d (<[v := Some vc']> (d_vcpu d))) w
  = if (v =? w)%nat then Some vc' else vcpu_at d w.
Proof.
  intros Hv. unfold vcpu_at at 1. cbn [set_d_vcpu d_vcpu].
  destruct (Nat.eqb_spec v w) as [<-|Hne].
  - rewrite list_lookup_insert_eq; [reflexivity | eapply vcpu_at_lt; eauto].
  - now rewrite list_lookup_insert_ne.
Qed.

Lemma vcpu_at_store_pending d p x w :
  vcpu_at (store_pending_in d p x) w = stored_in_vcpu p x w <$> vcpu_at d w.
Proof.
  destruct p as [v i|i]; cbn [store_pending_in].
  - destruct (vcpu_at d v) as [vc|] eqn:Hv.
    + rewrite (vcpu_at_put _ _ _ _ _ Hv). unfold stored_in_vcpu.
      destruct (Nat.eqb_spec v w) as [<-|Hne].
      * now rewrite Hv.
      * now destruct (vcpu_at d w).
    + unfold stored_in_vcpu. destruct (Nat.eqb_spec v w) as [<-|Hne].
      * now rewrite Hv.
      * now destruct (vcpu_at d w).
  - unfold vcpu_at. cbn. now destruct (d_vcpu d !! w) as [[?|]|].
Qed.

Lemma inflight_of_store_pending d p x w :
  inflight_of (store_pending_in d p x) w = inflight_of d w.
Proof.
  unfold inflight_of. rewrite vcpu_at_store_pending.
  destruct (vcpu_at d w) as [vc|]; [|reflexivity]. cbn.
  destruct p as [v i|i]; cbn; [|reflexivity]. now destruct (v =? w)%nat.
Qed.

Lemma pending_at_store_eq d p x y :
  pending_at d p = Some y -> pending_at (store_pending_in d p x) p = Some x.
Proof.
  destruct p as [v i|i]; cbn [pending_at].
  - rewrite vcpu_at_store_pending.
    destruct (vcpu_at d v) as [vc|]; [|discriminate]. cbn.
    rewrite Nat.eqb_refl. cbn. intros H.
    apply list_lookup_insert_eq, lookup_lt_is_Some. eauto.
  - cbn. intros H. apply list_lookup_insert_eq, lookup_lt_is_Some. eauto.
Qed.

Lemma pending_at_store_ne d p x q :
  p <> q -> pending_at (store_pending_in d p x) q = pending_at d q.
Proof.
  intros Hne. destruct q as [w j|j]; cbn [pending_at].
  - rewrite vcpu_at_store_pending.
    destruct (vcpu_at d w) as [vc|]; [|reflexivity]. cbn.
    destruct p as [v i|i]; cbn; [|reflexivity].
    destruct (Nat.eqb_spec v w) as [->|]; [|reflexivity]. cbn.
    apply list_lookup_insert_ne. congruence.
  - destruct p as [v i|i]; cbn.
    + now destruct (vcpu_at d v).
    + apply list_lookup_insert_ne. congruence.
Qed.

(** Replacing the inflight list of a vCPU leaves the descriptors alone. *)
Lemma pending_at_put_inflight d v vc l q :
  vcpu_at d v = Some vc ->
  pending_at (set_d_vcpu d (<[v := Some (set_inflight_irqs vc l)]> (d_vcpu d))) q
  = pending_at d q.
Proof.
  intros Hv. destruct q as [w j|j]; cbn [pending_at]; [|reflexivity].
  rewrite (vcpu_at_put _ _ _ _ _ Hv).
  destruct (Nat.eqb_spec v w) as [<-|]; [|reflexivity]. now rewrite Hv.
Qed.

Lemma inflight_of_put_inflight d v vc l w :
  vcpu_at d v = Some vc ->
  inflight_of (set_d_vcpu d (<[v := Some (set_inflight_irqs vc l)]> (d_vcpu d))) w
  = if (v =? w)%nat then l else inflight_of d w.
Proof.
  intros Hv. unfold inflight_of. rewrite (vcpu_at_put _ _ _ _ _ Hv).
  now destruct (v =? w)%nat.
Qed.

(** The list node of a descriptor is linked when some inflight list holds
    the descriptor. *)
Lemma inflight_linked_iff d p :
  inflight_linked d p = true <-> exists w, In p (inflight_of d w).
Proof.
  unfold inflight_linked, on_list. rewrite existsb_exists. split.
  - intros ([vc|] & Hin & Hex); [|discriminate].
    apply existsb_exists in Hex as (q & Hq & Heq).
    apply pending_ptr_eqb_eq in Heq as <-.
    apply list_elem_of_In, list_elem_of_lookup in Hin as (w & Hw).
    exists w. unfold inflight_of, vcpu_at. now rewrite Hw.
  - intros (w & Hin). unfold inflight_of, vcpu_at in Hin.
    destruct (d_vcpu d !! w) as [[vc|]|] eqn:Hw; try contradiction.
    exists (Some vc). split.
    + apply list_elem_of_In, list_elem_of_lookup. eauto.
    + apply existsb_exists. exists p. split; [assumption | apply pending_ptr_eqb_refl].
Qed.

Lemma inflight_unlinked d p w :
  inflight_linked d p = false -> ~ In p (inflight_of d w).
Proof.
  intros H Hin. assert (inflight_linked d p = true) by (apply inflight_linked_iff; eauto).
  congruence.
Qed.

(** ** Evaluation of the injection engine *)

Lemma load_pending_ok d p x : pending_at d p = Some x -> load_pending p d = Ok x d [].
Proof. intros H. unfold load_pending. now rewrite H. Qed.

Lemma store_pending_ok d p x y :
  pending_at d p = Some y -> store_pending p x d = Ok tt (store_pending_in d p x) [].
Proof. intros H. unfold store_pending. now rewrite H. Qed.

Lemma irq_to_pending_ok d v vc irq :
  vcpu_at d v = Some vc -> irq_to_pending v irq d = Ok (pending_ptr_of v irq) d [].
Proof.
  intros Hv. unfold irq_to_pending, pending_ptr_of.
  destruct (irq <? 32)%nat; [reflexivity|].
  now rewrite (bind_pure _ _ _ _ _ (get_vcpu_Some _ _ _ Hv)).
Qed.

Lemma vgic_rank_offset_ok d v vc b n s :
  vcpu_at d v = Some vc -> exists rank, vgic_rank_offset v b n s d = Ok rank d [].
Proof.
  intros Hv. unfold vgic_rank_offset.
  rewrite (bind_pure _ _ _ _ _ (get_vcpu_Some _ _ _ Hv)).
  rewrite (bind_pure get _ d d d eq_refl).
  repeat match goal with |- context [if ?c then _ else _] => destruct c end; eauto.
Qed.

Lemma vgic_rank_offset_None d v b n s :
  vcpu_at d v = None -> vgic_rank_offset v b n s d = Fault [].
Proof.
  intros Hv. unfold vgic_rank_offset. apply bind_Fault.
  unfold get_vcpu. now rewrite Hv.
Qed.

Lemma inject_out_eval cur d v vc :
  vcpu_at d v = Some vc -> inject_out cur v d = Ok tt d (notify_events cur v vc).
Proof.
  intros Hv. unfold inject_out.
  rewrite (bind_pure _ _ _ _ _ (get_vcpu_Some _ _ _ Hv)).
  unfold vcpu_unblock. rewrite bind_emit. unfold notify_events.
  now destruct (is_running vc && negb (v =? cur)%nat).
Qed.

Lemma notify_events_stored cur v p x w vc :
  notify_events cur v (stored_in_vcpu p x w vc) = notify_events cur v vc.
Proof.
  destruct p as [u i|i]; cbn; [|reflexivity]. now destruct (u =? w)%nat.
Qed.

(** An injection of a line that is already inflight. *)
Lemma inject_linked cur d v vc irq np :
  vcpu_at d v = Some vc ->
  pending_at d (pending_ptr_of v irq) = Some np ->
  inflight_linked d (pending_ptr_of v irq) = true ->
  vgic_vcpu_inject_irq cur v irq d
  = Ok tt (store_pending_in d (pending_ptr_of v irq)
             (set_p_status np (set_bit GIC_IRQ_GUEST_QUEUED (p_status np))))
       (GicRaiseInflightIrq v irq :: notify_events cur v vc).
Proof.
  intros Hv Hp Hl. unfold vgic_vcpu_inject_irq, vgic_rank_irq.
  destruct (vgic_rank_offset_ok d v vc 8 (Z.of_nat irq) DABT_WORD Hv) as [rank Hr].
  rewrite (bind_pure _ _ _ _ _ Hr).
  rewrite (bind_pure _ _ _ _ _ (irq_to_pending_ok _ _ _ irq Hv)).
  rewrite (bind_pure _ _ _ _ _ (load_pending_ok _ _ _ Hp)).
  rewrite (bind_pure get _ d d d eq_refl). rewrite Hl.
  rewrite (bind_pure _ _ _ _ _ (store_pending_ok _ _ _ _ Hp)).
  unfold gic_raise_inflight_irq. rewrite bind_emit.
  erewrite inject_out_eval by (rewrite vcpu_at_store_pending, Hv; reflexivity).
  now rewrite notify_events_stored.
Qed.

(** An injection into an offline vCPU of a line that is not inflight. *)
Lemma inject_offline cur d v vc irq np :
  vcpu_at d v = Some vc ->
  pending_at d (pending_ptr_of v irq) = Some np ->
  inflight_linked d (pending_ptr_of v irq) = false ->
  test_bit _VPF_down (pause_flags vc) = true ->
  vgic_vcpu_inject_irq cur v irq d = Ok tt d [].
Proof.
  intros Hv Hp Hl Hdown. unfold vgic_vcpu_inject_irq, vgic_rank_irq.
  destruct (vgic_rank_offset_ok d v vc 8 (Z.of_nat irq) DABT_WORD Hv) as [rank Hr].
  rewrite (bind_pure _ _ _ _ _ Hr).
  rewrite (bind_pure _ _ _ _ _ (irq_to_pending_ok _ _ _ irq Hv)).
  rewrite (bind_pure _ _ _ _ _ (load_pending_ok _ _ _ Hp)).
  rewrite (bind_pure get _ d d d eq_refl). rewrite Hl.
  rewrite (bind_pure _ _ _ _ _ (get_vcpu_Some _ _ _ Hv)).
  now rewrite Hdown.
Qed.

Lemma prio_of_store_ne d p x q :
  p <> q -> prio_of (store_pending_in d p x) q = prio_of d q.
Proof. intros H. unfold prio_of. now rewrite pending_at_store_ne. Qed.

(** The insertion loop: it only reads, and it links [n] after every entry
    whose priority value is not greater and in front of the first entry
    whose priority value is greater. *)
Lemma inflight_add_inv priority n l d l' d' tr :
  inflight_add priority n l d = Ok l' d' tr ->
  d' = d /\ tr = [] /\
  exists l1 l2,
    l = l1 ++ l2 /\ l' = l1 ++ n :: l2 /\
    Forall (fun q => prio_of d q <= priority) l1 /\
    match l2 with [] => True | q :: _ => priority < prio_of d q end.
Proof.
  revert l' d' tr. induction l as [|iter rest IH]; intros l' d' tr; cbn [inflight_add].
  - intros [= <- <- <-]. repeat split. exists [], []. repeat split; auto.
  - unfold load_pending at 1, bind at 1.
    destruct (pending_at d iter) as [it|] eqn:Hit; [|discriminate].
    destruct (p_priority it >? priority) eqn:Hgt.
    + cbn. intros [= <- <- <-]. repeat split.
      exists [], (iter :: rest). repeat split; auto.
      unfold prio_of. rewrite Hit. lia.
    + unfold bind. destruct (inflight_add priority n rest d) as [r d1 t1| |] eqn:Hrec;
        try discriminate.
      cbn. intros [= <- <- <-].
      destruct (IH _ _ _ eq_refl) as (-> & -> & l1 & l2 & -> & -> & Hall & Hhd).
      repeat split. exists (iter :: l1), l2. repeat split; auto.
      constructor; [|assumption]. unfold prio_of. rewrite Hit. lia.
Qed.

(** The insertion loop returns when every entry of the list is a valid
    descriptor. *)
Lemma inflight_add_returns priority n l d :
  Forall (fun q => is_Some (pending_at d q)) l ->
  exists l', inflight_add priority n l d = Ok l' d [].
Proof.
  induction 1 as [|iter rest [it Hit] _ [l' IH]]; cbn [inflight_add]; [eauto|].
  rewrite (bind_pure _ _ _ _ _ (load_pending_ok _ _ _ Hit)).
  destruct (p_priority it >? priority); [eauto|].
  rewrite (bind_pure _ _ _ _ _ IH). eauto.
Qed.

Lemma bind_emit_if {B} (c : bool) e (f : unit -> M B) d :
  bind (if c then emit e else ret tt) f d
  = after_trace (if c then [e] else []) (f tt d).
Proof. destruct c; [reflexivity|]. cbn. unfold bind. cbn. now destruct (f tt d). Qed.

Lemma load_rank_cases rp d :
  (exists rk, load_rank rp d = Ok rk d []) \/ load_rank rp d = Fault [].
Proof. unfold load_rank. destruct (rank_at d rp); eauto. Qed.

(** An injection that links a new entry. *)
Lemma inject_new_inv cur d v vc irq np d' tr :
  vcpu_at d v = Some vc ->
  pending_at d (pending_ptr_of v irq) = Some np ->
  inflight_linked d (pending_ptr_of v irq) = false ->
  test_bit _VPF_down (pause_flags vc) = false ->
  vgic_vcpu_inject_irq cur v irq d = Ok tt d' tr ->
  exists priority l1 l2,
    inflight_of d v = l1 ++ l2 /\
    is_Some (vcpu_at d' v) /\
    (forall w, inflight_of d' w =
               if (v =? w)%nat then l1 ++ pending_ptr_of v irq :: l2
               else inflight_of d w) /\
    pending_at d' (pending_ptr_of v irq)
      = Some (mk_pending irq (set_bit GIC_IRQ_GUEST_QUEUED (p_status np))
                         priority (p_desc np)) /\
    (forall q, q <> pending_ptr_of v irq -> pending_at d' q = pending_at d q) /\
    Forall (fun q => prio_of d q <= priority) l1 /\
    match l2 with [] => True | q :: _ => priority < prio_of d q end /\
    tr = (if test_bit GIC_IRQ_GUEST_ENABLED (set_bit GIC_IRQ_GUEST_QUEUED (p_status np))
          then [GicRaiseGuestIrq v irq priority] else [])
         ++ notify_events cur v vc.
Proof.
  intros Hv Hp Hl Hdown. unfold vgic_vcpu_inject_irq, vgic_rank_irq.
  destruct (vgic_rank_offset_ok d v vc 8 (Z.of_nat irq) DABT_WORD Hv) as [rank Hr].
  rewrite (bind_pure _ _ _ _ _ Hr).
  rewrite (bind_pure _ _ _ _ _ (irq_to_pending_ok _ _ _ irq Hv)).
  rewrite (bind_pure _ _ _ _ _ (load_pending_ok _ _ _ Hp)).
  rewrite (bind_pure get _ d d d eq_refl). rewrite Hl.
  rewrite (bind_pure _ _ _ _ _ (get_vcpu_Some _ _ _ Hv)). rewrite Hdown.
  destruct rank as [rp|]; [|discriminate].
  destruct (load_rank_cases rp d) as [[rk Hrk]|Hrk];
    [rewrite (bind_pure _ _ _ _ _ Hrk) | rewrite (bind_Fault _ _ _ _ Hrk); discriminate].
  set (n := pending_ptr_of v irq) in *.
  set (priority := u8 _).
  set (np' := mk_pending irq _ priority _).
  rewrite (bind_pure _ _ _ _ _ (store_pending_ok _ _ np' _ Hp)).
  set (d1 := store_pending_in d n np').
  unfold gic_raise_guest_irq. rewrite bind_emit_if.
  assert (Hv1 : vcpu_at d1 v = Some (stored_in_vcpu n np' v vc))
    by (unfold d1; rewrite vcpu_at_store_pending, Hv; reflexivity).
  rewrite (bind_pure _ _ _ _ _ (get_vcpu_Some _ _ _ Hv1)).
  assert (Hl1 : inflight_irqs (stored_in_vcpu n np' v vc) = inflight_irqs vc).
  { destruct n as [u i|i]; cbn; [|reflexivity]. now destruct (u =? v)%nat. }
  rewrite Hl1.
  destruct (inflight_add priority n (inflight_irqs vc) d1) as [l' d1' t| |] eqn:Hadd;
    [| rewrite (bind_Crash _ _ _ _ _ Hadd); cbn; discriminate
     | rewrite (bind_Fault _ _ _ _ Hadd); cbn; discriminate].
  destruct (inflight_add_inv _ _ _ _ _ _ _ Hadd)
    as (-> & -> & l1 & l2 & Hsplit & -> & Hall & Hhd).
  rewrite (bind_pure _ _ _ _ _ Hadd). clear Hadd.
  set (vc2 := set_inflight_irqs _ _).
  pose (d2 := set_d_vcpu d1 (<[v := Some vc2]> (d_vcpu d1))).
  rewrite (bind_pure (put_vcpu v vc2) _ d1 tt d2 eq_refl).
  assert (Hv2 : vcpu_at d2 v = Some vc2)
    by (unfold d2; rewrite (vcpu_at_put _ _ _ _ _ Hv1), Nat.eqb_refl; reflexivity).
  rewrite (inject_out_eval _ _ _ _ Hv2).
  intros Hres. apply after_trace_Ok in Hres as (t' & [= <- <-] & ->).
  assert (Hin : forall q, In q (l1 ++ l2) -> q <> n).
  { intros q Hq ->. apply (inflight_unlinked d n v Hl).
    unfold inflight_of. rewrite Hv. now rewrite Hsplit. }
  exists priority, l1, l2. repeat split.
  - unfold inflight_of. now rewrite Hv.
  - eauto.
  - intros w. unfold d2, vc2. rewrite (inflight_of_put_inflight _ _ _ _ _ Hv1).
    destruct (v =? w)%nat; [reflexivity|]. apply inflight_of_store_pending.
  - unfold d2, vc2. rewrite (pending_at_put_inflight _ _ _ _ _ Hv1).
    unfold d1. now apply pending_at_store_eq with np.
  - intros q Hq. unfold d2, vc2. rewrite (pending_at_put_inflight _ _ _ _ _ Hv1).
    unfold d1. now apply pending_at_store_ne.
  - apply List.Forall_forall. intros q Hq.
    rewrite List.Forall_forall in Hall. specialize (Hall q Hq).
    unfold d1 in Hall. rewrite prio_of_store_ne in Hall; [assumption|].
    intros <-. apply (Hin n); [|reflexivity]. apply in_or_app. now left.
  - destruct l2 as [|q l2]; [exact I|].
    unfold d1 in Hhd. rewrite prio_of_store_ne in Hhd; [assumption|].
    intros <-. apply (Hin n); [|reflexivity]. apply in_or_app. right. now left.
  - f_equal. unfold vc2, notify_events. cbn.
    destruct n as [u i|i]; cbn; [|reflexivity]. now destruct (u =? v)%nat.
Qed.

(** A call that returns found its vCPU and the descriptor of the line. *)
Lemma inject_Ok_valid cur d v irq d' tr :
  vgic_vcpu_inject_irq cur v irq d = Ok tt d' tr ->
  exists vc np,
    vcpu_at d v = Some vc /\ pending_at d (pending_ptr_of v irq) = Some np.
Proof.
  intros H. destruct (vcpu_at d v) as [vc|] eqn:Hv.
  - destruct (pending_at d (pending_ptr_of v irq)) as [np|] eqn:Hp; [eauto|].
    exfalso. revert H. unfold vgic_vcpu_inject_irq, vgic_rank_irq.
    destruct (vgic_rank_offset_ok d v vc 8 (Z.of_nat irq) DABT_WORD Hv) as [rank Hr].
    rewrite (bind_pure _ _ _ _ _ Hr).
    rewrite (bind_pure _ _ _ _ _ (irq_to_pending_ok _ _ _ irq Hv)).
    rewrite (bind_Fault _ _ _ []); [discriminate|].
    unfold load_pending. now rewrite Hp.
  - exfalso. revert H. unfold vgic_vcpu_inject_irq, vgic_rank_irq.
    rewrite (bind_Fault _ _ _ [] (vgic_rank_offset_None _ _ _ _ _ Hv)).
    discriminate.
Qed.

(** ** Ordering of the inflight list *)

Lemma sorted_insert {A} (f : A -> Z) (l1 l2 : list A) (x : Z) :
  StronglySorted Z.le (map f (l1 ++ l2)) ->
  Forall (fun q => f q <= x) l1 ->
  match l2 with [] => True | q :: _ => x < f q end ->
  StronglySorted Z.le (map f l1 ++ x :: map f l2).
Proof.
  intros Hs Hall Hhd. induction l1 as [|a l1 IH]; cbn in *.
  - constructor; [assumption|].
    destruct l2 as [|q l2]; [constructor|]. cbn in *.
    apply StronglySorted_inv in Hs as [_ Hq].
    constructor; [lia|]. eapply List.Forall_impl; [|exact Hq]. cbn. intros; lia.
  - apply StronglySorted_inv in Hs as [Hs Ha].
    apply List.Forall_cons_iff in Hall as [Hax Hall].
    constructor; [now apply IH|].
    rewrite map_app in Ha. apply List.Forall_app in Ha as [Ha1 Ha2].
    apply List.Forall_app. split; [assumption|]. now constructor.
Qed.

Lemma inject_preserves_sorted cur d v irq d' tr :
  inflight_sorted d ->
  vgic_vcpu_inject_irq cur v irq d = Ok tt d' tr ->
  inflight_sorted d'.
Proof.
  intros Hs H.
  destruct (inject_Ok_valid _ _ _ _ _ _ H) as (vc & np & Hv & Hp).
  set (n := pending_ptr_of v irq) in *.
  destruct (inflight_linked d n) eqn:Hl.
  - (* already inflight: only the status of the descriptor changes *)
    rewrite (inject_linked _ _ _ _ _ _ Hv Hp Hl) in H. injection H as <- _.
    intros w. unfold inflight_priorities. rewrite inflight_of_store_pending.
    erewrite map_ext; [apply Hs|]. intros q. unfold prio_of.
    destruct (pending_ptr_eqb_spec n q) as [<-|Hne].
    + rewrite (pending_at_store_eq _ _ _ _ Hp), Hp. reflexivity.
    + now rewrite pending_at_store_ne.
  - destruct (test_bit _VPF_down (pause_flags vc)) eqn:Hdown.
    + (* offline: nothing happens *)
      rewrite (inject_offline _ _ _ _ _ _ Hv Hp Hl Hdown) in H. now injection H as <- _.
    + destruct (inject_new_inv _ _ _ _ _ _ _ _ Hv Hp Hl Hdown H)
        as (priority & l1 & l2 & Hsplit & _ & Hlists & Hn & Hothers & Hall & Hhd & _).
      assert (Hprio : forall w q, In q (inflight_of d w) -> prio_of d' q = prio_of d q).
      { intros w q Hq. unfold prio_of. rewrite Hothers; [reflexivity|].
        intros ->. now apply (inflight_unlinked d n w Hl). }
      intros w. unfold inflight_priorities. rewrite Hlists.
      destruct (Nat.eqb_spec v w) as [<-|Hne].
      * rewrite map_app. cbn [map].
        replace (prio_of d' (pending_ptr_of v irq)) with priority
          by (unfold prio_of; now rewrite Hn).
        rewrite (map_ext_in _ (prio_of d) l1), (map_ext_in _ (prio_of d) l2).
        -- apply sorted_insert; [|assumption..].
           specialize (Hs v). unfold inflight_priorities in Hs. now rewrite Hsplit in Hs.
        -- intros q Hq. apply (Hprio v). rewrite Hsplit. apply in_or_app. now right.
        -- intros q Hq. apply (Hprio v). rewrite Hsplit. apply in_or_app. now left.
      * rewrite (map_ext_in _ (prio_of d)); [apply Hs|]. intros q Hq. now apply (Hprio w).
Qed.

Lemma reachable_sorted d : inject_reachable d -> inflight_sorted d.
Proof.
  induction 1 as [d Hempty|d cur v irq d' tr _ IH Hstep].
  - intros v. unfold inflight_priorities. rewrite Hempty. constructor.
  - eapply inject_preserves_sorted; eauto.
Qed.

Lemma sorted_tail_above {A} (f : A -> Z) (l1 l2 : list A) (x : Z) :
  StronglySorted Z.le (map f (l1 ++ l2)) ->
  match l2 with [] => True | q :: _ => x < f q end ->
  Forall (fun q => x < f q) l2.
Proof.
  intros Hs Hhd. rewrite map_app in Hs.
  induction l1 as [|a l1 IH]; cbn in Hs.
  - destruct l2 as [|q l2]; [constructor|]. cbn in Hs.
    apply StronglySorted_inv in Hs as [_ Hq].
    constructor; [assumption|].
    apply List.Forall_forall. intros y Hy.
    rewrite List.Forall_forall in Hq. specialize (Hq (f y) (in_map f _ _ Hy)). lia.
  - apply StronglySorted_inv in Hs as [Hs _]. auto.
Qed.

Lemma guest_prio_empty v : inflight_of Ex.guest_prio v = [].
Proof. destruct v as [|[|v]]; reflexivity. Qed.

(** C3: in every domain reached by calls of the injection engine each
    inflight list is in ascending order of the snapshotted priority values;
    a call that links a new entry puts it after all entries whose priority
    value is smaller or equal and in front of all entries whose priority
    value is greater, so that entries of equal priority stay in insertion
    order; and injecting the lines 0, 1, 2, 3 with the priorities 0x80, 0x10,
    0x80, 0x40 in that order into the empty list of vCPU 0 gives the list
    line 1 (0x10), line 3 (0x40), line 0 (0x80), line 2 (0x80). *)
Theorem inflight_list_priority_order d :
  inject_reachable d ->
  (forall v, StronglySorted Z.le (inflight_priorities d v)) /\
  (forall cur v vc irq np d' tr,
      vcpu_at d v = Some vc ->
      pending_at d (pending_ptr_of v irq) = Some np ->
      inflight_linked d (pending_ptr_of v irq) = false ->
      is_vcpu_online vc = true ->
      vgic_vcpu_inject_irq cur v irq d = Ok tt d' tr ->
      exists l1 l2,
        inflight_of d v = l1 ++ l2 /\
        inflight_of d' v = l1 ++ pending_ptr_of v irq :: l2 /\
        Forall (fun q => prio_of d' q <= prio_of d' (pending_ptr_of v irq)) l1 /\
        Forall (fun q => prio_of d' (pending_ptr_of v irq) < prio_of d' q) l2) /\
  (map (prio_of Ex.inflight4)
       [vcpu_pending 0 0; vcpu_pending 0 1; vcpu_pending 0 2; vcpu_pending 0 3]
     = [0x80; 0x10; 0x80; 0x40] /\
   inflight_of Ex.guest_prio 0 = [] /\
   inflight_of Ex.inflight1 0 = [vcpu_pending 0 0] /\
   inflight_of Ex.inflight2 0 = [vcpu_pending 0 1; vcpu_pending 0 0] /\
   inflight_of Ex.inflight3 0 = [vcpu_pending 0 1; vcpu_pending 0 0; vcpu_pending 0 2] /\
   inflight_of Ex.inflight4 0
     = [vcpu_pending 0 1; vcpu_pending 0 3; vcpu_pending 0 0; vcpu_pending 0 2] /\
   inflight_priorities Ex.inflight4 0 = [0x10; 0x40; 0x80; 0x80]).
Proof.
  intros Hreach. split; [|split].
  - now apply reachable_sorted.
  - intros cur v vc irq np d' tr Hv Hp Hl Hon Hstep.
    assert (Hdown : test_bit _VPF_down (pause_flags vc) = false).
    { unfold is_vcpu_online in Hon. now apply negb_true_iff in Hon. }
    destruct (inject_new_inv _ _ _ _ _ _ _ _ Hv Hp Hl Hdown Hstep)
      as (priority & l1 & l2 & Hsplit & _ & Hlists & Hn & Hothers & Hall & Hhd & _).
    assert (Hprio : forall q, In q (l1 ++ l2) -> prio_of d' q = prio_of d q).
    { intros q Hq. unfold prio_of. rewrite Hothers; [reflexivity|].
      intros ->. apply (inflight_unlinked d _ v Hl). now rewrite Hsplit. }
    assert (Hnew : prio_of d' (pending_ptr_of v irq) = priority)
      by (unfold prio_of; now rewrite Hn).
    exists l1, l2. repeat split.
    + assumption.
    + rewrite Hlists. now rewrite Nat.eqb_refl.
    + rewrite Hnew. apply List.Forall_forall. intros q Hq.
      rewrite Hprio by (apply in_or_app; now left).
      rewrite List.Forall_forall in Hall. now apply Hall.
    + rewrite Hnew.
      assert (Hs := reachable_sorted _ Hreach v). unfold inflight_priorities in Hs.
      rewrite Hsplit in Hs.
      pose proof (sorted_tail_above _ _ _ _ Hs Hhd) as Htl.
      apply List.Forall_forall. intros q Hq.
      rewrite Hprio by (apply in_or_app; now right).
      rewrite List.Forall_forall in Htl. now apply Htl.
  - repeat split; vm_compute; reflexivity.
Qed.

Lemma inflight_list_priority_order_witness :
  inject_reachable Ex.inflight4 /\
  StronglySorted Z.le (inflight_priorities Ex.inflight4 0).
Proof.
  assert (H0 : inject_reachable Ex.guest_prio) by (apply reach_empty, guest_prio_empty).
  assert (H1 : inject_reachable Ex.inflight1).
  { eapply (reach_inject _ 0 0 0 _ _ H0). vm_compute. reflexivity. }
  assert (H2 : inject_reachable Ex.inflight2).
  { eapply (reach_inject _ 0 0 1 _ _ H1). vm_compute. reflexivity. }
  assert (H3 : inject_reachable Ex.inflight3).
  { eapply (reach_inject _ 0 0 2 _ _ H2). vm_compute. reflexivity. }
  assert (H4 : inject_reachable Ex.inflight4).
  { eapply (reach_inject _ 0 0 3 _ _ H3). vm_compute. reflexivity. }
  split; [exact H4|].
  exact (proj1 (inflight_list_priority_order Ex.inflight4 H4) 0%nat).
Defined.

(** ** Coalescing and offline vCPUs *)

Lemma entries_app l1 l2 p : entries (l1 ++ l2) p = (entries l1 p + entries l2 p)%nat.
Proof. unfold entries. now rewrite List.filter_app, length_app. Qed.

Lemma entries_absent l p : ~ In p l -> entries l p = 0%nat.
Proof.
  unfold entries. induction l as [|q l IH]; cbn; [reflexivity|].
  intros Hn. destruct (pending_ptr_eqb_spec p q) as [->|Hne].
  - exfalso. apply Hn. now left.
  - apply IH. intros Hin. apply Hn. now right.
Qed.

Lemma entries_cons_same l p : entries (p :: l) p = S (entries l p).
Proof. unfold entries. cbn. now rewrite pending_ptr_eqb_refl. Qed.

Lemma test_bit_set_bit nr w : 0 <= nr -> test_bit nr (set_bit nr w) = true.
Proof. intros H. unfold test_bit, set_bit. now apply Z.setbit_eq. Qed.

(** C4: (1) injecting a line that is linked in the inflight list of the
    vCPU changes no inflight list, sets the queued bit of the descriptor and
    asks the physical interface to re-latch the line; (2) injecting a line
    twice in a row into an online vCPU leaves exactly one entry for it;
    (3) injecting a line that is not inflight into an offline vCPU returns
    without any change of the domain and without any call (no unblock, no
    cross-processor notification). *)
Theorem inject_coalesces_and_skips_offline cur d v vc irq np :
  vcpu_at d v = Some vc ->
  pending_at d (pending_ptr_of v irq) = Some np ->
  (In (pending_ptr_of v irq) (inflight_of d v) ->
   exists d',
     vgic_vcpu_inject_irq cur v irq d
       = Ok tt d' (GicRaiseInflightIrq v irq :: notify_events cur v vc) /\
     (forall w, inflight_of d' w = inflight_of d w) /\
     exists np',
       pending_at d' (pending_ptr_of v irq) = Some np' /\
       test_bit GIC_IRQ_GUEST_QUEUED (p_status np') = true) /\
  (inflight_linked d (pending_ptr_of v irq) = false ->
   is_vcpu_online vc = true ->
   forall d1 tr1,
     vgic_vcpu_inject_irq cur v irq d = Ok tt d1 tr1 ->
     exists d2 tr2,
       vgic_vcpu_inject_irq cur v irq d1 = Ok tt d2 tr2 /\
       (forall w, inflight_of d2 w = inflight_of d1 w) /\
       entries (inflight_of d2 v) (pending_ptr_of v irq) = 1%nat /\
       In (GicRaiseInflightIrq v irq) tr2 /\
       exists np2,
         pending_at d2 (pending_ptr_of v irq) = Some np2 /\
         test_bit GIC_IRQ_GUEST_QUEUED (p_status np2) = true) /\
  (inflight_linked d (pending_ptr_of v irq) = false ->
   is_vcpu_online vc = false ->
   vgic_vcpu_inject_irq cur v irq d = Ok tt d []).
Proof.
  intros Hv Hp. set (n := pending_ptr_of v irq) in *.
  assert (Hrelatch : forall d0 vc0 np0,
             vcpu_at d0 v = Some vc0 -> pending_at d0 n = Some np0 ->
             In n (inflight_of d0 v) ->
             exists d',
               vgic_vcpu_inject_irq cur v irq d0
                 = Ok tt d' (GicRaiseInflightIrq v irq :: notify_events cur v vc0) /\
               (forall w, inflight_of d' w = inflight_of d0 w) /\
               exists np',
                 pending_at d' n = Some np' /\
                 test_bit GIC_IRQ_GUEST_QUEUED (p_status np') = true).
  { intros d0 vc0 np0 Hv0 Hp0 Hin.
    assert (Hl : inflight_linked d0 n = true) by (apply inflight_linked_iff; eauto).
    eexists. split; [apply (inject_linked _ _ _ _ _ _ Hv0 Hp0 Hl)|]. split.
    - intros w. apply inflight_of_store_pending.
    - eexists. split; [apply (pending_at_store_eq _ _ _ _ Hp0)|].
      cbn [p_status set_p_status]. now apply test_bit_set_bit. }
  split; [|split].
  - intros Hin. exact (Hrelatch d vc np Hv Hp Hin).
  - intros Hl Hon d1 tr1 Hstep.
    assert (Hdown : test_bit _VPF_down (pause_flags vc) = false).
    { unfold is_vcpu_online in Hon. now apply negb_true_iff in Hon. }
    destruct (inject_new_inv _ _ _ _ _ _ _ _ Hv Hp Hl Hdown Hstep)
      as (priority & l1 & l2 & Hsplit & [vc1 Hv1] & Hlists & Hn & _).
    assert (Hin1 : In n (inflight_of d1 v)).
    { rewrite Hlists, Nat.eqb_refl. apply in_or_app. right. now left. }
    destruct (Hrelatch d1 vc1 _ Hv1 Hn Hin1) as (d2 & Hstep2 & Hsame & np2 & Hp2 & Hq2).
    exists d2. eexists. split; [exact Hstep2|]. split; [exact Hsame|]. split; [|split].
    + rewrite Hsame, Hlists, Nat.eqb_refl.
      assert (Hnot : ~ In n (l1 ++ l2)).
      { rewrite <- Hsplit. now apply inflight_unlinked. }
      rewrite entries_app, entries_cons_same.
      rewrite (entries_absent l1), (entries_absent l2); [reflexivity|..];
        intros Hin; apply Hnot, in_or_app; auto.
    + now left.
    + eauto.
  - intros Hl Hoff. apply (inject_offline _ _ _ _ _ _ Hv Hp Hl).
    unfold is_vcpu_online in Hoff. now apply negb_false_iff in Hoff.
Qed.

Lemma inject_coalesces_and_skips_offline_witness :
  In (vcpu_pending 0 2) (inflight_of Ex.inflight4 0) /\
  (exists d' tr,
      vgic_vcpu_inject_irq 0 0 2 Ex.inflight4 = Ok tt d' tr /\
      (forall w, inflight_of d' w = inflight_of Ex.inflight4 w)) /\
  vgic_vcpu_inject_irq 0 0 2 Ex.guest_offline = Ok tt Ex.guest_offline [].
Proof.
  assert (Hin : In (vcpu_pending 0 2) (inflight_of Ex.inflight4 0))
    by (vm_compute; auto 6).
  assert (Hv : exists vc, vcpu_at Ex.inflight4 0 = Some vc) by (vm_compute; eexists; reflexivity).
  assert (Hp : exists np, pending_at Ex.inflight4 (pending_ptr_of 0 2) = Some np)
    by (vm_compute; eexists; reflexivity).
  assert (Hv' : exists vc, vcpu_at Ex.guest_offline 0 = Some vc /\ is_vcpu_online vc = false)
    by (vm_compute; eexists; split; reflexivity).
  assert (Hp' : exists np, pending_at Ex.guest_offline (pending_ptr_of 0 2) = Some np)
    by (vm_compute; eexists; reflexivity).
  assert (Hl' : inflight_linked Ex.guest_offline (pending_ptr_of 0 2) = false)
    by (vm_compute; reflexivity).
  destruct Hv as [vc Hv], Hp as [np Hp], Hv' as (vc' & Hv' & Hoff), Hp' as [np' Hp'].
  split; [exact Hin|]. split.
  - destruct (proj1 (inject_coalesces_and_skips_offline 0 Ex.inflight4 0 vc 2 np Hv Hp) Hin)
      as (d' & Hstep & Hsame & _).
    exists d'. eexists. split; [exact Hstep | exact Hsame].
  - exact (proj2 (proj2 (inject_coalesces_and_skips_offline 0 Ex.guest_offline 0 vc' 2 np'
                           Hv' Hp')) Hl' Hoff).
Defined.

(** ** Loops over the set bits of a mask *)

Lemma for_each_cons_Ok {I} (body : I -> M unit) i l d d' tr :
  for_each (i :: l) body d = Ok tt d' tr ->
  exists d1 t1 t2,
    body i d = Ok tt d1 t1 /\ for_each l body d1 = Ok tt d' t2 /\ tr = t1 ++ t2.
Proof.
  cbn [for_each]. intros H.
  apply bind_inv_Ok in H as ([] & d1 & t1 & t2 & H1 & H2 & ->). eauto 6.
Qed.

Section ForEach.
Context {I : Type} (body : I -> M unit) (i : I).
Variable Pre : domain -> Prop.
Variable Post : domain -> list event -> Prop.
Hypothesis pre_frame : forall j d d' t,
    j <> i -> Pre d -> body j d = Ok tt d' t -> Pre d'.
Hypothesis establish : forall d d' t,
    Pre d -> body i d = Ok tt d' t -> Post d' t.
Hypothesis post_frame : forall j d d' t t0,
    j <> i -> Post d t0 -> body j d = Ok tt d' t -> Post d' (t0 ++ t).
Hypothesis post_prefix : forall d t0 t, Post d t -> Post d (t0 ++ t).

Lemma for_each_keeps l d d' t0 t :
  ~ In i l -> Post d t0 -> for_each l body d = Ok tt d' t -> Post d' (t0 ++ t).
Proof.
  revert d t0 t. induction l as [|j l IH]; intros d t0 t Hni HP H.
  - injection H as <- <-. now rewrite app_nil_r.
  - apply for_each_cons_Ok in H as (d1 & t1 & t2 & H1 & H2 & ->).
    rewrite app_assoc. apply (IH d1).
    + intros Hin. apply Hni. now right.
    + apply (post_frame j d); [|assumption..]. intros ->. apply Hni. now left.
    + assumption.
Qed.

(** The iteration for [i] establishes [Post], the others keep it. *)
Lemma for_each_establishes l d d' tr :
  List.NoDup l -> In i l -> Pre d -> for_each l body d = Ok tt d' tr -> Post d' tr.
Proof.
  revert d tr. induction l as [|j l IH]; intros d tr Hnd Hin HP H; [contradiction|].
  apply for_each_cons_Ok in H as (d1 & t1 & t2 & H1 & H2 & ->).
  apply List.NoDup_cons_iff in Hnd as [Hnj Hnd].
  destruct Hin as [->|Hin].
  - apply (for_each_keeps l d1); [assumption| |assumption]. now apply (establish d).
  - apply post_prefix. apply (IH d1); [assumption..| |assumption].
    apply (pre_frame j d d1 t1); [|assumption..]. intros ->. contradiction.
Qed.
End ForEach.

Lemma set_bits_filter mask n :
  set_bits mask n = List.filter (fun i => Z.testbit mask (Z.of_nat i)) (seq 0 n).
Proof.
  unfold set_bits. generalize (seq 0 n). intros l.
  induction l as [|i l IH]; cbn; [reflexivity|].
  rewrite IH. now destruct (Z.testbit mask (Z.of_nat i)).
Qed.

Lemma set_bits_NoDup mask n : List.NoDup (set_bits mask n).
Proof. rewrite set_bits_filter. apply List.NoDup_filter, List.seq_NoDup. Qed.

Lemma set_bits_In mask n i :
  In i (set_bits mask n) <-> (i < n)%nat /\ Z.testbit mask (Z.of_nat i) = true.
Proof.
  rewrite set_bits_filter, List.filter_In, List.in_seq. intuition lia.
Qed.

(** ** Removal from the queues *)

Lemma vcpu_at_unlink p d w :
  vcpu_at (unlink_everywhere p d) w = unlink_pending p <$> vcpu_at d w.
Proof.
  unfold vcpu_at, unlink_everywhere. cbn [d_vcpu set_d_vcpu].
  rewrite list_lookup_fmap. now destruct (d_vcpu d !! w) as [[vc|]|].
Qed.

Lemma pending_at_unlink p d q :
  pending_at (unlink_everywhere p d) q = pending_at d q.
Proof.
  destruct q as [w j|j]; cbn [pending_at]; [|reflexivity].
  rewrite vcpu_at_unlink. now destruct (vcpu_at d w).
Qed.

Lemma inflight_of_unlink p d w :
  inflight_of (unlink_everywhere p d) w
  = List.filter (fun q => negb (pending_ptr_eqb p q)) (inflight_of d w).
Proof.
  unfold inflight_of. rewrite vcpu_at_unlink. now destruct (vcpu_at d w).
Qed.

Lemma lr_pending_of_unlink p d w :
  lr_pending_of (unlink_everywhere p d) w
  = List.filter (fun q => negb (pending_ptr_eqb p q)) (lr_pending_of d w).
Proof.
  unfold lr_pending_of. rewrite vcpu_at_unlink. now destruct (vcpu_at d w).
Qed.

Lemma on_list_iff sel d p :
  on_list sel d p = true <->
  exists w vc, vcpu_at d w = Some vc /\ In p (sel vc).
Proof.
  unfold on_list. rewrite existsb_exists. split.
  - intros ([vc|] & Hin & Hex); [|discriminate].
    apply existsb_exists in Hex as (q & Hq & Heq).
    apply pending_ptr_eqb_eq in Heq as <-.
    apply list_elem_of_In, list_elem_of_lookup in Hin as (w & Hw).
    exists w, vc. split; [|assumption]. unfold vcpu_at. now rewrite Hw.
  - intros (w & vc & Hw & Hin). unfold vcpu_at in Hw.
    destruct (d_vcpu d !! w) as [[vc'|]|] eqn:E; try discriminate.
    injection Hw as ->. exists (Some vc). split.
    + apply list_elem_of_In, list_elem_of_lookup. eauto.
    + apply existsb_exists. exists p. split; [assumption | apply pending_ptr_eqb_refl].
Qed.

Lemma not_in_filter_self p l :
  ~ In p (List.filter (fun q => negb (pending_ptr_eqb p q)) l).
Proof.
  rewrite List.filter_In. intros [_ H]. now rewrite pending_ptr_eqb_refl in H.
Qed.

Lemma unlinked_after_unlink sel p d :
  (forall vc, sel (unlink_pending p vc)
              = List.filter (fun q => negb (pending_ptr_eqb p q)) (sel vc)) ->
  on_list sel (unlink_everywhere p d) p = false.
Proof.
  intros Hsel. apply not_true_iff_false. rewrite on_list_iff.
  intros (w & vc & Hw & Hin). rewrite vcpu_at_unlink in Hw.
  destruct (vcpu_at d w) as [vc0|]; [|discriminate]. injection Hw as <-.
  rewrite Hsel in Hin. now apply not_in_filter_self in Hin.
Qed.

(** A removal does not link anything. *)
Lemma on_list_unlink_mono sel p d q :
  (forall vc, sel (unlink_pending p vc)
              = List.filter (fun q => negb (pending_ptr_eqb p q)) (sel vc)) ->
  on_list sel d q = false -> on_list sel (unlink_everywhere p d) q = false.
Proof.
  intros Hsel H. apply not_true_iff_false. apply not_true_iff_false in H.
  rewrite on_list_iff in *. intros (w & vc & Hw & Hin). apply H.
  rewrite vcpu_at_unlink in Hw.
  destruct (vcpu_at d w) as [vc0|] eqn:E; [|discriminate]. injection Hw as <-.
  rewrite Hsel in Hin. apply List.filter_In in Hin as [Hin _]. eauto.
Qed.

Lemma on_list_store_pending sel d p x q :
  (forall w vc, sel (stored_in_vcpu p x w vc) = sel vc) ->
  on_list sel (store_pending_in d p x) q = on_list sel d q.
Proof.
  intros Hsel. apply eq_true_iff_eq. rewrite !on_list_iff.
  split; intros (w & vc & Hw & Hin).
  - rewrite vcpu_at_store_pending in Hw.
    destruct (vcpu_at d w) as [vc0|] eqn:E; [|discriminate]. injection Hw as <-.
    rewrite Hsel in Hin. eauto.
  - exists w, (stored_in_vcpu p x w vc). rewrite vcpu_at_store_pending, Hw.
    split; [reflexivity|]. now rewrite Hsel.
Qed.

Lemma sel_inflight_stored p x w vc :
  inflight_irqs (stored_in_vcpu p x w vc) = inflight_irqs vc.
Proof. destruct p as [u i|i]; cbn; [|reflexivity]. now destruct (u =? w)%nat. Qed.

Lemma sel_lr_stored p x w vc :
  lr_pending (stored_in_vcpu p x w vc) = lr_pending vc.
Proof. destruct p as [u i|i]; cbn; [|reflexivity]. now destruct (u =? w)%nat. Qed.

(** ** Disabling lines *)

Lemma gic_remove_from_queues_eval d v vc irq :
  vcpu_at d v = Some vc ->
  gic_remove_from_queues v irq d
  = Ok tt (unlink_everywhere (pending_ptr_of v irq) d) [GicRemoveFromQueues v irq].
Proof.
  intros Hv. unfold gic_remove_from_queues.
  rewrite (bind_pure _ _ _ _ _ (irq_to_pending_ok _ _ _ irq Hv)).
  reflexivity.
Qed.

(** One iteration of the disable loop. *)
Lemma vgic_disable_irq_eval d v vc n i pd :
  let irq := (i + 32 * Z.to_nat n)%nat in
  vcpu_at d v = Some vc ->
  pending_at d (pending_ptr_of v irq) = Some pd ->
  vgic_disable_irq v n i d
  = Ok tt (unlink_everywhere (pending_ptr_of v irq)
             (store_pending_in d (pending_ptr_of v irq)
                (set_p_status pd (clear_bit GIC_IRQ_GUEST_ENABLED (p_status pd)))))
       (GicRemoveFromQueues v irq :: desc_events DescDisable pd).
Proof.
  intros irq Hv Hp. unfold vgic_disable_irq. fold irq.
  rewrite (bind_pure _ _ _ _ _ (irq_to_pending_ok _ _ _ irq Hv)).
  rewrite (bind_pure _ _ _ _ _ (load_pending_ok _ _ _ Hp)).
  rewrite (bind_pure _ _ _ _ _ (store_pending_ok _ _ _ _ Hp)).
  set (pd' := set_p_status pd _). set (d1 := store_pending_in d _ pd').
  assert (Hv1 : vcpu_at d1 v = Some (stored_in_vcpu (pending_ptr_of v irq) pd' v vc))
    by (unfold d1; rewrite vcpu_at_store_pending, Hv; reflexivity).
  rewrite (bind_Ok _ _ _ _ _ _ (gic_remove_from_queues_eval _ _ _ irq Hv1)).
  assert (Hp2 : pending_at (unlink_everywhere (pending_ptr_of v irq) d1)
                           (pending_ptr_of v irq) = Some pd').
  { rewrite pending_at_unlink. unfold d1. now apply pending_at_store_eq with pd. }
  rewrite (bind_pure _ _ _ _ _ (load_pending_ok _ _ _ Hp2)).
  unfold desc_events. cbn [p_desc pd' set_p_status].
  now destruct (p_desc pd).
Qed.

Lemma vgic_disable_irq_valid d v n i d' tr :
  vgic_disable_irq v n i d = Ok tt d' tr ->
  exists vc pd,
    vcpu_at d v = Some vc /\
    pending_at d (pending_ptr_of v (i + 32 * Z.to_nat n)) = Some pd.
Proof.
  unfold vgic_disable_irq. set (irq := (i + 32 * Z.to_nat n)%nat).
  intros H.
  apply bind_inv_Ok in H as (p & d1 & t1 & t2 & Hp & H & _).
  apply bind_inv_Ok in H as (pd & d2 & t3 & t4 & Hpd & _ & _).
  assert (Hptr : p = pending_ptr_of v irq /\ d1 = d).
  { revert Hp. unfold irq_to_pending, pending_ptr_of.
    destruct (irq <? 32)%nat; [now intros [= <- <-]|].
    intros Hp. apply bind_inv_Ok in Hp as (vc & d0 & ? & ? & Hg & [= <- <-] & _).
    now apply get_vcpu_inv in Hg as (_ & -> & _). }
  destruct Hptr as [-> ->].
  unfold load_pending in Hpd.
  destruct (pending_at d (pending_ptr_of v irq)) as [pd0|] eqn:E; [|discriminate].
  assert (Hv : is_Some (vcpu_at d v)).
  { revert Hp E. unfold irq_to_pending, pending_ptr_of.
    destruct (irq <? 32)%nat.
    - intros _. cbn. destruct (vcpu_at d v); [eauto|discriminate].
    - intros Hp _. apply bind_inv_Ok in Hp as (vc & d0 & ? & ? & Hg & _).
      apply get_vcpu_inv in Hg as (Hg & _). eauto. }
  destruct Hv as [vc Hv]. eauto.
Qed.

Lemma pending_ptr_of_inj v a b : pending_ptr_of v a = pending_ptr_of v b -> a = b.
Proof.
  unfold pending_ptr_of.
  destruct (Nat.ltb_spec a 32), (Nat.ltb_spec b 32); intros [= ]; try lia.
Qed.

Lemma test_bit_clear_bit nr w : 0 <= nr -> test_bit nr (clear_bit nr w) = false.
Proof. intros H. unfold test_bit, clear_bit. now apply Z.clearbit_eq. Qed.

Lemma test_bit_set_bit_neq nr nr' w :
  0 <= nr' -> nr <> nr' -> test_bit nr (set_bit nr' w) = test_bit nr w.
Proof.
  intros H Hne. unfold test_bit, set_bit. apply Z.setbit_neq; [lia|congruence].
Qed.

Lemma sel_inflight_unlink p vc :
  inflight_irqs (unlink_pending p vc)
  = List.filter (fun q => negb (pending_ptr_eqb p q)) (inflight_irqs vc).
Proof. reflexivity. Qed.

Lemma sel_lr_unlink p vc :
  lr_pending (unlink_pending p vc)
  = List.filter (fun q => negb (pending_ptr_eqb p q)) (lr_pending vc).
Proof. reflexivity. Qed.

Lemma disable_establishes v n i d d' t :
  vgic_disable_irq v n i d = Ok tt d' t ->
  line_disabled v (i + 32 * Z.to_nat n) d' t.
Proof.
  intros H.
  destruct (vgic_disable_irq_valid _ _ _ _ _ _ H) as (vc & pd & Hv & Hp).
  rewrite (vgic_disable_irq_eval _ _ _ _ _ _ Hv Hp) in H. injection H as <- <-.
  eexists. split; [|split; [|split; [|split; [|split]]]].
  - rewrite pending_at_unlink. apply (pending_at_store_eq _ _ _ _ Hp).
  - cbn [p_status set_p_status]. now apply test_bit_clear_bit.
  - apply unlinked_after_unlink, sel_inflight_unlink.
  - apply unlinked_after_unlink, sel_lr_unlink.
  - now left.
  - cbn [p_desc set_p_status]. intros k Hk. right. unfold desc_events.
    rewrite Hk. now left.
Qed.

Lemma disable_keeps v n i j d d' t t0 :
  j <> i ->
  line_disabled v (i + 32 * Z.to_nat n) d t0 ->
  vgic_disable_irq v n j d = Ok tt d' t ->
  line_disabled v (i + 32 * Z.to_nat n) d' (t0 ++ t).
Proof.
  intros Hne (pd & Hp & Hen & Hin & Hlr & Hev & Hdesc) H.
  destruct (vgic_disable_irq_valid _ _ _ _ _ _ H) as (vc & pdj & Hv & Hpj).
  rewrite (vgic_disable_irq_eval _ _ _ _ _ _ Hv Hpj) in H. injection H as <- <-.
  assert (Hptr : pending_ptr_of v (j + 32 * Z.to_nat n)
                 <> pending_ptr_of v (i + 32 * Z.to_nat n)).
  { intros Heq. apply pending_ptr_of_inj in Heq. lia. }
  exists pd. split; [|split; [|split; [|split; [|split]]]].
  - rewrite pending_at_unlink. now rewrite pending_at_store_ne.
  - assumption.
  - apply on_list_unlink_mono; [apply sel_inflight_unlink|].
    unfold inflight_linked.
    now rewrite on_list_store_pending by apply sel_inflight_stored.
  - apply on_list_unlink_mono; [apply sel_lr_unlink|].
    unfold lr_queue_linked.
    now rewrite on_list_store_pending by apply sel_lr_stored.
  - apply in_or_app. now left.
  - intros k Hk. apply in_or_app. left. now apply Hdesc.
Qed.

Lemma line_disabled_prefix v irq d t0 t :
  line_disabled v irq d t -> line_disabled v irq d (t0 ++ t).
Proof.
  intros (pd & Hp & Hen & Hin & Hlr & Hev & Hdesc).
  exists pd. split; [|split; [|split; [|split; [|split]]]]; try assumption.
  - apply in_or_app. now right.
  - intros k Hk. apply in_or_app. right. now apply Hdesc.
Qed.

Lemma vgic_disable_irqs_line d v r n i d' tr :
  (i < 32)%nat ->
  Z.testbit (u32 r) (Z.of_nat i) = true ->
  vgic_disable_irqs v r n d = Ok tt d' tr ->
  line_disabled v (i + 32 * Z.to_nat n) d' tr.
Proof.
  intros Hi Hbit H. unfold vgic_disable_irqs in H.
  apply (for_each_establishes (vgic_disable_irq v n) i (fun _ => True)
           (line_disabled v (i + 32 * Z.to_nat n))) with (l := set_bits (u32 r) 32) (d := d).
  - trivial.
  - intros d0 d1 t _. apply disable_establishes.
  - intros j d0 d1 t t0. apply disable_keeps.
  - intros d0 t0 t. apply line_disabled_prefix.
  - apply set_bits_NoDup.
  - apply set_bits_In. split; assumption.
  - exact I.
  - exact H.
Qed.

Lemma for_each_returns {I} (body : I -> M unit) (Inv : domain -> Prop) l :
  (forall j d, In j l -> Inv d -> exists d' t, body j d = Ok tt d' t /\ Inv d') ->
  forall d, Inv d -> exists d' t, for_each l body d = Ok tt d' t.
Proof.
  induction l as [|j l IH]; intros Hbody d HI; cbn [for_each].
  - now exists d, [].
  - destruct (Hbody j d (or_introl eq_refl) HI) as (d1 & t1 & H1 & HI1).
    destruct (IH (fun k d0 Hk => Hbody k d0 (or_intror Hk)) d1 HI1) as (d2 & t2 & H2).
    exists d2, (t1 ++ t2). rewrite (bind_Ok _ _ _ _ _ _ H1), H2. reflexivity.
Qed.

(** [vgic_disable_irqs] returns when the vCPU exists and the lines of the
    set bits have descriptors. *)
Lemma vgic_disable_irqs_returns d v vc r n :
  vcpu_at d v = Some vc ->
  (forall i, (i < 32)%nat -> Z.testbit (u32 r) (Z.of_nat i) = true ->
             is_Some (pending_at d (pending_ptr_of v (i + 32 * Z.to_nat n)))) ->
  exists d' tr, vgic_disable_irqs v r n d = Ok tt d' tr.
Proof.
  intros Hv Hdesc. unfold vgic_disable_irqs.
  apply (for_each_returns _
           (fun d0 => is_Some (vcpu_at d0 v) /\
                      forall i, In i (set_bits (u32 r) 32) ->
                        is_Some (pending_at d0 (pending_ptr_of v (i + 32 * Z.to_nat n))))).
  - intros j d0 Hj [[vc0 Hv0] Hd0].
    destruct (Hd0 j Hj) as [pd Hp].
    eexists _, _. split; [apply (vgic_disable_irq_eval _ _ _ _ _ _ Hv0 Hp)|]. split.
    + rewrite vcpu_at_unlink, vcpu_at_store_pending, Hv0. cbn. eauto.
    + intros i Hi. rewrite pending_at_unlink.
      destruct (pending_ptr_eqb_spec (pending_ptr_of v (j + 32 * Z.to_nat n))
                  (pending_ptr_of v (i + 32 * Z.to_nat n))) as [<-|Hne].
      * rewrite (pending_at_store_eq _ _ _ _ Hp). eauto.
      * rewrite pending_at_store_ne by assumption. now apply Hd0.
  - split; [eauto|]. intros i Hi. apply set_bits_In in Hi as [? ?]. now apply Hdesc.
Qed.

(** ** Enabling lines *)

Lemma load_pending_inv p d x d' t :
  load_pending p d = Ok x d' t -> pending_at d p = Some x /\ d' = d /\ t = [].
Proof.
  unfold load_pending. destruct (pending_at d p); [|discriminate].
  now intros [= -> -> <-].
Qed.

Lemma store_pending_inv p x d u d' t :
  store_pending p x d = Ok u d' t ->
  is_Some (pending_at d p) /\ d' = store_pending_in d p x /\ t = [].
Proof.
  unfold store_pending. destruct (pending_at d p); [|discriminate].
  intros [= _ <- <-]. eauto.
Qed.

Lemma irq_to_pending_inv v irq d p d' t :
  irq_to_pending v irq d = Ok p d' t ->
  p = pending_ptr_of v irq /\ d' = d /\ t = [].
Proof.
  unfold irq_to_pending, pending_ptr_of. destruct (irq <? 32)%nat.
  - now intros [= <- <-].
  - intros H. apply bind_inv_Ok in H as (vc & d0 & t1 & t2 & Hg & [= <- <- <-] & ->).
    apply get_vcpu_inv in Hg as (_ & -> & ->). auto.
Qed.

Lemma entries_pos l p : (0 < entries l p)%nat <-> In p l.
Proof.
  unfold entries. induction l as [|q l IH]; cbn; [split; [lia|tauto]|].
  destruct (pending_ptr_eqb_spec p q) as [->|Hne]; cbn.
  - split; [auto|lia].
  - rewrite IH. split; [auto|]. intros [Heq|Hin]; [congruence|assumption].
Qed.

Lemma entries_cons_other l p q : q <> p -> entries (q :: l) p = entries l p.
Proof.
  intros Hne. unfold entries. cbn.
  destruct (pending_ptr_eqb_spec p q); [congruence|reflexivity].
Qed.

(** An injection touches only the descriptor of its line and the entries of
    that descriptor. *)
Lemma inject_frame cur d v irq d' tr :
  vgic_vcpu_inject_irq cur v irq d = Ok tt d' tr ->
  (forall q, q <> pending_ptr_of v irq -> pending_at d' q = pending_at d q) /\
  (forall w q, q <> pending_ptr_of v irq ->
               entries (inflight_of d' w) q = entries (inflight_of d w) q).
Proof.
  intros H. destruct (inject_Ok_valid _ _ _ _ _ _ H) as (vc & np & Hv & Hp).
  destruct (inflight_linked d (pending_ptr_of v irq)) eqn:Hl.
  - rewrite (inject_linked _ _ _ _ _ _ Hv Hp Hl) in H. injection H as <- _. split.
    + intros q Hq. now apply pending_at_store_ne.
    + intros w q _. now rewrite inflight_of_store_pending.
  - destruct (test_bit _VPF_down (pause_flags vc)) eqn:Hdown.
    + rewrite (inject_offline _ _ _ _ _ _ Hv Hp Hl Hdown) in H. injection H as <- _.
      auto.
    + destruct (inject_new_inv _ _ _ _ _ _ _ _ Hv Hp Hl Hdown H)
        as (priority & l1 & l2 & Hsplit & _ & Hlists & _ & Hothers & _).
      split; [exact Hothers|]. intros w q Hq. rewrite Hlists.
      destruct (Nat.eqb_spec v w) as [<-|]; [|reflexivity].
      rewrite Hsplit, !entries_app. f_equal. now apply entries_cons_other.
Qed.

(** One iteration of the enable loop. *)
Lemma vgic_enable_irq_inv cur d v n i d' t :
  let irq := (i + 32 * Z.to_nat n)%nat in
  let p := pending_ptr_of v irq in
  vgic_enable_irq cur v n i d = Ok tt d' t ->
  exists vc pd t2 pd2,
    vcpu_at d v = Some vc /\
    pending_at d p = Some pd /\
    let d1 := store_pending_in d p
                (set_p_status pd (set_bit GIC_IRQ_GUEST_ENABLED (p_status pd))) in
    ((inflight_linked d p = false /\
      vgic_vcpu_inject_irq cur v irq d1 = Ok tt d' t2) \/
     (d' = d1 /\
      t2 = if inflight_linked d p
              && negb (test_bit GIC_IRQ_GUEST_VISIBLE (p_status pd))
           then [GicRaiseGuestIrq v irq (p_priority pd)] else [])) /\
    pending_at d' p = Some pd2 /\
    t = t2 ++ desc_events DescEnable pd2.
Proof.
  intros irq p H. unfold vgic_enable_irq in H. fold irq in H.
  apply bind_inv_Ok in H as (p0 & d01 & ta1 & tb1 & Hp0 & H & ->).
  apply irq_to_pending_inv in Hp0 as (-> & -> & ->). fold p in H.
  apply bind_inv_Ok in H as (pd & d02 & ta2 & tb2 & Hpd & H & ->).
  apply load_pending_inv in Hpd as (Hpd & -> & ->).
  apply bind_inv_Ok in H as ([] & d1 & ta3 & tb3 & Hst & H & ->).
  apply store_pending_inv in Hst as (_ & Hd1 & ->).
  apply bind_inv_Ok in H as (vc1 & d04 & ta4 & tb4 & Hg & H & ->).
  apply get_vcpu_inv in Hg as (Hv1 & -> & ->).
  apply bind_inv_Ok in H as (dd & d05 & ta5 & tb5 & Hget & H & ->).
  injection Hget as <- <- <-.
  set (pd' := set_p_status pd (set_bit GIC_IRQ_GUEST_ENABLED (p_status pd))) in *.
  assert (Hv : exists vc, vcpu_at d v = Some vc).
  { rewrite Hd1, vcpu_at_store_pending in Hv1.
    destruct (vcpu_at d v); [eauto|discriminate]. }
  destruct Hv as [vc Hv].
  assert (Hlink : inflight_linked d1 p = inflight_linked d p).
  { rewrite Hd1. unfold inflight_linked. apply on_list_store_pending, sel_inflight_stored. }
  assert (Hp1 : pending_at d1 p = Some pd')
    by (rewrite Hd1; apply (pending_at_store_eq _ _ _ _ Hpd)).
  apply bind_inv_Ok in H as (force & d06 & ta6 & tb6 & Hforce & H & ->).
  assert (Hf : d06 = d1 /\ ta6 = [] /\
               (force = true -> inflight_linked d p = false)).
  { destruct (irq =? evtchn_irq d1)%nat.
    - apply bind_inv_Ok in Hforce as (cv & d07 & ta7 & tb7 & Hg & Hr & ->).
      apply get_vcpu_inv in Hg as (_ & -> & ->). injection Hr as <- <- <-.
      repeat split.
      rewrite Hlink. intros Hf. apply andb_true_iff in Hf as [_ Hf].
      now apply negb_true_iff in Hf.
    - injection Hforce as <- <- <-. repeat split. discriminate. }
  destruct Hf as (-> & -> & Hf). clear Hforce.
  apply bind_inv_Ok in H as ([] & d2 & t2 & tb8 & Hmid & H & ->).
  apply bind_inv_Ok in H as (pd2 & d09 & ta9 & tb9 & Hpd2 & H & ->).
  apply load_pending_inv in Hpd2 as (Hpd2 & -> & ->).
  assert (Hdesc : d' = d2 /\ tb9 = desc_events DescEnable pd2).
  { unfold desc_events. destruct (p_desc pd2); now injection H as <- <-. }
  destruct Hdesc as [-> ->]. clear H.
  exists vc, pd, t2, pd2. split; [exact Hv|]. split; [exact Hpd|]. cbn zeta.
  fold pd'. rewrite <- Hd1. split; [|split; [exact Hpd2|reflexivity]].
  destruct force.
  - left. split; [now apply Hf | exact Hmid].
  - right.
    apply bind_inv_Ok in Hmid as (pd1 & d010 & ta10 & tb10 & Hl1 & Hmid & ->).
    apply load_pending_inv in Hl1 as (Hl1 & -> & ->).
    rewrite Hp1 in Hl1. injection Hl1 as <-.
    rewrite Hlink in Hmid. cbn [pd' p_status p_priority set_p_status] in Hmid.
    rewrite test_bit_set_bit_neq in Hmid by (vm_compute; discriminate).
    destruct (inflight_linked d p && negb (test_bit GIC_IRQ_GUEST_VISIBLE (p_status pd)));
      now injection Hmid as <- <-.
Qed.

(** An iteration of the enable loop touches only the descriptor of its line
    and the entries of that descriptor. *)
Lemma vgic_enable_irq_frame cur d v n j d' t q :
  vgic_enable_irq cur v n j d = Ok tt d' t ->
  q <> pending_ptr_of v (j + 32 * Z.to_nat n) ->
  pending_at d' q = pending_at d q /\
  forall w, entries (inflight_of d' w) q = entries (inflight_of d w) q.
Proof.
  intros H Hq.
  destruct (vgic_enable_irq_inv _ _ _ _ _ _ _ H)
    as (vc & pd & t2 & pd2 & Hv & Hp & [[_ Hinj]|[-> _]] & _).
  - destruct (inject_frame _ _ _ _ _ _ Hinj) as [Hpend Hent]. split.
    + rewrite Hpend by assumption. apply pending_at_store_ne. congruence.
    + intros w. rewrite Hent by assumption. now rewrite inflight_of_store_pending.
  - split.
    + apply pending_at_store_ne. congruence.
    + intros w. now rewrite inflight_of_store_pending.
Qed.

Lemma line_raised_establish cur v n i prio cnt d d' t :
  line_inflight_hidden v (i + 32 * Z.to_nat n) prio cnt d ->
  vgic_enable_irq cur v n i d = Ok tt d' t ->
  line_raised v (i + 32 * Z.to_nat n) prio cnt d' t.
Proof.
  intros ((pd & Hp & Hvis & Hprio) & Hcnt & (w & Hw)) H.
  assert (Hl : inflight_linked d (pending_ptr_of v (i + 32 * Z.to_nat n)) = true).
  { apply inflight_linked_iff. exists w. apply entries_pos. rewrite Hcnt. exact Hw. }
  destruct (vgic_enable_irq_inv _ _ _ _ _ _ _ H)
    as (vc & pd0 & t2 & pd2 & Hv & Hp0 & [[Hl' _]|[-> Ht2]] & Hp2 & ->);
    [congruence|].
  rewrite Hp in Hp0. injection Hp0 as <-.
  rewrite Hl, Hvis in Ht2. cbn in Ht2. subst t2. split; [|split].
  - left. now rewrite Hprio.
  - intros w'. rewrite inflight_of_store_pending. apply Hcnt.
  - eexists. split; [apply (pending_at_store_eq _ _ _ _ Hp)|].
    cbn [p_status set_p_status]. now apply test_bit_set_bit.
Qed.

Lemma line_inflight_hidden_frame cur v n i j prio cnt d d' t :
  j <> i ->
  line_inflight_hidden v (i + 32 * Z.to_nat n) prio cnt d ->
  vgic_enable_irq cur v n j d = Ok tt d' t ->
  line_inflight_hidden v (i + 32 * Z.to_nat n) prio cnt d'.
Proof.
  intros Hne ((pd & Hp & Hvis & Hprio) & Hcnt & Hw) H.
  assert (Hptr : pending_ptr_of v (i + 32 * Z.to_nat n)
                 <> pending_ptr_of v (j + 32 * Z.to_nat n)).
  { intros Heq. apply pending_ptr_of_inj in Heq. lia. }
  destruct (vgic_enable_irq_frame _ _ _ _ _ _ _ _ H Hptr) as [Hpend Hent].
  split; [|split; [|exact Hw]].
  - exists pd. now rewrite Hpend.
  - intros w. now rewrite Hent.
Qed.

Lemma line_raised_frame cur v n i j prio cnt d d' t t0 :
  j <> i ->
  line_raised v (i + 32 * Z.to_nat n) prio cnt d t0 ->
  vgic_enable_irq cur v n j d = Ok tt d' t ->
  line_raised v (i + 32 * Z.to_nat n) prio cnt d' (t0 ++ t).
Proof.
  intros Hne (Hev & Hcnt & (pd & Hp & Hen)) H.
  assert (Hptr : pending_ptr_of v (i + 32 * Z.to_nat n)
                 <> pending_ptr_of v (j + 32 * Z.to_nat n)).
  { intros Heq. apply pending_ptr_of_inj in Heq. lia. }
  destruct (vgic_enable_irq_frame _ _ _ _ _ _ _ _ H Hptr) as [Hpend Hent].
  split; [|split].
  - apply in_or_app. now left.
  - intros w. now rewrite Hent.
  - exists pd. now rewrite Hpend.
Qed.

Lemma line_raised_prefix v irq prio cnt d t0 t :
  line_raised v irq prio cnt d t -> line_raised v irq prio cnt d (t0 ++ t).
Proof.
  intros (Hev & Hcnt & Hp). split; [|split; assumption].
  apply in_or_app. now right.
Qed.

Lemma vgic_enable_irqs_line cur d v r n i pd d' tr :
  (i < 32)%nat ->
  Z.testbit (u32 r) (Z.of_nat i) = true ->
  pending_at d (pending_ptr_of v (i + 32 * Z.to_nat n)) = Some pd ->
  In (pending_ptr_of v (i + 32 * Z.to_nat n)) (inflight_of d v) ->
  test_bit GIC_IRQ_GUEST_VISIBLE (p_status pd) = false ->
  vgic_enable_irqs cur v r n d = Ok tt d' tr ->
  line_raised v (i + 32 * Z.to_nat n) (p_priority pd)
    (fun w => entries (inflight_of d w) (pending_ptr_of v (i + 32 * Z.to_nat n))) d' tr.
Proof.
  intros Hi Hbit Hp Hin Hvis H. unfold vgic_enable_irqs in H.
  apply (for_each_establishes (vgic_enable_irq cur v n) i
           (line_inflight_hidden v (i + 32 * Z.to_nat n) (p_priority pd)
              (fun w => entries (inflight_of d w)
                          (pending_ptr_of v (i + 32 * Z.to_nat n)))))
    with (l := set_bits (u32 r) 32) (d := d).
  - intros j d0 d1 t Hne HP Hb. exact (line_inflight_hidden_frame _ _ _ _ _ _ _ _ _ _ Hne HP Hb).
  - intros d0 d1 t HP Hb. exact (line_raised_establish _ _ _ _ _ _ _ _ _ HP Hb).
  - intros j d0 d1 t t0 Hne HP Hb. exact (line_raised_frame _ _ _ _ _ _ _ _ _ _ _ Hne HP Hb).
  - intros d0 t0 t. apply line_raised_prefix.
  - apply set_bits_NoDup.
  - apply set_bits_In. split; assumption.
  - split; [|split].
    + exists pd. auto.
    + reflexivity.
    + exists v. now apply entries_pos.
  - exact H.
Qed.

(** One iteration of the enable loop for a line that is inflight and not
    visible returns. *)
Lemma vgic_enable_irq_inflight_eval cur d v vc cv n i pd :
  vcpu_at d v = Some vc ->
  vcpu_at d cur = Some cv ->
  pending_at d (pending_ptr_of v (i + 32 * Z.to_nat n)) = Some pd ->
  inflight_linked d (pending_ptr_of v (i + 32 * Z.to_nat n)) = true ->
  test_bit GIC_IRQ_GUEST_VISIBLE (p_status pd) = false ->
  vgic_enable_irq cur v n i d
  = Ok tt (store_pending_in d (pending_ptr_of v (i + 32 * Z.to_nat n))
             (set_p_status pd (set_bit GIC_IRQ_GUEST_ENABLED (p_status pd))))
       (GicRaiseGuestIrq v (i + 32 * Z.to_nat n) (p_priority pd)
          :: desc_events DescEnable pd).
Proof.
  intros Hv Hcur Hp Hl Hvis. unfold vgic_enable_irq.
  set (irq := (i + 32 * Z.to_nat n)%nat). set (p := pending_ptr_of v irq) in *.
  rewrite (bind_pure _ _ _ _ _ (irq_to_pending_ok _ _ _ irq Hv)). fold p.
  rewrite (bind_pure _ _ _ _ _ (load_pending_ok _ _ _ Hp)).
  rewrite (bind_pure _ _ _ _ _ (store_pending_ok _ _ _ _ Hp)).
  set (pd' := set_p_status pd _). set (d1 := store_pending_in d p pd').
  assert (Hv1 : vcpu_at d1 v = Some (stored_in_vcpu p pd' v vc))
    by (unfold d1; rewrite vcpu_at_store_pending, Hv; reflexivity).
  assert (Hcur1 : vcpu_at d1 cur = Some (stored_in_vcpu p pd' cur cv))
    by (unfold d1; rewrite vcpu_at_store_pending, Hcur; reflexivity).
  assert (Hl1 : inflight_linked d1 p = true).
  { unfold d1, inflight_linked. rewrite on_list_store_pending by apply sel_inflight_stored.
    exact Hl. }
  assert (Hp1 : pending_at d1 p = Some pd') by (apply (pending_at_store_eq _ _ _ _ Hp)).
  rewrite (bind_pure _ _ _ _ _ (get_vcpu_Some _ _ _ Hv1)).
  rewrite (bind_pure get _ d1 d1 d1 eq_refl).
  assert (Hforce : (if (irq =? evtchn_irq d1)%nat
                    then (cv0 <- get_vcpu cur;;
                          ret (evtchn_upcall_pending cv0 && negb (inflight_linked d1 p)))
                    else ret false) d1 = Ok false d1 []).
  { destruct (irq =? evtchn_irq d1)%nat; [|reflexivity].
    rewrite (bind_pure _ _ _ _ _ (get_vcpu_Some _ _ _ Hcur1)).
    rewrite Hl1. now rewrite andb_false_r. }
  rewrite (bind_pure _ _ _ _ _ Hforce). cbv beta iota.
  assert (Hmid : (pd0 <- load_pending p;;
                  if inflight_linked d1 p
                     && negb (test_bit GIC_IRQ_GUEST_VISIBLE (p_status pd0))
                  then gic_raise_guest_irq v irq (p_priority pd0)
                  else ret tt) d1
                 = Ok tt d1 [GicRaiseGuestIrq v irq (p_priority pd)]).
  { rewrite (bind_pure _ _ _ _ _ (load_pending_ok _ _ _ Hp1)). rewrite Hl1.
    cbn [pd' p_status p_priority set_p_status].
    rewrite test_bit_set_bit_neq by (vm_compute; discriminate).
    rewrite Hvis. reflexivity. }
  rewrite (bind_Ok _ _ _ _ _ _ Hmid).
  rewrite (bind_pure _ _ _ _ _ (load_pending_ok _ _ _ Hp1)).
  unfold desc_events. cbn [pd' p_desc set_p_status]. now destruct (p_desc pd).
Qed.

(** C8: for the line [i + 32 * n] of a set bit of the mask,
    (1) [vgic_enable_irqs] on a line that is in the inflight list of the
    vCPU and not visible to the guest asks the physical interface to raise
    it with its snapshotted priority and leaves the number of entries of the
    line in every inflight list as it was; (2) the iteration of that line
    returns, with the enabled bit set and nothing else changed;
    (3) [vgic_disable_irqs] leaves the line with its enabled bit clear and
    in neither the inflight list nor the list-register queue of any vCPU,
    having asked the physical interface to remove it, and having disabled
    the backing physical interrupt when there is one; (4) it returns
    whenever the vCPU and the descriptors of the lines exist. *)
Theorem enable_disable_transitions cur d v r n i :
  (i < 32)%nat ->
  Z.testbit (u32 r) (Z.of_nat i) = true ->
  (forall pd d' tr,
      pending_at d (pending_ptr_of v (i + 32 * Z.to_nat n)) = Some pd ->
      In (pending_ptr_of v (i + 32 * Z.to_nat n)) (inflight_of d v) ->
      test_bit GIC_IRQ_GUEST_VISIBLE (p_status pd) = false ->
      vgic_enable_irqs cur v r n d = Ok tt d' tr ->
      In (GicRaiseGuestIrq v (i + 32 * Z.to_nat n) (p_priority pd)) tr /\
      (forall w, entries (inflight_of d' w) (pending_ptr_of v (i + 32 * Z.to_nat n))
                 = entries (inflight_of d w) (pending_ptr_of v (i + 32 * Z.to_nat n)))) /\
  (forall vc cv pd,
      vcpu_at d v = Some vc ->
      vcpu_at d cur = Some cv ->
      pending_at d (pending_ptr_of v (i + 32 * Z.to_nat n)) = Some pd ->
      In (pending_ptr_of v (i + 32 * Z.to_nat n)) (inflight_of d v) ->
      test_bit GIC_IRQ_GUEST_VISIBLE (p_status pd) = false ->
      vgic_enable_irq cur v n i d
      = Ok tt (store_pending_in d (pending_ptr_of v (i + 32 * Z.to_nat n))
                 (set_p_status pd (set_bit GIC_IRQ_GUEST_ENABLED (p_status pd))))
           (GicRaiseGuestIrq v (i + 32 * Z.to_nat n) (p_priority pd)
              :: desc_events DescEnable pd)) /\
  (forall d' tr,
      vgic_disable_irqs v r n d = Ok tt d' tr ->
      line_disabled v (i + 32 * Z.to_nat n) d' tr) /\
  (forall vc,
      vcpu_at d v = Some vc ->
      (forall j, (j < 32)%nat -> Z.testbit (u32 r) (Z.of_nat j) = true ->
                 is_Some (pending_at d (pending_ptr_of v (j + 32 * Z.to_nat n)))) ->
      exists d' tr, vgic_disable_irqs v r n d = Ok tt d' tr).
Proof.
  intros Hi Hbit. split; [|split; [|split]].
  - intros pd d' tr Hp Hin Hvis H.
    destruct (vgic_enable_irqs_line _ _ _ _ _ _ _ _ _ Hi Hbit Hp Hin Hvis H)
      as (Hev & Hcnt & _).
    split; assumption.
  - intros vc cv pd Hv Hcur Hp Hin Hvis.
    apply (vgic_enable_irq_inflight_eval _ _ _ _ _ _ _ _ Hv Hcur Hp); [|assumption].
    apply inflight_linked_iff. eauto.
  - intros d' tr H. exact (vgic_disable_irqs_line _ _ _ _ _ _ _ Hi Hbit H).
  - intros vc Hv Hdesc. exact (vgic_disable_irqs_returns _ _ _ _ _ Hv Hdesc).
Qed.

Lemma enable_disable_transitions_witness :
  (exists d' tr,
      vgic_enable_irqs 0 0 4 0 Ex.inflight4 = Ok tt d' tr /\
      In (GicRaiseGuestIrq 0 2 0x80) tr /\
      entries (inflight_of d' 0) (vcpu_pending 0 2) = 1%nat) /\
  (exists d' tr,
      vgic_disable_irqs 0 4 0 Ex.inflight4 = Ok tt d' tr /\
      line_disabled 0 2 d' tr).
Proof.
  assert (Hi : (2 < 32)%nat) by lia.
  assert (Hbit : Z.testbit (u32 4) (Z.of_nat 2) = true) by reflexivity.
  destruct (enable_disable_transitions 0 Ex.inflight4 0 4 0 2 Hi Hbit)
    as (Hen & _ & Hdis & _).
  split.
  - assert (Hrun : exists d' tr, vgic_enable_irqs 0 0 4 0 Ex.inflight4 = Ok tt d' tr)
      by (vm_compute; eexists; eexists; reflexivity).
    destruct Hrun as (d' & tr & Hrun).
    assert (Hp : pending_at Ex.inflight4 (pending_ptr_of 0 (2 + 32 * Z.to_nat 0))
                 = Some (mk_pending 2 1 0x80 None)) by (vm_compute; reflexivity).
    assert (Hin : In (pending_ptr_of 0 (2 + 32 * Z.to_nat 0)) (inflight_of Ex.inflight4 0))
      by (vm_compute; auto 6).
    destruct (Hen _ d' tr Hp Hin eq_refl Hrun) as [Hev Hcnt].
    exists d', tr. split; [exact Hrun|]. split; [exact Hev|].
    change (vcpu_pending 0 2) with (pending_ptr_of 0 (2 + 32 * Z.to_nat 0)).
    rewrite (Hcnt 0%nat). vm_compute. reflexivity.
  - assert (Hrun : exists d' tr, vgic_disable_irqs 0 4 0 Ex.inflight4 = Ok tt d' tr)
      by (vm_compute; eexists; eexists; reflexivity).
    destruct Hrun as (d' & tr & Hrun).
    exists d', tr. split; [exact Hrun|]. exact (Hdis d' tr Hrun).
Defined.

(** * Further properties of the code *)


(** ** The read handler only reads *)

Lemma outcome_pure_ret {A} d (a : A) : outcome_pure d (ret a d).
Proof. cbn. split; [reflexivity|]. intros e []. Qed.

Lemma outcome_pure_read_bad_width d dabt g : outcome_pure d (read_bad_width dabt g d).
Proof. cbn. split; [reflexivity|]. eauto. Qed.

Lemma outcome_pure_read_as_zero d dabt g : outcome_pure d (read_as_zero dabt g d).
Proof.
  unfold read_as_zero. destruct (negb _).
  - apply outcome_pure_read_bad_width.
  - apply outcome_pure_ret.
Qed.

Lemma outcome_pure_unhandled_read d g :
  outcome_pure d ((printk (unhandled_read g);; ret (0, @None Z)) d).
Proof. cbn. split; [reflexivity|]. intros e [<-|[]]. eauto. Qed.

Lemma outcome_pure_of_rank d v vc b n s dabt g (f : vgic_irq_rank -> Z) :
  vcpu_at d v = Some vc ->
  outcome_pure d
    ((rank <- vgic_rank_offset v b n s;;
      match rank with
      | None => read_as_zero dabt g
      | Some rp => rk <- load_rank rp;; ret (1, Some (f rk))
      end) d).
Proof.
  intros Hv. destruct (vgic_rank_offset_ok d v vc b n s Hv) as [rank Hr].
  rewrite (bind_pure _ _ _ _ _ Hr). destruct rank as [rp|].
  - destruct (load_rank_cases rp d) as [[rk Hrk]|Hrk].
    + rewrite (bind_pure _ _ _ _ _ Hrk). apply outcome_pure_ret.
    + rewrite (bind_Fault _ _ _ _ Hrk). reflexivity.
  - apply outcome_pure_read_as_zero.
Qed.

Lemma read_switch_pure d v vc dabt g :
  vcpu_at d v = Some vc -> outcome_pure d (read_switch v dabt g d).
Proof.
  intros Hv. unfold read_switch. rewrite (bind_pure get _ d d d eq_refl). cbv zeta.
  repeat lazymatch goal with
  | |- outcome_pure _ ((if ?c then _ else _) _) => destruct c
  end;
  first [ apply outcome_pure_read_bad_width
        | apply outcome_pure_read_as_zero
        | apply outcome_pure_ret
        | apply outcome_pure_unhandled_read
        | apply (outcome_pure_of_rank _ _ _ _ _ _ _ _ _ Hv) ].
Qed.

(** X1: whatever the offset, the width and the state, a trapped read leaves
    the domain as it was: it returns, crashes the domain after a bad width,
    or faults on a missing vCPU or rank, without a store, and the only
    collaborators it calls are the console and [domain_crash_synchronous]. *)
Theorem mmio_read_changes_nothing d v info :
  outcome_pure d (vgic_distr_mmio_read v info d).
Proof.
  unfold vgic_distr_mmio_read. destruct (vcpu_at d v) as [vc|] eqn:Hv.
  - rewrite (bind_pure _ _ _ _ _ (get_vcpu_Some _ _ _ Hv)).
    rewrite (bind_pure get _ d d d eq_refl). now apply read_switch_pure with vc.
  - rewrite (bind_Fault _ _ _ []); [reflexivity|]. unfold get_vcpu. now rewrite Hv.
Qed.

(** ** Only the width checks crash the domain *)

Lemma no_crash_ret {A} (a : A) : no_crash (ret a).
Proof. intros d d' tr. discriminate. Qed.

Lemma no_crash_bind {A B} (m : M A) (f : A -> M B) :
  no_crash m -> (forall a, no_crash (f a)) -> no_crash (bind m f).
Proof.
  intros Hm Hf d d' tr. unfold bind.
  destruct (m d) as [a d1 t1| |] eqn:E.
  - destruct (f a d1) eqn:E'; try discriminate. exfalso. eapply Hf, E'.
  - exfalso. eapply Hm, E.
  - discriminate.
Qed.

Lemma no_crash_get : no_crash get.
Proof. intros d d' tr. discriminate. Qed.
Lemma no_crash_put x : no_crash (put x).
Proof. intros d d' tr. discriminate. Qed.
Lemma no_crash_emit e : no_crash (emit e).
Proof. intros d d' tr. discriminate. Qed.
Lemma no_crash_fault {A} : no_crash (@fault A).
Proof. intros d d' tr. discriminate. Qed.
Lemma no_crash_get_vcpu v : no_crash (get_vcpu v).
Proof. intros d d' tr. unfold get_vcpu. destruct (vcpu_at d v); discriminate. Qed.
Lemma no_crash_put_vcpu v vc : no_crash (put_vcpu v vc).
Proof. intros d d' tr. discriminate. Qed.
Lemma no_crash_load_rank rp : no_crash (load_rank rp).
Proof. intros d d' tr. unfold load_rank. destruct (rank_at d rp); discriminate. Qed.
Lemma no_crash_store_rank rp rk : no_crash (store_rank rp rk).
Proof.
  intros d d' tr. unfold store_rank. destruct rp as [v|i].
  - destruct (vcpu_at d v); discriminate.
  - destruct (shared_irqs d !! i); discriminate.
Qed.
Lemma no_crash_load_pending p : no_crash (load_pending p).
Proof. intros d d' tr. unfold load_pending. destruct (pending_at d p); discriminate. Qed.
Lemma no_crash_store_pending p x : no_crash (store_pending p x).
Proof. intros d d' tr. unfold store_pending. destruct (pending_at d p); discriminate. Qed.

Lemma no_crash_for_each {I} (l : list I) body :
  (forall i, no_crash (body i)) -> no_crash (for_each l body).
Proof.
  intros Hb. induction l as [|i l IH]; cbn [for_each].
  - apply no_crash_ret.
  - apply no_crash_bind; auto.
Qed.

Ltac no_crash_step :=
  first
    [ apply no_crash_ret | apply no_crash_get | apply no_crash_put
    | apply no_crash_emit | apply no_crash_fault | apply no_crash_get_vcpu
    | apply no_crash_put_vcpu | apply no_crash_load_rank | apply no_crash_store_rank
    | apply no_crash_load_pending | apply no_crash_store_pending
    | apply no_crash_bind; [|intros ?]
    | lazymatch goal with
      | |- no_crash (if ?c then _ else _) => destruct c
      | |- no_crash (match ?x with _ => _ end) => destruct x
      end ].

Lemma no_crash_vgic_rank_offset v b n s : no_crash (vgic_rank_offset v b n s).
Proof. unfold vgic_rank_offset. repeat no_crash_step. Qed.

Lemma no_crash_irq_to_pending v irq : no_crash (irq_to_pending v irq).
Proof. unfold irq_to_pending. repeat no_crash_step. Qed.

Lemma no_crash_inflight_add priority n l : no_crash (inflight_add priority n l).
Proof.
  induction l as [|iter rest IH]; cbn [inflight_add]; repeat no_crash_step.
  exact IH.
Qed.

Lemma no_crash_inject_out cur v : no_crash (inject_out cur v).
Proof.
  unfold inject_out, vcpu_unblock, smp_send_event_check_mask. repeat no_crash_step.
Qed.

Lemma no_crash_inject cur v irq : no_crash (vgic_vcpu_inject_irq cur v irq).
Proof.
  unfold vgic_vcpu_inject_irq, vgic_rank_irq, gic_raise_inflight_irq, gic_raise_guest_irq.
  repeat first [ apply no_crash_vgic_rank_offset | apply no_crash_irq_to_pending
               | apply no_crash_inflight_add | apply no_crash_inject_out
               | no_crash_step ].
Qed.

Lemma no_crash_gic_remove_from_queues v irq : no_crash (gic_remove_from_queues v irq).
Proof.
  unfold gic_remove_from_queues.
  repeat first [ apply no_crash_irq_to_pending | no_crash_step ].
Qed.

Lemma no_crash_disable_irqs v r n : no_crash (vgic_disable_irqs v r n).
Proof.
  unfold vgic_disable_irqs. apply no_crash_for_each. intros i. unfold vgic_disable_irq.
  repeat first [ apply no_crash_irq_to_pending | apply no_crash_gic_remove_from_queues
               | no_crash_step ].
Qed.

Lemma no_crash_enable_irqs cur v r n : no_crash (vgic_enable_irqs cur v r n).
Proof.
  unfold vgic_enable_irqs. apply no_crash_for_each. intros i. unfold vgic_enable_irq.
  unfold gic_raise_guest_irq.
  repeat first [ apply no_crash_irq_to_pending | apply no_crash_inject
               | no_crash_step ].
Qed.

Lemma no_crash_to_sgi cur v sgir : no_crash (vgic_to_sgi cur v sgir).
Proof.
  unfold vgic_to_sgi, printk.
  repeat first [ apply no_crash_for_each; intros ? | apply no_crash_inject
               | no_crash_step ].
Qed.

Lemma vgic_rank_offset_cases d v b n s :
  (exists rank, vgic_rank_offset v b n s d = Ok rank d []) \/
  vgic_rank_offset v b n s d = Fault [].
Proof.
  destruct (vcpu_at d v) as [vc|] eqn:Hv.
  - left. now apply vgic_rank_offset_ok with vc.
  - right. now apply vgic_rank_offset_None.
Qed.

Lemma crash_write_bad_width d dabt g :
  crash_before_any_store d (write_bad_width dabt g d).
Proof. cbn. eauto. Qed.

Lemma crash_write_ignore d dabt g :
  crash_before_any_store d (write_ignore dabt g d).
Proof.
  unfold write_ignore. destruct (negb _); [apply crash_write_bad_width|exact I].
Qed.

Lemma crash_no_crash {A} d (m : M A) : no_crash m -> crash_before_any_store d (m d).
Proof. intros H. destruct (m d) eqn:E; try exact I. exfalso. eapply H, E. Qed.

Lemma crash_on_rank d v b n s dabt g (k : rank_ptr -> vgic_irq_rank -> M Z) :
  (forall rp rk, no_crash (k rp rk)) ->
  crash_before_any_store d
    ((rank <- vgic_rank_offset v b n s;;
      match rank with
      | None => write_ignore dabt g
      | Some rp => rk <- load_rank rp;; k rp rk
      end) d).
Proof.
  intros Hk. destruct (vgic_rank_offset_cases d v b n s) as [[rank Hr]|Hr].
  - rewrite (bind_pure _ _ _ _ _ Hr). destruct rank as [rp|].
    + apply crash_no_crash. apply no_crash_bind; [apply no_crash_load_rank|]. apply Hk.
    + apply crash_write_ignore.
  - rewrite (bind_Fault _ _ _ _ Hr). exact I.
Qed.

Lemma write_switch_crash cur d v dabt g r :
  crash_before_any_store d (write_switch cur v dabt g r d).
Proof.
  unfold write_switch. rewrite (bind_pure get _ d d d eq_refl). cbv zeta.
  repeat lazymatch goal with
  | |- crash_before_any_store _ ((if ?c then _ else _) _) => destruct c
  end;
  first [ apply crash_write_bad_width
        | apply crash_write_ignore
        | apply crash_no_crash, no_crash_to_sgi
        | apply crash_on_rank; intros rp rk;
          repeat first [ apply no_crash_enable_irqs | apply no_crash_disable_irqs
                       | no_crash_step ]
        | exact I ].
Qed.

(** X2: whenever a trapped write ends in [domain_crash_synchronous], the
    domain is exactly as it was before the access and nothing but the
    diagnostic was emitted: every width check precedes every store and
    every call, and no transition started by a write crashes the domain. *)
Theorem mmio_write_crashes_before_any_store cur d v info r :
  crash_before_any_store d (vgic_distr_mmio_write cur v info r d).
Proof.
  unfold vgic_distr_mmio_write. destruct (vcpu_at d v) as [vc|] eqn:Hv.
  - rewrite (bind_pure _ _ _ _ _ (get_vcpu_Some _ _ _ Hv)).
    rewrite (bind_pure get _ d d d eq_refl). apply write_switch_crash.
  - rewrite (bind_Fault _ _ _ []); [exact I|]. unfold get_vcpu. now rewrite Hv.
Qed.

(** ** Registers without state *)

Ltac case_to_ranges H :=
  cond_to_prop H; gic_consts;
  repeat match goal with Hd : _ \/ _ |- _ => destruct Hd as [Hd|Hd] end.

Ltac walk_to_leaf :=
  repeat lazymatch goal with
  | |- (if ?c then _ else _) _ = _ =>
      let E := fresh "E" in
      destruct c eqn:E; cond_to_prop E;
      [ try (exfalso; lia); clear E | try (exfalso; lia) ]
  end.

Lemma write_switch_ignored cur d v sgn rg g r :
  write_ignore_case g = true ->
  write_switch cur v (mk_dabt DABT_WORD sgn rg) g r d = Ok 1 d [].
Proof.
  intros Hg. unfold write_ignore_case in Hg.
  unfold write_switch. rewrite (bind_pure get _ d d d eq_refl).
  cbv zeta. unfold write_ignore. cbn [dabt_size].
  case_to_ranges Hg; walk_to_leaf; reflexivity.
Qed.

Lemma read_switch_zero d v sgn rg g :
  read_as_zero_case g = true ->
  read_switch v (mk_dabt DABT_WORD sgn rg) g d = Ok (1, Some 0) d [].
Proof.
  intros Hg. unfold read_as_zero_case in Hg.
  unfold read_switch. rewrite (bind_pure get _ d d d eq_refl).
  cbv zeta. unfold read_as_zero. cbn [dabt_size].
  case_to_ranges Hg; walk_to_leaf; reflexivity.
Qed.

(** X3: a word-width write to a read-only register (type, implementer id,
    peripheral id), to a reserved, implementation-defined, group or
    non-secure-access register, to the target bytes of lines 0..7 or to the
    SGI config register (offsets 0xc00 and 0xc01) is accepted and does
    nothing; a word-width read of the reserved, implementation-defined,
    group and non-secure-access registers returns 0. *)
Theorem stateless_registers cur d v vc sgn rg g r :
  vcpu_at d v = Some vc ->
  (write_ignore_case g = true ->
   vgic_distr_mmio_write cur v (mk_info (dbase d + g) (mk_dabt DABT_WORD sgn rg)) r d
   = Ok 1 d []) /\
  (read_as_zero_case g = true ->
   vgic_distr_mmio_read v (mk_info (dbase d + g) (mk_dabt DABT_WORD sgn rg)) d
   = Ok (1, Some 0) d []).
Proof.
  intros Hv. split; intros Hg.
  - rewrite (mmio_write_switch _ _ _ _ _ _ Hv). cbn [gpa dabt].
    replace (dbase d + g - dbase d) with g by lia. now apply write_switch_ignored.
  - rewrite (mmio_read_switch _ _ _ _ Hv). cbn [gpa dabt].
    replace (dbase d + g - dbase d) with g by lia. now apply read_switch_zero.
Qed.

Lemma stateless_registers_witness :
  vgic_distr_mmio_write 0 0 (Ex.access GICD_TYPER DABT_WORD) 0xffffffff Ex.guest
    = Ok 1 Ex.guest [] /\
  vgic_distr_mmio_read 0 (Ex.access GICD_IGROUPR DABT_WORD) Ex.guest
    = Ok (1, Some 0) Ex.guest [].
Proof.
  split.
  - exact (proj1 (stateless_registers 0 Ex.guest 0 _ false 0%nat GICD_TYPER 0xffffffff
                    eq_refl) eq_refl).
  - exact (proj2 (stateless_registers 0 Ex.guest 0 _ false 0%nat GICD_IGROUPR 0
                    eq_refl) eq_refl).
Defined.

Lemma write_switch_unhandled cur d v dabt g r :
  unhandled_write_case g = true ->
  dabt_size dabt = DABT_BYTE \/ dabt_size dabt = DABT_WORD ->
  write_switch cur v dabt g r d = Ok 0 d [Printk (unhandled_write g)].
Proof.
  intros Hg Hsz. unfold unhandled_write_case in Hg.
  unfold write_switch. rewrite (bind_pure get _ d d d eq_refl). cbv zeta.
  assert (Hnb : negb (dabt_size dabt =? DABT_BYTE) && negb (dabt_size dabt =? DABT_WORD)
                = false) by (destruct Hsz as [-> | ->]; reflexivity).
  rewrite !Hnb.
  case_to_ranges Hg; walk_to_leaf; reflexivity.
Qed.

(** X4: the set-pending, clear-pending and SGI-pending registers cannot be
    written: a byte- or word-width write returns 0 (unhandled) after one
    diagnostic and changes nothing; likewise a word-width read of the
    peripheral-id register returns 0 without storing a value. *)
Theorem unimplemented_registers cur d v vc sz sgn rg g r :
  vcpu_at d v = Some vc ->
  (unhandled_write_case g = true ->
   sz = DABT_BYTE \/ sz = DABT_WORD ->
   vgic_distr_mmio_write cur v (mk_info (dbase d + g) (mk_dabt sz sgn rg)) r d
   = Ok 0 d [Printk (unhandled_write g)]) /\
  vgic_distr_mmio_read v (mk_info (dbase d + GICD_ICPIDR2) (mk_dabt DABT_WORD sgn rg)) d
  = Ok (0, None) d [Printk (unhandled_read GICD_ICPIDR2)].
Proof.
  intros Hv. split.
  - intros Hg Hsz. rewrite (mmio_write_switch _ _ _ _ _ _ Hv). cbn [gpa dabt].
    replace (dbase d + g - dbase d) with g by lia. now apply write_switch_unhandled.
  - rewrite (mmio_read_switch _ _ _ _ Hv). cbn [gpa dabt].
    replace (dbase d + GICD_ICPIDR2 - dbase d) with GICD_ICPIDR2 by lia. reflexivity.
Qed.

Lemma unimplemented_registers_witness :
  vgic_distr_mmio_write 0 0 (Ex.access GICD_ISPENDR DABT_BYTE) 1 Ex.guest
    = Ok 0 Ex.guest [Printk (unhandled_write GICD_ISPENDR)].
Proof.
  exact (proj1 (unimplemented_registers 0 Ex.guest 0 _ DABT_BYTE false 0%nat
                  GICD_ISPENDR 1 eq_refl) eq_refl (or_introl eq_refl)).
Defined.

(** ** The rank store *)

Lemma store_rank_ok d rp rk r :
  rank_at d rp = Some rk -> store_rank rp r d = Ok tt (store_rank_in d rp r) [].
Proof.
  destruct rp as [v|i]; cbn [rank_at store_rank store_rank_in].
  - destruct (vcpu_at d v); [reflexivity|discriminate].
  - intros ->. reflexivity.
Qed.

Lemma vcpu_at_store_rank d rp r w :
  vcpu_at (store_rank_in d rp r) w
  = (fun vc => match rp with
               | private_rank v => if (v =? w)%nat then set_private_irqs vc r else vc
               | shared_rank _ => vc
               end) <$> vcpu_at d w.
Proof.
  destruct rp as [v|i]; cbn [store_rank_in].
  - destruct (vcpu_at d v) as [vc|] eqn:Hv.
    + rewrite (vcpu_at_put _ _ _ _ _ Hv).
      destruct (Nat.eqb_spec v w) as [<-|Hne].
      * now rewrite Hv.
      * now destruct (vcpu_at d w).
    + destruct (Nat.eqb_spec v w) as [<-|Hne].
      * now rewrite Hv.
      * now destruct (vcpu_at d w).
  - unfold vcpu_at. cbn. now destruct (d_vcpu d !! w) as [[?|]|].
Qed.

Lemma rank_at_store_eq d rp rk r :
  rank_at d rp = Some rk -> rank_at (store_rank_in d rp r) rp = Some r.
Proof.
  destruct rp as [v|i]; cbn [rank_at].
  - rewrite vcpu_at_store_rank. destruct (vcpu_at d v); [|discriminate].
    cbn. now rewrite Nat.eqb_refl.
  - cbn. intros H. apply list_lookup_insert_eq, lookup_lt_is_Some. eauto.
Qed.

Lemma rank_at_store_ne d rp r rp' :
  rp <> rp' -> rank_at (store_rank_in d rp r) rp' = rank_at d rp'.
Proof.
  intros Hne. destruct rp' as [w|j]; cbn [rank_at].
  - rewrite vcpu_at_store_rank. destruct (vcpu_at d w) as [vc|]; [|reflexivity]. cbn.
    destruct rp as [v|i]; [|reflexivity].
    destruct (Nat.eqb_spec v w) as [->|]; [congruence|reflexivity].
  - destruct rp as [v|i]; cbn.
    + now destruct (vcpu_at d v).
    + apply list_lookup_insert_ne. congruence.
Qed.

(** A store into a rank leaves the registry alone. *)
Lemma store_rank_same_registry d rp r : same_registry d (store_rank_in d rp r).
Proof.
  split.
  - intros [w j|j]; cbn [pending_at].
    + rewrite vcpu_at_store_rank. destruct (vcpu_at d w) as [vc|]; [|reflexivity]. cbn.
      destruct rp as [v|i]; [|reflexivity]. now destruct (v =? w)%nat.
    + destruct rp as [v|i]; cbn; [|reflexivity]. now destruct (vcpu_at d v).
  - intros w. unfold inflight_of. rewrite vcpu_at_store_rank.
    destruct (vcpu_at d w) as [vc|]; [|reflexivity]. cbn.
    destruct rp as [v|i]; [|reflexivity]. now destruct (v =? w)%nat.
Qed.

Lemma vgic_rank_offset_frame d d1 v b n s rank :
  vgic_rank_offset v b n s d = Ok rank d [] ->
  is_Some (vcpu_at d1 v) ->
  nr_lines d1 = nr_lines d ->
  vgic_rank_offset v b n s d1 = Ok rank d1 [].
Proof.
  intros H [vc1 Hv1] Hnr. revert H. unfold vgic_rank_offset.
  destruct (vcpu_at d v) as [vc|] eqn:Hv.
  - rewrite (bind_pure _ _ _ _ _ (get_vcpu_Some _ _ _ Hv)).
    rewrite (bind_pure _ _ _ _ _ (get_vcpu_Some _ _ _ Hv1)).
    rewrite (bind_pure get _ d d d eq_refl), (bind_pure get _ d1 d1 d1 eq_refl).
    unfold DOMAIN_NR_RANKS. rewrite Hnr.
    repeat match goal with |- context [if ?c then _ else _] => destruct c end;
      now intros [= <-].
  - rewrite (bind_Fault _ _ _ []); [discriminate|]. unfold get_vcpu. now rewrite Hv.
Qed.

Lemma REG_RANK_INDEX_lt k n s :
  (Z.to_nat (REG_RANK_INDEX (word_reg_bits k) n s) < word_reg_len k)%nat.
Proof.
  unfold REG_RANK_INDEX.
  destruct k; cbn [word_reg_bits word_reg_len].
  - change (8 - 1) with (Z.ones 3). rewrite Z.land_ones by lia.
    pose proof (Z.mod_pos_bound (Z.shiftr n s) (2 ^ 3) ltac:(lia)).
    rewrite Z.mod_small; lia.
  - change (8 - 1) with (Z.ones 3). rewrite Z.land_ones by lia.
    pose proof (Z.mod_pos_bound (Z.shiftr n s) (2 ^ 3) ltac:(lia)).
    rewrite Z.mod_small; lia.
  - change (2 - 1) with (Z.ones 1). rewrite Z.land_ones by lia.
    pose proof (Z.mod_pos_bound (Z.shiftr n s) (2 ^ 1) ltac:(lia)).
    rewrite Z.mod_small; lia.
Qed.

Lemma word_at_set_word_at a i x :
  (Z.to_nat i < length a)%nat -> word_at (set_word_at a i x) i = x.
Proof.
  intros H. unfold word_at, set_word_at.
  apply nth_lookup_Some with (d := 0). now apply list_lookup_insert_eq.
Qed.

Lemma store_rank_in_fields d rp r :
  dbase (store_rank_in d rp r) = dbase d /\
  ctlr (store_rank_in d rp r) = ctlr d /\
  nr_lines (store_rank_in d rp r) = nr_lines d /\
  evtchn_irq (store_rank_in d rp r) = evtchn_irq d /\
  length (d_vcpu (store_rank_in d rp r)) = length (d_vcpu d).
Proof.
  destruct rp as [v|i]; cbn [store_rank_in].
  - destruct (vcpu_at d v); cbn; rewrite ?length_insert; auto.
  - cbn. auto.
Qed.

Lemma load_rank_ok d rp rk : rank_at d rp = Some rk -> load_rank rp d = Ok rk d [].
Proof. intros H. unfold load_rank. now rewrite H. Qed.

Ltac word_sized :=
  cbn [dabt_size];
  change (DABT_WORD =? DABT_WORD) with true;
  change (DABT_WORD =? DABT_BYTE) with false;
  change (DABT_WORD =? 0) with false;
  cbn [negb andb].

Lemma write_switch_word_reg cur d v k g r rp rk sgn rg :
  word_reg_writable k g = true ->
  vgic_rank_offset v (word_reg_bits k) (g - word_reg_base k) DABT_WORD d
    = Ok (Some rp) d [] ->
  rank_at d rp = Some rk ->
  write_switch cur v (mk_dabt DABT_WORD sgn rg) g r d
  = Ok 1 (store_rank_in d rp
            (word_reg_update k rk
               (REG_RANK_INDEX (word_reg_bits k) (g - word_reg_base k) DABT_WORD)
               (u32 r))) [].
Proof.
  intros Hg Hrank Hrk.
  unfold write_switch. rewrite (bind_pure get _ d d d eq_refl). cbv zeta. word_sized.
  destruct k; cbn [word_reg_writable word_reg_bits word_reg_base word_reg_update] in *;
    cond_to_prop Hg; gic_consts; walk_to_leaf;
    rewrite (bind_pure _ _ _ _ _ Hrank), (bind_pure _ _ _ _ _ (load_rank_ok _ _ _ Hrk));
    erewrite (bind_pure _ _ _ _ _ (store_rank_ok _ _ _ _ Hrk)); reflexivity.
Qed.

Lemma read_switch_word_reg d v k g rp rk sgn rg :
  word_reg_writable k g = true ->
  vgic_rank_offset v (word_reg_bits k) (g - word_reg_base k) DABT_WORD d
    = Ok (Some rp) d [] ->
  rank_at d rp = Some rk ->
  read_switch v (mk_dabt DABT_WORD sgn rg) g d
  = Ok (1, Some (word_at (word_reg_array k rk)
                   (REG_RANK_INDEX (word_reg_bits k) (g - word_reg_base k) DABT_WORD)))
       d [].
Proof.
  intros Hg Hrank Hrk.
  unfold read_switch. rewrite (bind_pure get _ d d d eq_refl). cbv zeta. word_sized.
  destruct k; cbn [word_reg_writable word_reg_bits word_reg_base word_reg_array] in *;
    cond_to_prop Hg; gic_consts; walk_to_leaf;
    rewrite (bind_pure _ _ _ _ _ Hrank), (bind_pure _ _ _ _ _ (load_rank_ok _ _ _ Hrk));
    reflexivity.
Qed.

(** X5: a word written to a priority register, to a target register from
    byte 8 on (lines 8 and above, private lines included) or to a config
    register from byte 2 on (the PPI word at offset 0xc04 included) of a
    present rank is read back unchanged (truncated to 32 bits) from the same
    offset, and the write leaves every pending-interrupt descriptor and
    every inflight list as it was: the registry keeps its snapshotted
    priorities. *)
Theorem word_register_round_trip cur d v vc k g r rp rk sgn rg sgn' rg' :
  vcpu_at d v = Some vc ->
  word_reg_writable k g = true ->
  vgic_rank_offset v (word_reg_bits k) (g - word_reg_base k) DABT_WORD d
    = Ok (Some rp) d [] ->
  rank_at d rp = Some rk ->
  length (word_reg_array k rk) = word_reg_len k ->
  exists d',
    vgic_distr_mmio_write cur v (mk_info (dbase d + g) (mk_dabt DABT_WORD sgn rg)) r d
      = Ok 1 d' [] /\
    vgic_distr_mmio_read v (mk_info (dbase d + g) (mk_dabt DABT_WORD sgn' rg')) d'
      = Ok (1, Some (u32 r)) d' [] /\
    same_registry d d'.
Proof.
  intros Hv Hg Hrank Hrk Hlen.
  set (i := REG_RANK_INDEX (word_reg_bits k) (g - word_reg_base k) DABT_WORD).
  set (rk' := word_reg_update k rk i (u32 r)).
  exists (store_rank_in d rp rk').
  destruct (store_rank_in_fields d rp rk') as (Hbase & _ & Hnr & _).
  assert (Hv' : is_Some (vcpu_at (store_rank_in d rp rk') v))
    by (rewrite vcpu_at_store_rank, Hv; cbn; eauto).
  split; [|split].
  - rewrite (mmio_write_switch _ _ _ _ _ _ Hv). cbn [gpa dabt].
    replace (dbase d + g - dbase d) with g by lia.
    now apply write_switch_word_reg.
  - destruct Hv' as [vc' Hv'].
    rewrite (mmio_read_switch _ _ _ _ Hv'). cbn [gpa dabt]. rewrite Hbase.
    replace (dbase d + g - dbase d) with g by lia.
    rewrite (read_switch_word_reg _ _ k _ rp rk'); trivial.
    + do 3 f_equal. fold i. unfold rk'.
      pose proof (REG_RANK_INDEX_lt k (g - word_reg_base k) DABT_WORD) as Hi. fold i in Hi.
      destruct k; cbn [word_reg_array word_reg_update word_reg_len ipriority itargets icfg
                       set_ipriority set_itargets set_icfg] in *;
        apply word_at_set_word_at; lia.
    + apply (vgic_rank_offset_frame d); eauto.
    + now apply rank_at_store_eq with rk.
  - apply store_rank_same_registry.
Qed.

Lemma word_register_round_trip_witness :
  exists d',
    vgic_distr_mmio_write 0 0 (Ex.access GICD_IPRIORITYR DABT_WORD) 0x40801080 Ex.guest
      = Ok 1 d' [] /\
    vgic_distr_mmio_read 0 (Ex.access GICD_IPRIORITYR DABT_WORD) d'
      = Ok (1, Some 0x40801080) d' [].
Proof.
  assert (Hv : exists vc, vcpu_at Ex.guest 0 = Some vc)
    by (vm_compute; eexists; reflexivity).
  assert (Hrk : exists rk, rank_at Ex.guest (private_rank 0) = Some rk /\
                           length (word_reg_array wr_priority rk) = 8%nat)
    by (vm_compute; eexists; split; reflexivity).
  destruct Hv as [vc Hv], Hrk as (rk & Hrk & Hlen).
  destruct (word_register_round_trip 0 Ex.guest 0 vc wr_priority GICD_IPRIORITYR
              0x40801080 (private_rank 0) rk false 0%nat false 0%nat
              Hv eq_refl eq_refl Hrk Hlen) as (d' & Hw & Hr & _).
  exists d'. split; [exact Hw | exact Hr].
Defined.

(** ** What the interrupt paths leave alone *)

Section Keeps.

Variable R : domain -> domain -> Prop.
Hypothesis R_refl : forall d, R d d.
Hypothesis R_trans : forall d1 d2 d3, R d1 d2 -> R d2 d3 -> R d1 d3.

Lemma kept_after_trace {A} d tr (r : result A) : kept R d (after_trace tr r) <-> kept R d r.
Proof. now destruct r. Qed.

Lemma kept_bind {A B} (m : M A) (f : A -> M B) d :
  kept R d (m d) -> (forall a, keeps R (f a)) -> kept R d (bind m f d).
Proof.
  intros Hm Hf. unfold bind. destruct (m d) as [a d1 t1| |]; trivial.
  specialize (Hf a d1). cbn in Hm. destruct (f a d1); cbn in *; eauto.
Qed.

Lemma keeps_ret {A} (a : A) : keeps R (ret a).
Proof. intros d. apply R_refl. Qed.

Lemma keeps_bind {A B} (m : M A) (f : A -> M B) :
  keeps R m -> (forall a, keeps R (f a)) -> keeps R (bind m f).
Proof. intros Hm Hf d. apply kept_bind; [apply Hm|exact Hf]. Qed.

Lemma keeps_get : keeps R get.
Proof. intros d. apply R_refl. Qed.

Lemma keeps_emit e : keeps R (emit e).
Proof. intros d. apply R_refl. Qed.

Lemma keeps_fault {A} : keeps R (@fault A).
Proof. intros d. exact I. Qed.

Lemma keeps_crash {A} : keeps R (@domain_crash_synchronous A).
Proof. intros d. apply R_refl. Qed.

Lemma keeps_get_vcpu v : keeps R (get_vcpu v).
Proof. intros d. unfold get_vcpu. destruct (vcpu_at d v); cbn; trivial. Qed.

Lemma keeps_load_rank rp : keeps R (load_rank rp).
Proof. intros d. unfold load_rank. destruct (rank_at d rp); cbn; trivial. Qed.

Lemma keeps_load_pending p : keeps R (load_pending p).
Proof. intros d. unfold load_pending. destruct (pending_at d p); cbn; trivial. Qed.

(** A computation that does not crash the domain and whose every return
    is related to its start. *)
Lemma keeps_of_Ok {A} (m : M A) :
  no_crash m -> (forall d a d' tr, m d = Ok a d' tr -> R d d') -> keeps R m.
Proof.
  intros Hnc H d. unfold kept. destruct (m d) as [a d' tr|d' tr|tr] eqn:E.
  - eapply H, E.
  - exfalso. eapply Hnc, E.
  - exact I.
Qed.

Lemma keeps_for_each {I} (body : I -> M unit) l :
  (forall i, keeps R (body i)) -> keeps R (for_each l body).
Proof.
  intros Hb. induction l as [|i l IH]; cbn [for_each].
  - apply keeps_ret.
  - apply keeps_bind; auto.
Qed.

Lemma keeps_vgic_rank_offset v b n s : keeps R (vgic_rank_offset v b n s).
Proof.
  unfold vgic_rank_offset.
  apply keeps_bind; [apply keeps_get_vcpu|intros _].
  apply keeps_bind; [apply keeps_get|intros d].
  repeat match goal with |- keeps _ (if ?c then _ else _) => destruct c end;
    apply keeps_ret.
Qed.

Lemma keeps_irq_to_pending v irq : keeps R (irq_to_pending v irq).
Proof.
  unfold irq_to_pending. destruct (irq <? 32)%nat; [apply keeps_ret|].
  apply keeps_bind; [apply keeps_get_vcpu|intros _; apply keeps_ret].
Qed.

Lemma keeps_inflight_add priority n l : keeps R (inflight_add priority n l).
Proof.
  induction l as [|q l IH]; cbn [inflight_add]; [apply keeps_ret|].
  apply keeps_bind; [apply keeps_load_pending|intros it].
  destruct (p_priority it >? priority); [apply keeps_ret|].
  apply keeps_bind; [exact IH|intros ?; apply keeps_ret].
Qed.

Lemma keeps_inject_out cur v : keeps R (inject_out cur v).
Proof.
  unfold inject_out, vcpu_unblock, smp_send_event_check_mask.
  apply keeps_bind; [apply keeps_get_vcpu|intros vc].
  apply keeps_bind; [apply keeps_emit|intros _].
  destruct (_ && _); [apply keeps_emit|apply keeps_ret].
Qed.

(** *** Paths that store into descriptors and lists *)

Hypothesis R_store_pending : forall d p x, R d (store_pending_in d p x).
Hypothesis R_set_inflight : forall d v vc l,
  vcpu_at d v = Some vc ->
  R d (set_d_vcpu d (<[v := Some (set_inflight_irqs vc l)]> (d_vcpu d))).
Hypothesis R_unlink : forall d p, R d (unlink_everywhere p d).

Lemma keeps_store_pending p x : keeps R (store_pending p x).
Proof.
  intros d. unfold store_pending. destruct (pending_at d p); cbn; trivial.
Qed.

(** The list insertion of [vgic_vcpu_inject_irq] and what follows it. *)
Lemma keeps_link {B} v priority n (k : M B) :
  keeps R k ->
  keeps R (vc <- get_vcpu v;;
           l <- inflight_add priority n (inflight_irqs vc);;
           put_vcpu v (set_inflight_irqs vc l);;
           k).
Proof.
  intros Hk d. unfold bind at 1. unfold get_vcpu.
  destruct (vcpu_at d v) as [vc|] eqn:Hv; [|exact I].
  unfold bind at 1.
  destruct (inflight_add priority n (inflight_irqs vc) d) as [l d1 t| |] eqn:Hadd.
  - destruct (inflight_add_inv _ _ _ _ _ _ _ Hadd) as (-> & -> & _).
    set (d2 := set_d_vcpu d (<[v := Some (set_inflight_irqs vc l)]> (d_vcpu d))).
    rewrite (bind_pure (put_vcpu v (set_inflight_irqs vc l)) _ d tt d2 eq_refl).
    assert (H2 : R d d2) by now apply R_set_inflight with (vc := vc).
    specialize (Hk d2). cbn. unfold kept in *. destruct (k d2); cbn; eauto.
  - pose proof (keeps_inflight_add priority n (inflight_irqs vc) d) as H.
    rewrite Hadd in H. exact H.
  - exact I.
Qed.

Lemma keeps_inject cur v irq : keeps R (vgic_vcpu_inject_irq cur v irq).
Proof.
  unfold vgic_vcpu_inject_irq, vgic_rank_irq, gic_raise_inflight_irq, gic_raise_guest_irq.
  apply keeps_bind; [apply keeps_vgic_rank_offset|intros rank].
  apply keeps_bind; [apply keeps_irq_to_pending|intros n].
  apply keeps_bind; [apply keeps_load_pending|intros np].
  apply keeps_bind; [apply keeps_get|intros d0].
  destruct (inflight_linked d0 n).
  - apply keeps_bind; [apply keeps_store_pending|intros _].
    apply keeps_bind; [apply keeps_emit|intros _]. apply keeps_inject_out.
  - apply keeps_bind; [apply keeps_get_vcpu|intros vc].
    destruct (test_bit _VPF_down (pause_flags vc)); [apply keeps_ret|].
    apply keeps_bind;
      [destruct rank; [apply keeps_load_rank|apply keeps_fault]|intros rk].
    apply keeps_bind; [apply keeps_store_pending|intros _].
    apply keeps_bind;
      [destruct (test_bit _ _); [apply keeps_emit|apply keeps_ret]|intros _].
    apply keeps_link, keeps_inject_out.
Qed.

Lemma keeps_desc_event (e : nat -> event) p :
  keeps R (pd <- load_pending p;;
           match p_desc pd with
           | Some k => emit (e k)
           | None => ret tt
           end).
Proof.
  apply keeps_bind; [apply keeps_load_pending|intros pd].
  destruct (p_desc pd); [apply keeps_emit|apply keeps_ret].
Qed.

Lemma keeps_gic_remove_from_queues v irq : keeps R (gic_remove_from_queues v irq).
Proof.
  unfold gic_remove_from_queues.
  apply keeps_bind; [apply keeps_irq_to_pending|intros p].
  apply keeps_bind; [apply keeps_emit|intros _].
  intros d. cbn. apply R_unlink.
Qed.

Lemma keeps_disable_irqs v r n : keeps R (vgic_disable_irqs v r n).
Proof.
  apply keeps_for_each. intros i. unfold vgic_disable_irq.
  apply keeps_bind; [apply keeps_irq_to_pending|intros p].
  apply keeps_bind; [apply keeps_load_pending|intros pd].
  apply keeps_bind; [apply keeps_store_pending|intros _].
  apply keeps_bind; [apply keeps_gic_remove_from_queues|intros _].
  apply keeps_desc_event.
Qed.

Lemma keeps_enable_irqs cur v r n : keeps R (vgic_enable_irqs cur v r n).
Proof.
  apply keeps_for_each. intros i. unfold vgic_enable_irq, gic_raise_guest_irq.
  apply keeps_bind; [apply keeps_irq_to_pending|intros p].
  apply keeps_bind; [apply keeps_load_pending|intros pd].
  apply keeps_bind; [apply keeps_store_pending|intros _].
  apply keeps_bind; [apply keeps_get_vcpu|intros _].
  apply keeps_bind; [apply keeps_get|intros d].
  apply keeps_bind; [|intros force].
  { destruct (_ =? _)%nat; [|apply keeps_ret].
    apply keeps_bind; [apply keeps_get_vcpu|intros ?; apply keeps_ret]. }
  apply keeps_bind; [|intros _; apply keeps_desc_event].
  destruct force; [apply keeps_inject|].
  apply keeps_bind; [apply keeps_load_pending|intros pd'].
  destruct (_ && _); [apply keeps_emit|apply keeps_ret].
Qed.

End Keeps.

(** The dispatcher and the write handler, from what the paths they call
    keep. *)
Section KeepsWrite.

Variable R : domain -> domain -> Prop.
Hypothesis R_refl : forall d, R d d.
Hypothesis R_trans : forall d1 d2 d3, R d1 d2 -> R d2 d3 -> R d1 d3.
Hypothesis R_inject : forall cur v irq, keeps R (vgic_vcpu_inject_irq cur v irq).

Lemma keeps_to_sgi cur v sgir : keeps R (vgic_to_sgi cur v sgir).
Proof.
  unfold vgic_to_sgi, printk.
  apply keeps_bind; [assumption|apply keeps_get_vcpu; assumption|intros _].
  apply keeps_bind; [assumption|apply keeps_get; assumption|intros d]. cbv zeta.
  assert (Hd : forall mask,
            keeps R (for_each (set_bits mask (length (d_vcpu d)))
                       (fun vcpuid =>
                          d0 <- get;;
                          if match d_vcpu d0 !! vcpuid with
                             | Some (Some vc) => negb (is_vcpu_online vc)
                             | _ => false
                             end
                          then emit (Printk (wrong_cpu_target_list sgir mask))
                          else vgic_vcpu_inject_irq cur vcpuid
                                 (Z.to_nat (Z.land sgir GICD_SGI_INTID_MASK)));;
                     ret 1)).
  { intros mask.
    apply keeps_bind; [assumption| |intros _; apply keeps_ret; assumption].
    apply keeps_for_each; [assumption..|]. intros i.
    apply keeps_bind; [assumption|apply keeps_get; assumption|intros d0].
    match goal with |- keeps _ (if ?c then _ else _) => destruct c end;
      [apply keeps_emit; assumption|apply R_inject]. }
  repeat match goal with
         | |- keeps _ (if ?c then _ else _) => destruct c; [apply Hd|]
         end.
  apply keeps_bind; [assumption|apply keeps_emit; assumption|intros _].
  apply keeps_ret; assumption.
Qed.

Hypothesis R_ctlr : forall d x, R d (set_ctlr d x).
Hypothesis R_store_rank : forall d rp rk, R d (store_rank_in d rp rk).
Hypothesis R_enable : forall cur v r n, keeps R (vgic_enable_irqs cur v r n).
Hypothesis R_disable : forall v r n, keeps R (vgic_disable_irqs v r n).

Lemma keeps_store_rank rp rk : keeps R (store_rank rp rk).
Proof.
  intros d. destruct (rank_at d rp) as [rk0|] eqn:E.
  - rewrite (store_rank_ok _ _ _ _ E). apply R_store_rank.
  - destruct rp as [v|i]; cbn in *.
    + destruct (vcpu_at d v); [discriminate|exact I].
    + rewrite E. exact I.
Qed.

Lemma keeps_write_bad_width dabt g : keeps R (write_bad_width dabt g).
Proof. intros d. apply R_refl. Qed.

Lemma keeps_write_ignore dabt g : keeps R (write_ignore dabt g).
Proof.
  unfold write_ignore. destruct (negb _); [apply keeps_write_bad_width|].
  apply keeps_ret; assumption.
Qed.

Lemma keeps_on_rank v b n s dabt g (k : rank_ptr -> vgic_irq_rank -> M Z) :
  (forall rp rk, keeps R (k rp rk)) ->
  keeps R (rank <- vgic_rank_offset v b n s;;
           match rank with
           | None => write_ignore dabt g
           | Some rp => rk <- load_rank rp;; k rp rk
           end).
Proof.
  intros Hk.
  apply keeps_bind; [assumption|apply keeps_vgic_rank_offset; assumption|intros rank].
  destruct rank as [rp|]; [|apply keeps_write_ignore].
  apply keeps_bind; [assumption|apply keeps_load_rank; assumption|intros rk]. apply Hk.
Qed.

Lemma keeps_store_then rp rk (m : M unit) :
  keeps R m -> keeps R (store_rank rp rk;; m;; ret 1).
Proof.
  intros Hm. apply keeps_bind; [assumption|apply keeps_store_rank|intros _].
  apply keeps_bind; [assumption|exact Hm|intros _]. apply keeps_ret; assumption.
Qed.

Lemma keeps_write_switch cur v dabt g r : keeps R (write_switch cur v dabt g r).
Proof.
  intros d. unfold write_switch. rewrite (bind_pure get _ d d d eq_refl). cbv zeta.
  repeat lazymatch goal with
  | |- kept _ _ ((if ?c then _ else _) _) => destruct c
  end;
  first [ exact (R_refl d)
        | apply keeps_write_ignore
        | apply keeps_to_sgi
        | apply R_ctlr
        | apply keeps_on_rank; intros rp rk;
          first [ apply keeps_store_then; first [apply R_enable | apply R_disable]
                | apply keeps_bind;
                  [assumption|apply keeps_store_rank|intros _; apply keeps_ret; assumption] ] ].
Qed.

Lemma keeps_mmio_write cur v info r : keeps R (vgic_distr_mmio_write cur v info r).
Proof.
  unfold vgic_distr_mmio_write.
  apply keeps_bind; [assumption|apply keeps_get_vcpu; assumption|intros _].
  intros d. rewrite (bind_pure get _ d d d eq_refl). apply keeps_write_switch.
Qed.

End KeepsWrite.

Lemma same_registers_refl d : same_registers d d.
Proof. unfold same_registers. repeat split; auto. Qed.

Lemma same_registers_trans d1 d2 d3 :
  same_registers d1 d2 -> same_registers d2 d3 -> same_registers d1 d3.
Proof.
  unfold same_registers.
  intros (A1 & A2 & A3 & A4 & A5 & A6 & A7) (B1 & B2 & B3 & B4 & B5 & B6 & B7).
  split; [congruence|]. split; [congruence|]. split; [congruence|].
  split; [congruence|]. split; [congruence|]. split.
  - intros rp. now rewrite B6, A6.
  - intros w. now rewrite B7, A7.
Qed.

Lemma same_registers_vcpus d d' (f : nat -> vcpu -> vcpu) :
  dbase d' = dbase d -> ctlr d' = ctlr d -> nr_lines d' = nr_lines d ->
  evtchn_irq d' = evtchn_irq d -> shared_irqs d' = shared_irqs d ->
  length (d_vcpu d') = length (d_vcpu d) ->
  (forall w, vcpu_at d' w = f w <$> vcpu_at d w) ->
  (forall w vc, vcpu_at d w = Some vc -> private_irqs (f w vc) = private_irqs vc) ->
  same_registers d d'.
Proof.
  intros H1 H2 H3 H4 H5 H6 Hv Hf. unfold same_registers. repeat split; trivial.
  - intros [v|i]; cbn [rank_at].
    + rewrite Hv. destruct (vcpu_at d v) eqn:E; cbn; [now rewrite Hf|reflexivity].
    + now rewrite H5.
  - rewrite Hv. destruct (vcpu_at d w); cbn; [eauto|intros [? [=]]].
  - rewrite Hv. destruct (vcpu_at d w); cbn; [eauto|intros [? [=]]].
Qed.

Lemma same_registers_store_pending d p x : same_registers d (store_pending_in d p x).
Proof.
  apply same_registers_vcpus with (f := stored_in_vcpu p x);
    try (destruct p as [v i|i]; cbn [store_pending_in];
         [destruct (vcpu_at d v)|]; cbn; rewrite ?length_insert; reflexivity).
  - apply vcpu_at_store_pending.
  - intros w vc _. destruct p as [v i|i]; cbn; [|reflexivity].
    now destruct (v =? w)%nat.
Qed.

Lemma same_registers_set_inflight d v vc l :
  vcpu_at d v = Some vc ->
  same_registers d (set_d_vcpu d (<[v := Some (set_inflight_irqs vc l)]> (d_vcpu d))).
Proof.
  intros Hv.
  apply same_registers_vcpus
    with (f := fun w x => if (v =? w)%nat then set_inflight_irqs vc l else x);
    try (cbn; rewrite ?length_insert; reflexivity).
  - intros w. rewrite (vcpu_at_put _ _ _ _ _ Hv).
    destruct (Nat.eqb_spec v w) as [<-|]; [now rewrite Hv|now destruct (vcpu_at d w)].
  - intros w x Hx. destruct (Nat.eqb_spec v w) as [<-|]; [|reflexivity].
    rewrite Hv in Hx. now injection Hx as <-.
Qed.

Lemma same_registers_unlink d p : same_registers d (unlink_everywhere p d).
Proof.
  apply same_registers_vcpus with (f := fun _ => unlink_pending p);
    try (cbn; rewrite ?length_map; reflexivity).
  apply vcpu_at_unlink.
Qed.

(** X6: injecting an interrupt never touches the register state of the
    distributor: whatever the outcome, the control register, the line
    count, every rank (enable, active and pending bitmaps, priorities,
    targets, configuration) and the set of populated vCPU slots are as
    before.  In particular the pending bitmap a guest reads from ISPENDR
    does not record the injected line. *)
Theorem inject_keeps_registers cur v irq :
  keeps same_registers (vgic_vcpu_inject_irq cur v irq).
Proof.
  apply keeps_inject.
  - apply same_registers_refl.
  - apply same_registers_trans.
  - apply same_registers_store_pending.
  - apply same_registers_set_inflight.
Qed.

(** X7: the SGI dispatcher never touches the register state of the
    distributor, whatever the target filter and whatever the outcome. *)
Theorem to_sgi_keeps_registers cur v sgir :
  keeps same_registers (vgic_to_sgi cur v sgir).
Proof.
  apply keeps_to_sgi.
  - apply same_registers_refl.
  - apply same_registers_trans.
  - intros cur' w irq. apply keeps_inject.
    + apply same_registers_refl.
    + apply same_registers_trans.
    + apply same_registers_store_pending.
    + apply same_registers_set_inflight.
Qed.

Lemma enable_irqs_keeps_registers cur v r n :
  keeps same_registers (vgic_enable_irqs cur v r n).
Proof.
  apply keeps_enable_irqs;
    auto using same_registers_refl, same_registers_store_pending,
               same_registers_set_inflight, same_registers_unlink.
  apply same_registers_trans.
Qed.

Lemma disable_irqs_keeps_registers v r n :
  keeps same_registers (vgic_disable_irqs v r n).
Proof.
  apply keeps_disable_irqs;
    auto using same_registers_refl, same_registers_store_pending,
               same_registers_set_inflight, same_registers_unlink.
  apply same_registers_trans.
Qed.

(** ** The enable bitmaps *)

Lemma testbit_u32 x i : 0 <= i < 32 -> Z.testbit (u32 x) i = Z.testbit x i.
Proof.
  intros H. unfold u32. rewrite Z.land_spec.
  change 0xffffffff with (Z.ones 32). rewrite Z.ones_spec_low by lia.
  apply andb_true_r.
Qed.

Lemma testbit_u32_high x i : 32 <= i -> Z.testbit (u32 x) i = false.
Proof.
  intros H. unfold u32. rewrite Z.land_spec.
  change 0xffffffff with (Z.ones 32). rewrite Z.ones_spec_high by lia.
  apply andb_false_r.
Qed.

Lemma for_each_frame {I} (body : I -> M unit) (P : domain -> domain -> Prop) l :
  (forall d, P d d) ->
  (forall d1 d2 d3, P d1 d2 -> P d2 d3 -> P d1 d3) ->
  (forall i d d' t, In i l -> body i d = Ok tt d' t -> P d d') ->
  forall d d' t, for_each l body d = Ok tt d' t -> P d d'.
Proof.
  intros Hrefl Htrans. induction l as [|i l IH]; intros Hb d d' t H.
  - injection H as <- _. apply Hrefl.
  - apply for_each_cons_Ok in H as (d1 & t1 & t2 & H1 & H2 & _).
    apply Htrans with d1.
    + apply (Hb i d d1 t1); [now left|assumption].
    + apply (IH (fun j x y u Hj => Hb j x y u (or_intror Hj)) _ _ _ H2).
Qed.

Lemma enable_irqs_descriptors cur v r n d d' t :
  vgic_enable_irqs cur v r n d = Ok tt d' t -> descriptors_kept v r n d d'.
Proof.
  intros H q Hq. revert d d' t H.
  apply (for_each_frame _ (fun d d' => pending_at d' q = pending_at d q));
    [reflexivity | congruence |].
  intros i d d' t Hi H. apply set_bits_In in Hi as [Hlt Hbit].
  rewrite testbit_u32 in Hbit by lia.
  now apply (vgic_enable_irq_frame _ _ _ _ _ _ _ q H), Hq.
Qed.

Lemma disable_irqs_descriptors v r n d d' t :
  vgic_disable_irqs v r n d = Ok tt d' t -> descriptors_kept v r n d d'.
Proof.
  intros H q Hq. revert d d' t H.
  apply (for_each_frame _ (fun d d' => pending_at d' q = pending_at d q));
    [reflexivity | congruence |].
  intros i d d' t Hi H. apply set_bits_In in Hi as [Hlt Hbit].
  rewrite testbit_u32 in Hbit by lia.
  destruct (vgic_disable_irq_valid _ _ _ _ _ _ H) as (vc & pd & Hv & Hp).
  rewrite (vgic_disable_irq_eval _ _ _ _ _ _ Hv Hp) in H. injection H as <- _.
  rewrite pending_at_unlink. apply pending_at_store_ne.
  intros Heq. now apply (Hq i Hlt Hbit).
Qed.

Lemma write_switch_enable_reg cur d v k g r rp rk sgn rg :
  in_range (enable_reg_base k) (enable_reg_last k) g = true ->
  vgic_rank_offset v 1 (g - enable_reg_base k) DABT_WORD d = Ok (Some rp) d [] ->
  rank_at d rp = Some rk ->
  write_switch cur v (mk_dabt DABT_WORD sgn rg) g r d
  = ((match k with
      | set_enable =>
          vgic_enable_irqs cur v (enable_reg_changed k (ienable rk) r)
            (Z.shiftr (g - enable_reg_base k) DABT_WORD)
      | clear_enable =>
          vgic_disable_irqs v (enable_reg_changed k (ienable rk) r)
            (Z.shiftr (g - enable_reg_base k) DABT_WORD)
      end);; ret 1)
      (store_rank_in d rp (set_ienable rk (enable_reg_value k (ienable rk) r))).
Proof.
  intros Hg Hrank Hrk.
  unfold write_switch. rewrite (bind_pure get _ d d d eq_refl). cbv zeta. word_sized.
  destruct k; cbn [enable_reg_base enable_reg_last enable_reg_value enable_reg_changed] in *;
    cond_to_prop Hg; gic_consts; walk_to_leaf;
    rewrite (bind_pure _ _ _ _ _ Hrank), (bind_pure _ _ _ _ _ (load_rank_ok _ _ _ Hrk));
    erewrite (bind_pure _ _ _ _ _ (store_rank_ok _ _ _ _ Hrk)); reflexivity.
Qed.

Lemma read_switch_enable_reg d v k g rp rk sgn rg :
  in_range (enable_reg_base k) (enable_reg_last k) g = true ->
  vgic_rank_offset v 1 (g - enable_reg_base k) DABT_WORD d = Ok (Some rp) d [] ->
  rank_at d rp = Some rk ->
  read_switch v (mk_dabt DABT_WORD sgn rg) g d = Ok (1, Some (ienable rk)) d [].
Proof.
  intros Hg Hrank Hrk.
  unfold read_switch. rewrite (bind_pure get _ d d d eq_refl). cbv zeta. word_sized.
  destruct k; cbn [enable_reg_base enable_reg_last] in *;
    cond_to_prop Hg; gic_consts; walk_to_leaf;
    rewrite (bind_pure _ _ _ _ _ Hrank), (bind_pure _ _ _ _ _ (load_rank_ok _ _ _ Hrk));
    reflexivity.
Qed.

Lemma descriptors_kept_store_rank v mask n d rp rk d' :
  descriptors_kept v mask n (store_rank_in d rp rk) d' -> descriptors_kept v mask n d d'.
Proof.
  intros H q Hq. rewrite (H q Hq). apply store_rank_same_registry.
Qed.

Lemma enable_write_inv cur d v vc k g r rp rk sgn rg ret d' tr :
  vcpu_at d v = Some vc ->
  in_range (enable_reg_base k) (enable_reg_last k) g = true ->
  vgic_rank_offset v 1 (g - enable_reg_base k) DABT_WORD d = Ok (Some rp) d [] ->
  rank_at d rp = Some rk ->
  vgic_distr_mmio_write cur v (mk_info (dbase d + g) (mk_dabt DABT_WORD sgn rg)) r d
    = Ok ret d' tr ->
  let rk1 := set_ienable rk (enable_reg_value k (ienable rk) r) in
  ret = 1 /\
  same_registers (store_rank_in d rp rk1) d' /\
  descriptors_kept v (enable_reg_changed k (ienable rk) r)
    (Z.shiftr (g - enable_reg_base k) DABT_WORD) d d' /\
  rank_at d' rp = Some rk1 /\
  is_Some (vcpu_at d' v) /\
  dbase d' = dbase d /\
  vgic_rank_offset v 1 (g - enable_reg_base k) DABT_WORD d' = Ok (Some rp) d' [].
Proof.
  intros Hv Hg Hrank Hrk H rk1.
  rewrite (mmio_write_switch _ _ _ _ _ _ Hv) in H. cbn [gpa dabt] in H.
  replace (dbase d + g - dbase d) with g in H by lia.
  rewrite (write_switch_enable_reg _ _ _ k _ _ rp rk) in H by assumption.
  fold rk1 in H. set (d1 := store_rank_in d rp rk1) in *.
  set (mask := enable_reg_changed k (ienable rk) r) in *.
  set (n := Z.shiftr (g - enable_reg_base k) DABT_WORD) in *.
  apply bind_inv_Ok in H as ([] & d2 & t1 & t2 & Hloop & [= <- <- <-] & ->).
  assert (Hsame : same_registers d1 d2).
  { destruct k.
    - pose proof (enable_irqs_keeps_registers cur v mask n d1) as Hk.
      now rewrite Hloop in Hk.
    - pose proof (disable_irqs_keeps_registers v mask n d1) as Hk.
      now rewrite Hloop in Hk. }
  split; [reflexivity|]. split; [exact Hsame|].
  destruct Hsame as (Hbase & Hctlr & Hnr & _ & _ & Hranks & Hvcpus).
  destruct (store_rank_in_fields d rp rk1) as (Hbase1 & Hctlr1 & Hnr1 & _).
  fold d1 in Hbase1, Hctlr1, Hnr1.
  assert (Hv2 : is_Some (vcpu_at d2 v)).
  { apply Hvcpus. unfold d1. rewrite vcpu_at_store_rank, Hv. cbn. eauto. }
  split; [|split; [|split; [exact Hv2|split; [congruence|]]]].
  - apply descriptors_kept_store_rank with rp rk1. fold d1.
    destruct k; [eapply enable_irqs_descriptors|eapply disable_irqs_descriptors];
      exact Hloop.
  - rewrite Hranks. now apply rank_at_store_eq with rk.
  - apply (vgic_rank_offset_frame d); [assumption|eauto|congruence].
Qed.

(** X8: a word write to a set-enable or clear-enable register of a present
    rank that returns is handled; the enable bits of the rank become
    [old | r], respectively [old & ~r] (32 bits), which both the set-enable
    and the clear-enable register of the rank then read back; no other rank
    and no other register of the domain changes, and only descriptors of
    lines whose enable bit the write flipped are touched: a line that was
    already in the requested state is left alone. *)
Theorem enable_bitmap_write cur d v vc k g r rp rk sgn rg ret d' tr :
  vcpu_at d v = Some vc ->
  in_range (enable_reg_base k) (enable_reg_last k) g = true ->
  vgic_rank_offset v 1 (g - enable_reg_base k) DABT_WORD d = Ok (Some rp) d [] ->
  rank_at d rp = Some rk ->
  vgic_distr_mmio_write cur v (mk_info (dbase d + g) (mk_dabt DABT_WORD sgn rg)) r d
    = Ok ret d' tr ->
  ret = 1 /\
  rank_at d' rp = Some (set_ienable rk (enable_reg_value k (ienable rk) r)) /\
  (forall rp', rp' <> rp -> rank_at d' rp' = rank_at d rp') /\
  ctlr d' = ctlr d /\
  descriptors_kept v (enable_reg_changed k (ienable rk) r)
    (Z.shiftr (g - enable_reg_base k) DABT_WORD) d d' /\
  forall k' sgn' rg',
    vgic_distr_mmio_read v
      (mk_info (dbase d + (enable_reg_base k' + (g - enable_reg_base k)))
               (mk_dabt DABT_WORD sgn' rg')) d'
    = Ok (1, Some (enable_reg_value k (ienable rk) r)) d' [].
Proof.
  intros Hv Hg Hrank Hrk H.
  destruct (enable_write_inv _ _ _ _ _ _ _ _ _ _ _ _ _ _ Hv Hg Hrank Hrk H)
    as (Hret & Hsame & Hdesc & Hrk2 & [vc2 Hv2] & Hbase & Hrank2).
  destruct Hsame as (_ & Hctlr & _ & _ & _ & Hranks & _).
  destruct (store_rank_in_fields d rp
              (set_ienable rk (enable_reg_value k (ienable rk) r)))
    as (_ & Hctlr1 & _).
  split; [exact Hret|]. split; [exact Hrk2|]. split; [|split; [congruence|split]].
  - intros rp' Hne. rewrite Hranks. apply rank_at_store_ne. congruence.
  - exact Hdesc.
  - intros k' sgn' rg'.
    rewrite (mmio_read_switch _ _ _ _ Hv2). cbn [gpa dabt].
    replace (dbase d + (enable_reg_base k' + (g - enable_reg_base k)) - dbase d')
      with (enable_reg_base k' + (g - enable_reg_base k)) by lia.
    apply (read_switch_enable_reg _ _ k' _ rp
             (set_ienable rk (enable_reg_value k (ienable rk) r))); [| |exact Hrk2].
    + revert Hg. unfold in_range. destruct k, k'; cbn; gic_consts; lia.
    + replace (enable_reg_base k' + (g - enable_reg_base k) - enable_reg_base k')
        with (g - enable_reg_base k) by lia.
      exact Hrank2.
Qed.

Lemma enable_bitmap_write_witness :
  exists d' tr,
    vgic_distr_mmio_write 0 0 (Ex.access GICD_ISENABLER DABT_WORD) 0x5 Ex.guest
      = Ok 1 d' tr /\
    vgic_distr_mmio_read 0 (Ex.access GICD_ICENABLER DABT_WORD) d'
      = Ok (1, Some 0x5) d' [].
Proof.
  assert (Hw : exists d' tr,
             vgic_distr_mmio_write 0 0 (Ex.access GICD_ISENABLER DABT_WORD) 0x5 Ex.guest
             = Ok 1 d' tr)
    by (vm_compute; eexists; eexists; reflexivity).
  destruct Hw as (d' & tr & Hw). exists d', tr. split; [exact Hw|].
  destruct (enable_bitmap_write 0 Ex.guest 0 (vcpu_vgic_init Ex.vcpu_blank 0) set_enable
              GICD_ISENABLER 0x5 (private_rank 0)
              (private_irqs (vcpu_vgic_init Ex.vcpu_blank 0)) false 0%nat 1 d' tr
              eq_refl eq_refl eq_refl eq_refl Hw) as (_ & _ & _ & _ & _ & Hr).
  exact (Hr clear_enable false 0%nat).
Defined.

Lemma set_bits_none mask n :
  (forall i, (i < n)%nat -> Z.testbit mask (Z.of_nat i) = false) -> set_bits mask n = [].
Proof.
  intros H. destruct (set_bits mask n) as [|i l] eqn:E; [reflexivity|exfalso].
  assert (Hin : In i (set_bits mask n)) by (rewrite E; now left).
  apply set_bits_In in Hin as [Hlt Hbit]. rewrite (H i Hlt) in Hbit. discriminate.
Qed.

Lemma set_d_vcpu_id d : set_d_vcpu d (d_vcpu d) = d.
Proof. now destruct d. Qed.

Lemma store_rank_in_id d rp rk : rank_at d rp = Some rk -> store_rank_in d rp rk = d.
Proof.
  destruct rp as [v|i]; cbn [rank_at store_rank_in].
  - unfold vcpu_at. destruct (d_vcpu d !! v) as [[vc|]|] eqn:E; try discriminate.
    cbn. intros [= <-].
    replace (set_private_irqs vc (private_irqs vc)) with vc by now destruct vc.
    rewrite list_insert_id by assumption. apply set_d_vcpu_id.
  - intros H. rewrite list_insert_id by assumption. now destruct d.
Qed.

Lemma enable_reg_value_again k old r :
  enable_reg_value k (enable_reg_value k old r) r = enable_reg_value k old r.
Proof.
  apply Z.bits_inj'. intros i Hi. destruct k; cbn [enable_reg_value].
  - destruct (Z.lt_ge_cases i 32).
    + rewrite !testbit_u32, !Z.lor_spec, testbit_u32, Z.lor_spec by lia.
      now destruct (Z.testbit old i), (Z.testbit r i).
    + now rewrite !testbit_u32_high by lia.
  - destruct (Z.lt_ge_cases i 32).
    + rewrite !testbit_u32, !Z.land_spec, testbit_u32, Z.land_spec, Z.lnot_spec by lia.
      now destruct (Z.testbit old i), (Z.testbit r i).
    + now rewrite !testbit_u32_high by lia.
Qed.

Lemma enable_reg_changed_again k old r i :
  0 <= i < 32 ->
  Z.testbit (u32 (enable_reg_changed k (enable_reg_value k old r) r)) i = false.
Proof.
  intros Hi. rewrite testbit_u32 by lia.
  destruct k; cbn [enable_reg_changed enable_reg_value].
  - rewrite Z.land_spec, Z.lnot_spec, testbit_u32, Z.lor_spec by lia.
    now destruct (Z.testbit old i), (Z.testbit r i).
  - rewrite Z.land_spec, testbit_u32, Z.land_spec, Z.lnot_spec by lia.
    now destruct (Z.testbit old i), (Z.testbit r i).
Qed.

(** X9: writing the same word to the same set-enable or clear-enable
    register a second time does nothing: the write is handled, the domain
    is exactly as the first write left it and no collaborator is called (a
    line that is already enabled is not raised or enabled at the physical
    interface again). *)
Theorem enable_bitmap_write_again cur d v vc k g r rp rk sgn rg ret d' tr :
  vcpu_at d v = Some vc ->
  in_range (enable_reg_base k) (enable_reg_last k) g = true ->
  vgic_rank_offset v 1 (g - enable_reg_base k) DABT_WORD d = Ok (Some rp) d [] ->
  rank_at d rp = Some rk ->
  vgic_distr_mmio_write cur v (mk_info (dbase d + g) (mk_dabt DABT_WORD sgn rg)) r d
    = Ok ret d' tr ->
  vgic_distr_mmio_write cur v (mk_info (dbase d + g) (mk_dabt DABT_WORD sgn rg)) r d'
    = Ok 1 d' [].
Proof.
  intros Hv Hg Hrank Hrk H.
  destruct (enable_write_inv _ _ _ _ _ _ _ _ _ _ _ _ _ _ Hv Hg Hrank Hrk H)
    as (_ & _ & _ & Hrk2 & [vc2 Hv2] & Hbase & Hrank2).
  rewrite (mmio_write_switch _ _ _ _ _ _ Hv2). cbn [gpa dabt].
  replace (dbase d + g - dbase d') with g by lia.
  rewrite (write_switch_enable_reg _ _ _ k _ _ rp _ _ _ Hg Hrank2 Hrk2).
  cbn [ienable set_ienable]. rewrite enable_reg_value_again.
  replace (set_ienable _ _) with (set_ienable rk (enable_reg_value k (ienable rk) r))
    by reflexivity.
  rewrite (store_rank_in_id _ _ _ Hrk2).
  assert (Hnone : set_bits (u32 (enable_reg_changed k (enable_reg_value k (ienable rk) r) r))
                    32 = []).
  { apply set_bits_none. intros i Hi. apply enable_reg_changed_again. lia. }
  destruct k; unfold vgic_enable_irqs, vgic_disable_irqs; rewrite Hnone; reflexivity.
Qed.

Lemma enable_bitmap_write_again_witness :
  exists d' tr,
    vgic_distr_mmio_write 0 0 (Ex.access GICD_ISENABLER DABT_WORD) 0x5 Ex.guest
      = Ok 1 d' tr /\
    vgic_distr_mmio_write 0 0 (Ex.access GICD_ISENABLER DABT_WORD) 0x5 d'
      = Ok 1 d' [].
Proof.
  assert (Hw : exists d' tr,
             vgic_distr_mmio_write 0 0 (Ex.access GICD_ISENABLER DABT_WORD) 0x5 Ex.guest
             = Ok 1 d' tr)
    by (vm_compute; eexists; eexists; reflexivity).
  destruct Hw as (d' & tr & Hw). exists d', tr. split; [exact Hw|].
  exact (enable_bitmap_write_again 0 Ex.guest 0 (vcpu_vgic_init Ex.vcpu_blank 0) set_enable
           GICD_ISENABLER 0x5 (private_rank 0)
           (private_irqs (vcpu_vgic_init Ex.vcpu_blank 0)) false 0%nat 1 d' tr
           eq_refl eq_refl eq_refl eq_refl Hw).
Defined.

(** ** The invariant of the registry *)

Lemma sorted_filter {A} (g : A -> Z) (f : A -> bool) l :
  StronglySorted Z.le (map g l) -> StronglySorted Z.le (map g (List.filter f l)).
Proof.
  induction l as [|a l IH]; cbn; [trivial|]. intros Hs.
  apply StronglySorted_inv in Hs as [Hs Ha]. destruct (f a); cbn; [|auto].
  constructor; [auto|]. apply List.Forall_forall. intros x Hx.
  rewrite List.Forall_forall in Ha. apply Ha.
  apply in_map_iff in Hx as (y & <- & Hy). apply List.filter_In in Hy as [Hy _].
  now apply in_map.
Qed.

Lemma entries_filter_le f l p : (entries (List.filter f l) p <= entries l p)%nat.
Proof.
  unfold entries. induction l as [|a l IH]; cbn; [lia|].
  destruct (f a); cbn; destruct (pending_ptr_eqb p a); cbn; lia.
Qed.

(** The invariant depends on the lists and on the priorities of the
    descriptors only, and it survives the removal of entries. *)
Lemma registry_ok_sub d d' (f : nat -> pending_ptr -> bool) :
  (forall w, inflight_of d' w = List.filter (f w) (inflight_of d w)) ->
  (forall q, p_priority <$> pending_at d' q = p_priority <$> pending_at d q) ->
  registry_ok d -> registry_ok d'.
Proof.
  intros Hl Hp (Hs & Hu & Hv).
  assert (Hprio : forall q, prio_of d' q = prio_of d q).
  { intros q. unfold prio_of. specialize (Hp q).
    destruct (pending_at d' q), (pending_at d q); cbn in Hp; congruence. }
  split; [|split].
  - intros w. unfold inflight_priorities. rewrite Hl.
    rewrite (map_ext _ _ Hprio). apply sorted_filter, Hs.
  - intros p w w'. destruct (Hu p w w') as [H1 H2]. rewrite !Hl.
    pose proof (entries_filter_le (f w) (inflight_of d w) p).
    pose proof (entries_filter_le (f w') (inflight_of d w') p).
    split; [lia|]. intros Hne. destruct (H2 Hne); [left|right]; lia.
  - intros w q Hq. rewrite Hl in Hq. apply List.filter_In in Hq as [Hq _].
    specialize (Hv w q Hq). specialize (Hp q).
    destruct (pending_at d' q); [eauto|].
    destruct Hv as [x Hx]. rewrite Hx in Hp. discriminate.
Qed.

Lemma filter_all {A} (l : list A) : List.filter (fun _ => true) l = l.
Proof. induction l; cbn; congruence. Qed.

Lemma registry_ok_same d d' :
  (forall w, inflight_of d' w = inflight_of d w) ->
  (forall q, p_priority <$> pending_at d' q = p_priority <$> pending_at d q) ->
  registry_ok d -> registry_ok d'.
Proof.
  intros Hl Hp. apply registry_ok_sub with (f := fun _ _ => true); [|exact Hp].
  intros w. now rewrite filter_all.
Qed.

Lemma priority_store_status d p pd s q :
  pending_at d p = Some pd ->
  p_priority <$> pending_at (store_pending_in d p (set_p_status pd s)) q
  = p_priority <$> pending_at d q.
Proof.
  intros Hp. destruct (pending_ptr_eqb_spec p q) as [<-|Hne].
  - now rewrite (pending_at_store_eq _ _ _ _ Hp), Hp.
  - now rewrite pending_at_store_ne.
Qed.

Lemma registry_ok_store_status d p pd s :
  pending_at d p = Some pd ->
  registry_ok d -> registry_ok (store_pending_in d p (set_p_status pd s)).
Proof.
  intros Hp. apply registry_ok_same.
  - intros w. apply inflight_of_store_pending.
  - intros q. now apply priority_store_status.
Qed.

Lemma registry_ok_unlink d p : registry_ok d -> registry_ok (unlink_everywhere p d).
Proof.
  apply registry_ok_sub with (f := fun _ q => negb (pending_ptr_eqb p q)).
  - intros w. apply inflight_of_unlink.
  - intros q. now rewrite pending_at_unlink.
Qed.

Lemma registry_ok_store_rank d rp rk : registry_ok d -> registry_ok (store_rank_in d rp rk).
Proof.
  destruct (store_rank_same_registry d rp rk) as [Hp Hl].
  apply registry_ok_same; [exact Hl|]. intros q. now rewrite Hp.
Qed.

Lemma registry_ok_ctlr d x : registry_ok d -> registry_ok (set_ctlr d x).
Proof.
  apply registry_ok_same; [reflexivity|]. intros q. now destruct q.
Qed.

Lemma inject_preserves_unique cur d v irq d' tr :
  inflight_unique d ->
  vgic_vcpu_inject_irq cur v irq d = Ok tt d' tr ->
  inflight_unique d'.
Proof.
  intros Hu H.
  destruct (inject_Ok_valid _ _ _ _ _ _ H) as (vc & np & Hv & Hp).
  set (n := pending_ptr_of v irq) in *.
  destruct (inflight_linked d n) eqn:Hl.
  - rewrite (inject_linked _ _ _ _ _ _ Hv Hp Hl) in H. injection H as <- _.
    intros p w w'. rewrite !inflight_of_store_pending. apply Hu.
  - destruct (test_bit _VPF_down (pause_flags vc)) eqn:Hdown.
    + rewrite (inject_offline _ _ _ _ _ _ Hv Hp Hl Hdown) in H. now injection H as <- _.
    + destruct (inject_frame _ _ _ _ _ _ H) as [_ Hent].
      destruct (inject_new_inv _ _ _ _ _ _ _ _ Hv Hp Hl Hdown H)
        as (priority & l1 & l2 & Hsplit & _ & Hlists & _).
      assert (Hzero : forall w, entries (inflight_of d w) n = 0%nat)
        by (intros w; apply entries_absent, inflight_unlinked, Hl).
      assert (Hn : forall w, entries (inflight_of d' w) n
                             = if (v =? w)%nat then 1%nat else 0%nat).
      { intros w. rewrite Hlists. destruct (Nat.eqb_spec v w) as [<-|]; [|apply Hzero].
        specialize (Hzero v). rewrite Hsplit, entries_app in Hzero.
        rewrite entries_app, entries_cons_same. lia. }
      intros p w w'. destruct (pending_ptr_eqb_spec n p) as [<-|Hne].
      * rewrite !Hn. split; [destruct (v =? w)%nat; lia|]. intros Hww.
        destruct (Nat.eqb_spec v w) as [<-|]; [|now left].
        destruct (Nat.eqb_spec v w'); [congruence|now right].
      * rewrite !Hent by (intros ->; now apply Hne). apply Hu.
Qed.

Lemma inject_preserves_valid cur d v irq d' tr :
  inflight_valid d ->
  vgic_vcpu_inject_irq cur v irq d = Ok tt d' tr ->
  inflight_valid d'.
Proof.
  intros Hval H.
  destruct (inject_Ok_valid _ _ _ _ _ _ H) as (vc & np & Hv & Hp).
  set (n := pending_ptr_of v irq) in *.
  assert (Hkeep : forall x q, is_Some (pending_at d q) ->
                              is_Some (pending_at (store_pending_in d n x) q)).
  { intros x q Hq. destruct (pending_ptr_eqb_spec n q) as [<-|Hne].
    - rewrite (pending_at_store_eq _ _ _ _ Hp). eauto.
    - now rewrite pending_at_store_ne. }
  destruct (inflight_linked d n) eqn:Hl.
  - rewrite (inject_linked _ _ _ _ _ _ Hv Hp Hl) in H. injection H as <- _.
    intros w q Hq. rewrite inflight_of_store_pending in Hq. apply Hkeep, (Hval w q Hq).
  - destruct (test_bit _VPF_down (pause_flags vc)) eqn:Hdown.
    + rewrite (inject_offline _ _ _ _ _ _ Hv Hp Hl Hdown) in H. now injection H as <- _.
    + destruct (inject_new_inv _ _ _ _ _ _ _ _ Hv Hp Hl Hdown H)
        as (priority & l1 & l2 & Hsplit & _ & Hlists & Hn & Hothers & _).
      fold n in Hlists, Hn, Hothers.
      intros w q Hq. destruct (pending_ptr_eqb_spec n q) as [<-|Hne].
      * rewrite Hn. eauto.
      * rewrite Hothers by congruence. rewrite Hlists in Hq.
        destruct (Nat.eqb_spec v w) as [<-|]; [|exact (Hval w q Hq)].
        apply (Hval v q). rewrite Hsplit.
        apply in_app_or in Hq as [Hq|[Hq|Hq]]; [|congruence|];
          apply in_or_app; auto.
Qed.

Lemma inject_preserves_registry cur v irq d d' tr :
  vgic_vcpu_inject_irq cur v irq d = Ok tt d' tr -> preserves registry_ok d d'.
Proof.
  intros H (Hs & Hu & Hv). split; [|split].
  - eapply inject_preserves_sorted; eauto.
  - eapply inject_preserves_unique; eauto.
  - eapply inject_preserves_valid; eauto.
Qed.

Lemma preserves_refl P d : preserves P d d.
Proof. intros H. exact H. Qed.

Lemma preserves_trans P d1 d2 d3 :
  preserves P d1 d2 -> preserves P d2 d3 -> preserves P d1 d3.
Proof. unfold preserves. auto. Qed.

Lemma enable_irqs_preserves_registry cur v r n d d' tr :
  vgic_enable_irqs cur v r n d = Ok tt d' tr -> preserves registry_ok d d'.
Proof.
  revert d d' tr. apply for_each_frame.
  - apply preserves_refl.
  - apply preserves_trans.
  - intros i d d' t _ H.
    destruct (vgic_enable_irq_inv _ _ _ _ _ _ _ H)
      as (vc & pd & t2 & pd2 & Hv & Hp & [[_ Hinj]|[-> _]] & _); intros Hok.
    + apply (inject_preserves_registry _ _ _ _ _ _ Hinj).
      now apply registry_ok_store_status.
    + now apply registry_ok_store_status.
Qed.

Lemma disable_irqs_preserves_registry v r n d d' tr :
  vgic_disable_irqs v r n d = Ok tt d' tr -> preserves registry_ok d d'.
Proof.
  revert d d' tr. apply for_each_frame.
  - apply preserves_refl.
  - apply preserves_trans.
  - intros i d d' t _ H Hok.
    destruct (vgic_disable_irq_valid _ _ _ _ _ _ H) as (vc & pd & Hv & Hp).
    rewrite (vgic_disable_irq_eval _ _ _ _ _ _ Hv Hp) in H. injection H as <- _.
    now apply registry_ok_unlink, registry_ok_store_status.
Qed.

Lemma write_preserves_registry cur v info r :
  keeps (preserves registry_ok) (vgic_distr_mmio_write cur v info r).
Proof.
  apply keeps_mmio_write.
  - apply preserves_refl.
  - apply preserves_trans.
  - intros cur' v' irq. apply keeps_of_Ok; [apply no_crash_inject|].
    intros d [] d' tr. apply inject_preserves_registry.
  - intros d x. exact (registry_ok_ctlr d x).
  - intros d rp rk. exact (registry_ok_store_rank d rp rk).
  - intros cur' v' r' n. apply keeps_of_Ok; [apply no_crash_enable_irqs|].
    intros d [] d' tr. apply enable_irqs_preserves_registry.
  - intros v' r' n. apply keeps_of_Ok; [apply no_crash_disable_irqs|].
    intros d [] d' tr. apply disable_irqs_preserves_registry.
Qed.

Lemma step_preserves_registry d d' : vgic_step d d' -> preserves registry_ok d d'.
Proof.
  intros [v info d0 res d1 tr H|cur v info r d0 ret d1 tr H|cur v irq d0 d1 tr H].
  - destruct (vcpu_at d0 v) as [vc|] eqn:Hv.
    + rewrite (mmio_read_switch _ _ _ _ Hv) in H.
      pose proof (read_switch_pure d0 v vc (dabt info) (gpa info - dbase d0) Hv) as Hp.
      rewrite H in Hp. destruct Hp as [-> _]. apply preserves_refl.
    + exfalso. revert H. unfold vgic_distr_mmio_read.
      rewrite (bind_Fault _ _ _ []); [discriminate|]. unfold get_vcpu. now rewrite Hv.
  - pose proof (write_preserves_registry cur v info r d0) as Hk. now rewrite H in Hk.
  - eapply inject_preserves_registry, H.
Qed.

Lemma start_registry_ok d : (forall v, inflight_of d v = []) -> registry_ok d.
Proof.
  intros Hempty. split; [|split].
  - intros v. unfold inflight_priorities. rewrite Hempty. constructor.
  - intros p w w'. rewrite !Hempty. cbn. split; [lia|auto].
  - intros w q Hq. now rewrite Hempty in Hq.
Qed.

Lemma inflight4_registry_ok : registry_ok Ex.inflight4.
Proof.
  assert (H0 : registry_ok Ex.guest_prio) by apply start_registry_ok, guest_prio_empty.
  assert (Hstep : forall d irq,
             (exists tr, vgic_vcpu_inject_irq 0 0 irq d = Ok tt (Ex.injected d irq) tr) ->
             registry_ok d -> registry_ok (Ex.injected d irq)).
  { intros d irq [tr H]. exact (inject_preserves_registry _ _ _ _ _ _ H). }
  apply Hstep; [vm_compute; eexists; reflexivity|].
  apply Hstep; [vm_compute; eexists; reflexivity|].
  apply Hstep; [vm_compute; eexists; reflexivity|].
  apply Hstep; [vm_compute; eexists; reflexivity|].
  exact H0.
Qed.

Lemma inflight4_reachable : vgic_reachable Ex.inflight4.
Proof.
  assert (H0 : vgic_reachable Ex.guest_prio) by (apply vreach_start, guest_prio_empty).
  assert (H1 : vgic_reachable Ex.inflight1).
  { apply (vreach_step _ _ H0). eapply (step_inject 0 0 0). vm_compute. reflexivity. }
  assert (H2 : vgic_reachable Ex.inflight2).
  { apply (vreach_step _ _ H1). eapply (step_inject 0 0 1). vm_compute. reflexivity. }
  assert (H3 : vgic_reachable Ex.inflight3).
  { apply (vreach_step _ _ H2). eapply (step_inject 0 0 2). vm_compute. reflexivity. }
  apply (vreach_step _ _ H3). eapply (step_inject 0 0 3). vm_compute. reflexivity.
Defined.

(** X10: in every domain reached from one without inflight interrupts by
    trapped reads, trapped writes (priority, enable and disable writes and
    SGIs included) and injections that return, every inflight list is in
    ascending order of the snapshotted priorities, every descriptor is
    linked at most once, into at most one list, and every linked descriptor
    is a descriptor of the domain. *)
Theorem registry_invariant d :
  vgic_reachable d -> inflight_sorted d /\ inflight_unique d /\ inflight_valid d.
Proof.
  induction 1 as [d Hempty|d d' _ IH Hstep].
  - now apply start_registry_ok.
  - apply (step_preserves_registry d d' Hstep). exact IH.
Qed.

Lemma registry_invariant_witness :
  vgic_reachable Run.disabled1 /\
  inflight_sorted Run.disabled1 /\ inflight_unique Run.disabled1 /\
  inflight_valid Run.disabled1.
Proof.
  assert (H5 : vgic_reachable Run.enabled01).
  { apply (vreach_step _ _ inflight4_reachable).
    eapply (step_write 0 0 (Ex.access GICD_ISENABLER DABT_WORD) 0x3 _ 1).
    vm_compute. reflexivity. }
  assert (H6 : vgic_reachable Run.disabled1).
  { apply (vreach_step _ _ H5).
    eapply (step_write 0 0 (Ex.access GICD_ICENABLER DABT_WORD) 0x2 _ 1).
    vm_compute. reflexivity. }
  split; [exact H6|]. exact (registry_invariant Run.disabled1 H6).
Defined.

(** ** The targets of an SGI *)

Lemma same_pause_flags_refl d : same_pause_flags d d.
Proof. intros w. reflexivity. Qed.

Lemma same_pause_flags_trans d1 d2 d3 :
  same_pause_flags d1 d2 -> same_pause_flags d2 d3 -> same_pause_flags d1 d3.
Proof. intros H1 H2 w. now rewrite H2, H1. Qed.

Lemma same_pause_flags_store_pending d p x : same_pause_flags d (store_pending_in d p x).
Proof.
  intros w. rewrite vcpu_at_store_pending. destruct (vcpu_at d w) as [vc|]; [|reflexivity].
  cbn. f_equal. destruct p as [v i|i]; cbn; [|reflexivity]. now destruct (v =? w)%nat.
Qed.

Lemma same_pause_flags_set_inflight d v vc l :
  vcpu_at d v = Some vc ->
  same_pause_flags d (set_d_vcpu d (<[v := Some (set_inflight_irqs vc l)]> (d_vcpu d))).
Proof.
  intros Hv w. rewrite (vcpu_at_put _ _ _ _ _ Hv).
  destruct (Nat.eqb_spec v w) as [<-|]; [now rewrite Hv|reflexivity].
Qed.

Lemma inject_keeps_pause_flags cur v irq :
  keeps same_pause_flags (vgic_vcpu_inject_irq cur v irq).
Proof.
  apply keeps_inject;
    auto using same_pause_flags_refl, same_pause_flags_store_pending,
               same_pause_flags_set_inflight.
  apply same_pause_flags_trans.
Qed.

Lemma vcpu_offline_at d w :
  vcpu_offline d w = match vcpu_at d w with
                     | Some vc => test_bit _VPF_down (pause_flags vc)
                     | None => false
                     end.
Proof.
  unfold vcpu_offline, vcpu_at, is_vcpu_online.
  destruct (d_vcpu d !! w) as [[vc|]|]; try reflexivity. apply negb_involutive.
Qed.

Lemma vcpu_offline_same d d' w :
  same_pause_flags d d' -> vcpu_offline d' w = vcpu_offline d w.
Proof.
  intros H. rewrite !vcpu_offline_at. specialize (H w).
  destruct (vcpu_at d' w), (vcpu_at d w); cbn in H; congruence.
Qed.

Lemma vcpu_spared_refl w d : vcpu_spared w d d [].
Proof. repeat split. intros e []. Qed.

Lemma vcpu_spared_trans w d1 d2 d3 t1 t2 :
  vcpu_spared w d1 d2 t1 -> vcpu_spared w d2 d3 t2 -> vcpu_spared w d1 d3 (t1 ++ t2).
Proof.
  intros (A1 & A2 & A3) (B1 & B2 & B3). split; [congruence|]. split.
  - intros j. now rewrite B2.
  - intros e He. apply in_app_or in He as [He|He]; auto.
Qed.

Lemma notify_events_for cur v vc w e :
  w <> v -> In e (notify_events cur v vc) -> event_for w e = false.
Proof.
  intros Hne. unfold notify_events. intros [<-|He].
  - cbn. now apply Nat.eqb_neq.
  - destruct (_ && _); [|contradiction]. destruct He as [<-|[]]. reflexivity.
Qed.

(** An injection into [v] delivers nothing to another vCPU. *)
Lemma inject_spares cur v irq d d' tr w :
  vgic_vcpu_inject_irq cur v irq d = Ok tt d' tr ->
  w <> v -> (irq < 32)%nat -> vcpu_spared w d d' tr.
Proof.
  intros H Hne Hirq.
  destruct (inject_frame _ _ _ _ _ _ H) as [Hpend _].
  assert (Hptr : forall j, vcpu_pending w j <> pending_ptr_of v irq).
  { intros j. unfold pending_ptr_of. apply Nat.ltb_lt in Hirq. rewrite Hirq. congruence. }
  assert (Hneb : (v =? w)%nat = false) by (apply Nat.eqb_neq; congruence).
  destruct (inject_Ok_valid _ _ _ _ _ _ H) as (vc & np & Hv & Hp).
  destruct (inflight_linked d (pending_ptr_of v irq)) eqn:Hl.
  - rewrite (inject_linked _ _ _ _ _ _ Hv Hp Hl) in H. injection H as <- <-.
    split; [apply inflight_of_store_pending|]. split; [intros j; apply Hpend, Hptr|].
    intros e [<-|He]; [cbn; now rewrite Hneb|]. now apply (notify_events_for cur v vc).
  - destruct (test_bit _VPF_down (pause_flags vc)) eqn:Hdown.
    + rewrite (inject_offline _ _ _ _ _ _ Hv Hp Hl Hdown) in H. injection H as <- <-.
      apply vcpu_spared_refl.
    + destruct (inject_new_inv _ _ _ _ _ _ _ _ Hv Hp Hl Hdown H)
        as (priority & l1 & l2 & _ & _ & Hlists & _ & _ & _ & _ & ->).
      split; [now rewrite Hlists, Hneb|]. split; [intros j; apply Hpend, Hptr|].
      intros e He. apply in_app_or in He as [He|He].
      * destruct (test_bit _ _); [|contradiction]. destruct He as [<-|[]].
        cbn. now rewrite Hneb.
      * now apply (notify_events_for cur v vc).
Qed.

Lemma sgi_intid_lt sgir : (Z.to_nat (Z.land sgir GICD_SGI_INTID_MASK) < 32)%nat.
Proof.
  change GICD_SGI_INTID_MASK with (Z.ones 4). rewrite Z.land_ones by lia.
  pose proof (Z.mod_pos_bound sgir (2 ^ 4) ltac:(lia)). lia.
Qed.

Lemma sgi_deliver_inv cur sgir mask i d d' t :
  sgi_deliver cur sgir mask i d = Ok tt d' t ->
  (vcpu_offline d i = true /\ d' = d /\ t = [Printk (wrong_cpu_target_list sgir mask)]) \/
  (vcpu_offline d i = false /\
   vgic_vcpu_inject_irq cur i (Z.to_nat (Z.land sgir GICD_SGI_INTID_MASK)) d = Ok tt d' t).
Proof.
  unfold sgi_deliver. rewrite (bind_pure get _ d d d eq_refl).
  destruct (vcpu_offline d i); [left|right; auto].
  injection H as <- <-. auto.
Qed.

(** The delivery loop spares a vCPU that is not in the list or offline. *)
Lemma sgi_loop_spares cur sgir mask w l :
  forall d d' tr,
    (In w l -> vcpu_offline d w = true) ->
    for_each l (sgi_deliver cur sgir mask) d = Ok tt d' tr ->
    vcpu_spared w d d' tr.
Proof.
  induction l as [|i l IH]; intros d d' tr Hw H.
  - injection H as <- <-. apply vcpu_spared_refl.
  - apply for_each_cons_Ok in H as (d1 & t1 & t2 & H1 & H2 & ->).
    assert (Hstep : vcpu_spared w d d1 t1 /\ same_pause_flags d d1).
    { apply sgi_deliver_inv in H1 as [(_ & -> & ->)|[Hon Hinj]].
      - split; [|apply same_pause_flags_refl]. repeat split.
        intros e [<-|[]]. reflexivity.
      - split.
        + apply (inject_spares _ _ _ _ _ _ _ Hinj); [|apply sgi_intid_lt].
          intros ->. rewrite Hw in Hon by now left. discriminate.
        + pose proof (inject_keeps_pause_flags cur i
                        (Z.to_nat (Z.land sgir GICD_SGI_INTID_MASK)) d) as Hk.
          now rewrite Hinj in Hk. }
    destruct Hstep as [Hsp Hfl].
    apply (vcpu_spared_trans w d d1 d' _ _ Hsp). apply IH; [|exact H2].
    intros Hin. rewrite (vcpu_offline_same _ _ _ Hfl). apply Hw. now right.
Qed.

Lemma to_sgi_dispatch cur v sgir mask d ret d' tr :
  sgi_target_mask cur d sgir = Some mask ->
  vgic_to_sgi cur v sgir d = Ok ret d' tr ->
  ret = 1 /\
  for_each (set_bits mask (length (d_vcpu d))) (sgi_deliver cur sgir mask) d = Ok tt d' tr.
Proof.
  unfold sgi_target_mask, vgic_to_sgi. intros Hm H.
  apply bind_inv_Ok in H as (vc & d0 & t0 & t1 & Hg & H & ->).
  apply get_vcpu_inv in Hg as (_ & -> & ->).
  rewrite (bind_pure get _ d d d eq_refl) in H. cbv zeta in *.
  repeat match type of Hm with
         | (if ?c then _ else _) = _ => destruct c
         end; try discriminate; injection Hm as <-;
    apply bind_inv_Ok in H as ([] & d1 & t2 & t3 & Hloop & [= <- <- <-] & ->);
    rewrite app_nil_r; split; [reflexivity|exact Hloop| reflexivity|exact Hloop
                                |reflexivity|exact Hloop].
Qed.

(** X11: an SGI delivers nothing to a vCPU that is not a target of the
    mask computed for its filter, nor to a target that is offline: when the
    dispatcher returns, the inflight list and the private descriptors of
    such a vCPU are as before, and the trace holds no raise and no unblock
    for it.  The return value is 1. *)
Theorem sgi_spares_untargeted cur v sgir mask d ret d' tr w :
  sgi_target_mask cur d sgir = Some mask ->
  Z.testbit mask (Z.of_nat w) = false \/ vcpu_offline d w = true ->
  vgic_to_sgi cur v sgir d = Ok ret d' tr ->
  ret = 1 /\ vcpu_spared w d d' tr.
Proof.
  intros Hm Hw H. destruct (to_sgi_dispatch _ _ _ _ _ _ _ _ Hm H) as [-> Hloop].
  split; [reflexivity|]. eapply sgi_loop_spares; [|exact Hloop].
  intros Hin. apply set_bits_In in Hin as [_ Hbit].
  destruct Hw as [Hw|Hw]; [congruence|exact Hw].
Qed.

Lemma sgi_spares_untargeted_witness :
  exists d' tr,
    vgic_to_sgi 0 0 0x1000003 Ex.hwdom = Ok 1 d' tr /\
    vcpu_spared 0 Ex.hwdom d' tr.
Proof.
  assert (Hs : exists d' tr, vgic_to_sgi 0 0 0x1000003 Ex.hwdom = Ok 1 d' tr)
    by (vm_compute; eexists; eexists; reflexivity).
  destruct Hs as (d' & tr & Hs). exists d', tr. split; [exact Hs|].
  exact (proj2 (sgi_spares_untargeted 0 0 0x1000003 2 Ex.hwdom 1 d' tr 0%nat
                  eq_refl (or_introl eq_refl) Hs)).
Defined.

(** *** The mask of the filter "all but the sender" *)

Lemma testbit_set_bit_nat i j m :
  Z.testbit (set_bit (Z.of_nat i) m) (Z.of_nat j) = (i =? j)%nat || Z.testbit m (Z.of_nat j).
Proof.
  unfold set_bit. rewrite Z.setbit_eqb by lia.
  destruct (Nat.eqb_spec i j) as [->|Hne].
  - now rewrite Z.eqb_refl.
  - destruct (Z.eqb_spec (Z.of_nat i) (Z.of_nat j)); [lia|reflexivity].
Qed.

Lemma others_fold cur d l m j :
  Z.testbit
    (fold_left
       (fun vcpu_mask i =>
          match vcpu_at d i with
          | Some vc =>
              if negb (i =? cur)%nat && is_vcpu_online vc
              then set_bit (Z.of_nat i) vcpu_mask else vcpu_mask
          | None => vcpu_mask
          end) l m) (Z.of_nat j)
  = Z.testbit m (Z.of_nat j)
    || (existsb (Nat.eqb j) l && negb (j =? cur)%nat
        && match vcpu_at d j with Some vc => is_vcpu_online vc | None => false end).
Proof.
  revert m. induction l as [|i l IH]; intros m; cbn [fold_left existsb].
  - now rewrite orb_false_r.
  - rewrite IH. clear IH. destruct (Nat.eqb_spec j i) as [->|Hne].
    + destruct (vcpu_at d i) as [vc|];
        [|now destruct (Z.testbit m (Z.of_nat i)), (existsb _ l), (negb _)].
      destruct (negb (i =? cur)%nat), (is_vcpu_online vc); cbn [andb];
        rewrite ?testbit_set_bit_nat, ?Nat.eqb_refl;
        now destruct (Z.testbit m (Z.of_nat i)), (existsb _ l).
    + destruct (vcpu_at d i) as [vc|]; [|reflexivity].
      destruct (_ && _); [|reflexivity].
      rewrite testbit_set_bit_nat.
      destruct (Nat.eqb_spec i j); [congruence|reflexivity].
Qed.

(** X12: the mask that the SGI dispatcher computes for the filter "all but
    the sender" has the bit of a vCPU set exactly when the vCPU exists, is
    online and is not the sender. *)
Theorem sgi_others_mask_spec cur d j :
  Z.testbit (sgi_others_mask cur d) (Z.of_nat j) = true <->
  j <> cur /\ exists vc, vcpu_at d j = Some vc /\ is_vcpu_online vc = true.
Proof.
  unfold sgi_others_mask. rewrite others_fold. rewrite Z.bits_0. cbn [orb].
  split.
  - intros H. apply andb_prop in H as [H Hon]. apply andb_prop in H as [_ Hne].
    split; [now apply Nat.eqb_neq, negb_true_iff|].
    destruct (vcpu_at d j) as [vc|]; [eauto|discriminate].
  - intros (Hne & vc & Hv & Hon). rewrite Hv, Hon.
    apply Nat.eqb_neq in Hne. rewrite Hne. cbn [negb]. rewrite !andb_true_r.
    apply existsb_exists. exists j. split; [|apply Nat.eqb_refl].
    apply List.in_seq. apply vcpu_at_lt in Hv. lia.
Qed.

(** ** Accesses stay inside the tables *)

Lemma REG_RANK_NR_nonneg b x : 0 <= x -> 0 <= REG_RANK_NR b x.
Proof.
  intros H. unfold REG_RANK_NR.
  repeat match goal with |- context [if ?c then _ else _] => destruct c end;
    try apply Z.shiftr_nonneg; assumption.
Qed.

Lemma rank_offset_loadable d v vc b n s rank :
  vcpu_at d v = Some vc -> ranks_allocated d -> 0 <= n ->
  vgic_rank_offset v b n s d = Ok rank d [] ->
  match rank with Some rp => is_Some (rank_at d rp) | None => True end.
Proof.
  intros Hv Ha Hn. unfold vgic_rank_offset.
  rewrite (bind_pure _ _ _ _ _ (get_vcpu_Some _ _ _ Hv)).
  rewrite (bind_pure get _ d d d eq_refl).
  pose proof (REG_RANK_NR_nonneg b (Z.shiftr n s)
                ltac:(apply Z.shiftr_nonneg; assumption)) as Hr.
  destruct (Z.eqb_spec (REG_RANK_NR b (Z.shiftr n s)) 0) as [_|Hne].
  - intros [= <-]. cbn. rewrite Hv. cbn. eauto.
  - destruct (Z.leb_spec (REG_RANK_NR b (Z.shiftr n s)) (DOMAIN_NR_RANKS d)) as [Hle|_].
    + intros [= <-]. cbn. apply lookup_lt_is_Some. unfold ranks_allocated in Ha. lia.
    + now intros [= <-].
Qed.

Lemma never_faults_read_as_zero d dabt g : never_faults (read_as_zero dabt g d).
Proof. unfold read_as_zero. now destruct (negb _). Qed.

Lemma never_faults_of_rank d v vc b n s dabt g (f : vgic_irq_rank -> Z) :
  vcpu_at d v = Some vc -> ranks_allocated d -> 0 <= n ->
  never_faults
    ((rank <- vgic_rank_offset v b n s;;
      match rank with
      | None => read_as_zero dabt g
      | Some rp => rk <- load_rank rp;; ret (1, Some (f rk))
      end) d).
Proof.
  intros Hv Ha Hn. destruct (vgic_rank_offset_ok d v vc b n s Hv) as [rank Hr].
  rewrite (bind_pure _ _ _ _ _ Hr).
  pose proof (rank_offset_loadable _ _ _ _ _ _ _ Hv Ha Hn Hr) as Hl.
  destruct rank as [rp|]; [|apply never_faults_read_as_zero].
  destruct Hl as [rk Hrk]. now rewrite (bind_pure _ _ _ _ _ (load_rank_ok _ _ _ Hrk)).
Qed.

Ltac range_facts :=
  repeat match goal with
         | E : in_range _ _ _ = true |- _ => apply in_range_iff in E
         end;
  gic_consts; lia.

(** X13: in a domain whose shared rank table has the [DOMAIN_NR_RANKS]
    entries that [domain_vgic_init] allocates, a trapped read by a vCPU of
    the domain never dereferences a rank outside the table, whatever the
    offset and the width: it returns or crashes the domain after a bad
    width. *)
Theorem mmio_read_stays_in_tables d v vc info :
  vcpu_at d v = Some vc -> ranks_allocated d ->
  never_faults (vgic_distr_mmio_read v info d).
Proof.
  intros Hv Ha. rewrite (mmio_read_switch _ _ _ _ Hv).
  generalize (gpa info - dbase d) as g. generalize (dabt info) as dabt. intros dabt g.
  unfold read_switch. rewrite (bind_pure get _ d d d eq_refl). cbv zeta.
  repeat lazymatch goal with
  | |- never_faults ((if ?c then _ else _) _) =>
      let E := fresh "E" in destruct c eqn:E
  end;
  first [ exact I
        | apply never_faults_read_as_zero
        | apply (never_faults_of_rank _ _ _ _ _ _ _ _ _ Hv Ha); range_facts ].
Qed.

Lemma mmio_read_stays_in_tables_witness :
  never_faults (vgic_distr_mmio_read 0 (Ex.access (GICD_ISENABLER + 4) DABT_WORD) Ex.hwdom).
Proof.
  apply (mmio_read_stays_in_tables Ex.hwdom 0 (vcpu_vgic_init Ex.vcpu_blank 0)).
  - reflexivity.
  - unfold ranks_allocated. vm_compute. discriminate.
Defined.

(** ** Registers of lines the domain does not have *)

Lemma vgic_rank_offset_absent d v vc b n s :
  vcpu_at d v = Some vc -> 0 <= nr_lines d ->
  DOMAIN_NR_RANKS d < REG_RANK_NR b (Z.shiftr n s) ->
  vgic_rank_offset v b n s d = Ok None d [].
Proof.
  intros Hv Hnr Hlt. unfold vgic_rank_offset.
  rewrite (bind_pure _ _ _ _ _ (get_vcpu_Some _ _ _ Hv)).
  rewrite (bind_pure get _ d d d eq_refl).
  assert (0 <= DOMAIN_NR_RANKS d).
  { unfold DOMAIN_NR_RANKS. apply Z.quot_pos; lia. }
  destruct (Z.eqb_spec (REG_RANK_NR b (Z.shiftr n s)) 0); [lia|].
  destruct (Z.leb_spec (REG_RANK_NR b (Z.shiftr n s)) (DOMAIN_NR_RANKS d)); [lia|].
  reflexivity.
Qed.

Lemma read_switch_absent_rank d v vc g b base sgn rg :
  vcpu_at d v = Some vc -> 0 <= nr_lines d ->
  rank_backed_read g = Some (b, base) ->
  DOMAIN_NR_RANKS d < REG_RANK_NR b (Z.shiftr (g - base) DABT_WORD) ->
  read_switch v (mk_dabt DABT_WORD sgn rg) g d = Ok (1, Some 0) d [].
Proof.
  intros Hv Hnr Hg Hlt.
  pose proof (fun n => vgic_rank_offset_absent d v vc b n DABT_WORD Hv Hnr) as Habs.
  unfold read_switch. rewrite (bind_pure get _ d d d eq_refl). cbv zeta. word_sized.
  revert Hg. unfold rank_backed_read.
  repeat lazymatch goal with
  | |- (if ?c then _ else _) = _ -> _ =>
      let E := fresh "R" in
      destruct c eqn:E; cond_to_prop E;
      [ intros [= <- <-]; specialize (Habs _ Hlt); revert Habs; gic_consts; intros Habs;
        walk_to_leaf; rewrite (bind_pure _ _ _ _ _ Habs); reflexivity | ]
  end.
  discriminate.
Qed.

Lemma write_switch_absent_rank cur d v vc g b base sgn rg r :
  vcpu_at d v = Some vc -> 0 <= nr_lines d ->
  rank_backed_write g = Some (b, base) ->
  DOMAIN_NR_RANKS d < REG_RANK_NR b (Z.shiftr (g - base) DABT_WORD) ->
  write_switch cur v (mk_dabt DABT_WORD sgn rg) g r d = Ok 1 d [].
Proof.
  intros Hv Hnr Hg Hlt.
  pose proof (fun n => vgic_rank_offset_absent d v vc b n DABT_WORD Hv Hnr) as Habs.
  unfold write_switch. rewrite (bind_pure get _ d d d eq_refl). cbv zeta. word_sized.
  revert Hg. unfold rank_backed_write.
  repeat lazymatch goal with
  | |- (if ?c then _ else _) = _ -> _ =>
      let E := fresh "R" in
      destruct c eqn:E; cond_to_prop E;
      [ intros [= <- <-]; specialize (Habs _ Hlt); revert Habs; gic_consts; intros Habs;
        walk_to_leaf; rewrite (bind_pure _ _ _ _ _ Habs); reflexivity | ]
  end.
  discriminate.
Qed.

(** X14: the registers of lines beyond the ranks of the domain (for a
    guest, which has no shared lines, every register of a line from 32 on)
    read as zero and ignore writes: a word read of such a register returns
    0 and a word write returns, both handled, without any change of the
    domain and without any call. *)
Theorem absent_rank_word_access cur d v vc g sgn rg r :
  vcpu_at d v = Some vc -> 0 <= nr_lines d ->
  (forall b base,
      rank_backed_read g = Some (b, base) ->
      DOMAIN_NR_RANKS d < REG_RANK_NR b (Z.shiftr (g - base) DABT_WORD) ->
      vgic_distr_mmio_read v (mk_info (dbase d + g) (mk_dabt DABT_WORD sgn rg)) d
      = Ok (1, Some 0) d []) /\
  (forall b base,
      rank_backed_write g = Some (b, base) ->
      DOMAIN_NR_RANKS d < REG_RANK_NR b (Z.shiftr (g - base) DABT_WORD) ->
      vgic_distr_mmio_write cur v (mk_info (dbase d + g) (mk_dabt DABT_WORD sgn rg)) r d
      = Ok 1 d []).
Proof.
  intros Hv Hnr. split; intros b base Hg Hlt.
  - rewrite (mmio_read_switch _ _ _ _ Hv). cbn [gpa dabt].
    replace (dbase d + g - dbase d) with g by lia.
    now apply read_switch_absent_rank with vc b base.
  - rewrite (mmio_write_switch _ _ _ _ _ _ Hv). cbn [gpa dabt].
    replace (dbase d + g - dbase d) with g by lia.
    now apply write_switch_absent_rank with vc b base.
Qed.

Lemma absent_rank_word_access_witness :
  vgic_distr_mmio_read 0 (Ex.access (GICD_ISENABLER + 4) DABT_WORD) Ex.guest
    = Ok (1, Some 0) Ex.guest [] /\
  vgic_distr_mmio_write 0 0 (Ex.access (GICD_IPRIORITYR + 32) DABT_WORD) 0xa0a0a0a0 Ex.guest
    = Ok 1 Ex.guest [].
Proof.
  split.
  - apply (proj1 (absent_rank_word_access 0 Ex.guest 0 (vcpu_vgic_init Ex.vcpu_blank 0)
                    (GICD_ISENABLER + 4) false 0%nat 0 eq_refl ltac:(vm_compute; discriminate))
             1 GICD_ISENABLER eq_refl eq_refl).
  - apply (proj2 (absent_rank_word_access 0 Ex.guest 0 (vcpu_vgic_init Ex.vcpu_blank 0)
                    (GICD_IPRIORITYR + 32) false 0%nat 0xa0a0a0a0 eq_refl
                    ltac:(vm_compute; discriminate))
             8 GICD_IPRIORITYR eq_refl eq_refl).
Defined.

(** ** Dropping the inflight interrupts of a vCPU *)

Lemma vcpu_at_del_inflight p d w :
  vcpu_at (del_inflight p d) w
  = (fun vc => set_inflight_irqs vc
                 (List.filter (fun q => negb (pending_ptr_eqb p q)) (inflight_irqs vc)))
    <$> vcpu_at d w.
Proof.
  unfold vcpu_at, del_inflight. cbn [d_vcpu set_d_vcpu].
  rewrite list_lookup_fmap. now destruct (d_vcpu d !! w) as [[vc|]|].
Qed.

Lemma pending_at_del_inflight p d q : pending_at (del_inflight p d) q = pending_at d q.
Proof.
  destruct q as [w j|j]; cbn [pending_at]; [|reflexivity].
  rewrite vcpu_at_del_inflight. now destruct (vcpu_at d w).
Qed.

Lemma inflight_of_del_inflight p d w :
  inflight_of (del_inflight p d) w
  = List.filter (fun q => negb (pending_ptr_eqb p q)) (inflight_of d w).
Proof.
  unfold inflight_of. rewrite vcpu_at_del_inflight. now destruct (vcpu_at d w).
Qed.

Lemma del_loop_eval l d :
  for_each l (fun p => d0 <- get;; put (del_inflight p d0)) d
  = Ok tt (fold_left (fun d0 p => del_inflight p d0) l d) [].
Proof.
  revert d. induction l as [|p l IH]; intros d; cbn [for_each fold_left]; [reflexivity|].
  rewrite (bind_pure _ _ d tt (del_inflight p d)); [apply IH|reflexivity].
Qed.

Lemma del_loop_pending l d q :
  pending_at (fold_left (fun d0 p => del_inflight p d0) l d) q = pending_at d q.
Proof.
  revert d. induction l as [|p l IH]; intros d; cbn [fold_left]; [reflexivity|].
  rewrite IH. apply pending_at_del_inflight.
Qed.

Lemma del_loop_inflight l d w :
  inflight_of (fold_left (fun d0 p => del_inflight p d0) l d) w
  = List.filter (fun q => negb (existsb (fun p => pending_ptr_eqb p q) l)) (inflight_of d w).
Proof.
  revert d. induction l as [|p l IH]; intros d; cbn [fold_left existsb].
  - now rewrite filter_all.
  - rewrite IH, inflight_of_del_inflight. generalize (inflight_of d w). intros m.
    induction m as [|q m IHm]; cbn; [reflexivity|].
    destruct (pending_ptr_eqb p q); cbn; [exact IHm|].
    destruct (existsb _ l); cbn; [exact IHm|now rewrite IHm].
Qed.

Lemma filter_none {A} (f : A -> bool) l :
  (forall x, In x l -> f x = false) -> List.filter f l = [].
Proof.
  induction l as [|a l IH]; cbn; [reflexivity|]. intros H.
  rewrite (H a) by now left. apply IH. intros x Hx. apply H. now right.
Qed.

Lemma filter_every {A} (f : A -> bool) l :
  (forall x, In x l -> f x = true) -> List.filter f l = l.
Proof.
  induction l as [|a l IH]; cbn; [reflexivity|]. intros H.
  rewrite (H a) by now left. f_equal. apply IH. intros x Hx. apply H. now right.
Qed.

Lemma existsb_ptr l q :
  existsb (fun p => pending_ptr_eqb p q) l = true <-> In q l.
Proof.
  rewrite existsb_exists. split.
  - intros (p & Hp & Heq). now apply pending_ptr_eqb_eq in Heq as <-.
  - intros H. exists q. split; [assumption|apply pending_ptr_eqb_refl].
Qed.

(** X15: [vgic_clear_pending_irqs] with a physical interface that leaves
    descriptors and inflight lists alone empties the inflight list of the
    vCPU; when every descriptor is linked at most once the inflight lists
    of the other vCPUs are as before; no descriptor is modified (the queued
    and enabled bits of the dropped lines stay as they were); and no
    dropped line is inflight any more, so that a later injection links it
    anew. *)
Theorem clear_pending_empties_inflight gic_clear v d d' tr :
  (forall u, keeps same_registry (gic_clear u)) ->
  inflight_unique d ->
  vgic_clear_pending_irqs gic_clear v d = Ok tt d' tr ->
  inflight_of d' v = [] /\
  (forall w, w <> v -> inflight_of d' w = inflight_of d w) /\
  (forall p, pending_at d' p = pending_at d p) /\
  (forall p, In p (inflight_of d v) -> inflight_linked d' p = false).
Proof.
  intros Hgic Hu H. unfold vgic_clear_pending_irqs in H.
  apply bind_inv_Ok in H as (vc & d0 & t0 & t1 & Hg & H & ->).
  apply get_vcpu_inv in Hg as (Hv & -> & ->).
  rewrite (bind_pure _ _ _ _ _ (del_loop_eval _ _)) in H.
  set (l := inflight_irqs vc) in *. set (d1 := fold_left _ l d) in *.
  assert (Hl : inflight_of d v = l) by (unfold inflight_of; now rewrite Hv).
  pose proof (Hgic v d1) as Hk. rewrite H in Hk. destruct Hk as [Hp Hi].
  assert (Hv' : inflight_of d' v = []).
  { rewrite Hi. unfold d1. rewrite del_loop_inflight, Hl. apply filter_none.
    intros q Hq. apply negb_false_iff, existsb_ptr, Hq. }
  assert (Hw : forall w, w <> v -> inflight_of d' w = inflight_of d w).
  { intros w Hne. rewrite Hi. unfold d1. rewrite del_loop_inflight. apply filter_every.
    intros q Hq. apply negb_true_iff, not_true_iff_false. rewrite existsb_ptr.
    intros Hin. rewrite <- Hl in Hin.
    destruct (Hu q v w) as [_ [Hz|Hz]]; [congruence| |].
    - apply entries_pos in Hin. lia.
    - apply entries_pos in Hq. lia. }
  split; [exact Hv'|]. split; [exact Hw|]. split.
  - intros p. rewrite Hp. apply del_loop_pending.
  - intros p Hin. apply not_true_iff_false. rewrite inflight_linked_iff.
    intros (w & Hw'). destruct (Nat.eq_dec w v) as [->|Hne].
    + now rewrite Hv' in Hw'.
    + rewrite (Hw w Hne) in Hw'.
      destruct (Hu p v w) as [_ [Hz|Hz]]; [congruence| |].
      * apply entries_pos in Hin. lia.
      * apply entries_pos in Hw'. lia.
Qed.

Lemma clear_lr_pending_keeps u : keeps same_registry (clear_lr_pending u).
Proof.
  intros d. unfold clear_lr_pending, bind, get_vcpu.
  destruct (vcpu_at d u) as [vc|] eqn:Hv; [|exact I]. cbn. split.
  - intros [w j|j]; cbn [pending_at]; [|reflexivity].
    rewrite (vcpu_at_put _ _ _ _ _ Hv).
    destruct (Nat.eqb_spec u w) as [<-|]; [now rewrite Hv|reflexivity].
  - intros w. unfold inflight_of. rewrite (vcpu_at_put _ _ _ _ _ Hv).
    destruct (Nat.eqb_spec u w) as [<-|]; [now rewrite Hv|reflexivity].
Qed.

Lemma clear_pending_empties_inflight_witness :
  exists d' tr,
    vgic_clear_pending_irqs clear_lr_pending 0 Ex.inflight4 = Ok tt d' tr /\
    inflight_of d' 0 = [] /\
    inflight_linked d' (pending_ptr_of 0 3) = false.
Proof.
  assert (Hc : exists d' tr,
             vgic_clear_pending_irqs clear_lr_pending 0 Ex.inflight4 = Ok tt d' tr)
    by (vm_compute; eexists; eexists; reflexivity).
  destruct Hc as (d' & tr & Hc). exists d', tr. split; [exact Hc|].
  destruct (clear_pending_empties_inflight clear_lr_pending 0 Ex.inflight4 d' tr
              clear_lr_pending_keeps
              (proj1 (proj2 inflight4_registry_ok)) Hc)
    as (Hempty & _ & _ & Hun).
  split; [exact Hempty|]. apply Hun. vm_compute. tauto.
Defined.

(** ** Writes stay inside the tables *)

Lemma same_shape_refl d : same_shape d d.
Proof. unfold same_shape. auto. Qed.

Lemma same_shape_trans d1 d2 d3 : same_shape d1 d2 -> same_shape d2 d3 -> same_shape d1 d3.
Proof.
  intros (A1 & A2 & A3 & A4 & A5) (B1 & B2 & B3 & B4 & B5).
  split; [congruence|]. split; [congruence|]. split; [congruence|].
  split; [congruence|]. intros w. now rewrite B5, A5.
Qed.

Lemma same_shape_vcpus d d' (f : nat -> vcpu -> vcpu) :
  nr_lines d' = nr_lines d -> shared_irqs d' = shared_irqs d ->
  length (d_vcpu d') = length (d_vcpu d) ->
  length (domain_pending_irqs d') = length (domain_pending_irqs d) ->
  (forall w, vcpu_at d' w = f w <$> vcpu_at d w) ->
  (forall w vc, vcpu_at d w = Some vc ->
                length (vcpu_pending_irqs (f w vc)) = length (vcpu_pending_irqs vc)) ->
  same_shape d d'.
Proof.
  intros H1 H2 H3 H4 Hv Hf. unfold same_shape.
  split; [assumption|]. split; [assumption|]. split; [congruence|].
  split; [assumption|]. intros w. rewrite Hv.
  destruct (vcpu_at d w) as [vc|] eqn:E; cbn; [|reflexivity]. f_equal. now apply Hf.
Qed.

Lemma same_shape_store_pending d p x : same_shape d (store_pending_in d p x).
Proof.
  apply same_shape_vcpus with (f := stored_in_vcpu p x);
    try (destruct p as [v i|i]; cbn [store_pending_in];
         [destruct (vcpu_at d v)|]; cbn; rewrite ?length_insert; reflexivity).
  - apply vcpu_at_store_pending.
  - intros w vc _. destruct p as [v i|i]; cbn; [|reflexivity].
    destruct (v =? w)%nat; cbn; rewrite ?length_insert; reflexivity.
Qed.

Lemma same_shape_set_inflight d v vc l :
  vcpu_at d v = Some vc ->
  same_shape d (set_d_vcpu d (<[v := Some (set_inflight_irqs vc l)]> (d_vcpu d))).
Proof.
  intros Hv.
  apply same_shape_vcpus
    with (f := fun w x => if (v =? w)%nat then set_inflight_irqs vc l else x);
    try (cbn; rewrite ?length_insert; reflexivity).
  - intros w. rewrite (vcpu_at_put _ _ _ _ _ Hv).
    destruct (Nat.eqb_spec v w) as [<-|]; [now rewrite Hv|now destruct (vcpu_at d w)].
  - intros w x Hx. destruct (Nat.eqb_spec v w) as [<-|]; [|reflexivity].
    rewrite Hv in Hx. now injection Hx as <-.
Qed.

Lemma same_shape_unlink d p : same_shape d (unlink_everywhere p d).
Proof.
  apply same_shape_vcpus with (f := fun _ => unlink_pending p);
    try (cbn; rewrite ?length_map; reflexivity).
  apply vcpu_at_unlink.
Qed.

Lemma same_shape_ctlr d x : same_shape d (set_ctlr d x).
Proof. unfold same_shape. cbn. auto. Qed.

Lemma same_shape_store_rank d rp rk : same_shape d (store_rank_in d rp rk).
Proof.
  destruct (store_rank_in_fields d rp rk) as (_ & _ & Hnr & _ & Hlen).
  split; [assumption|]. split; [assumption|]. split; [|split].
  - destruct rp as [v|i]; cbn; [now destruct (vcpu_at d v)|apply length_insert].
  - destruct rp as [v|i]; cbn; [now destruct (vcpu_at d v)|reflexivity].
  - intros w. rewrite vcpu_at_store_rank. destruct (vcpu_at d w) as [vc|]; [|reflexivity].
    cbn. f_equal. destruct rp as [v|i]; [|reflexivity]. now destruct (v =? w)%nat.
Qed.

Lemma inject_keeps_shape cur v irq : keeps same_shape (vgic_vcpu_inject_irq cur v irq).
Proof.
  apply keeps_inject;
    auto using same_shape_refl, same_shape_store_pending, same_shape_set_inflight.
  apply same_shape_trans.
Qed.

Lemma enable_irqs_keeps_shape cur v r n : keeps same_shape (vgic_enable_irqs cur v r n).
Proof.
  apply keeps_enable_irqs;
    auto using same_shape_refl, same_shape_store_pending, same_shape_set_inflight.
  apply same_shape_trans.
Qed.

Lemma disable_irqs_keeps_shape v r n : keeps same_shape (vgic_disable_irqs v r n).
Proof.
  apply keeps_disable_irqs;
    auto using same_shape_refl, same_shape_store_pending, same_shape_unlink.
  apply same_shape_trans.
Qed.

Lemma write_keeps_shape cur v info r :
  keeps same_shape (vgic_distr_mmio_write cur v info r).
Proof.
  apply keeps_mmio_write;
    auto using same_shape_refl, same_shape_ctlr, same_shape_store_rank,
               inject_keeps_shape, enable_irqs_keeps_shape, disable_irqs_keeps_shape.
  apply same_shape_trans.
Qed.

Lemma same_shape_vcpu d d' w : same_shape d d' -> is_Some (vcpu_at d w) -> is_Some (vcpu_at d' w).
Proof.
  intros (_ & _ & _ & _ & H) [vc Hv]. specialize (H w). rewrite Hv in H.
  destruct (vcpu_at d' w); [eauto|discriminate].
Qed.

Lemma tables_allocated_shape d d' :
  same_shape d d' -> tables_allocated d -> tables_allocated d'.
Proof.
  intros (H1 & H2 & H3 & H4 & H5) (T1 & T2 & T3 & T4 & T5).
  unfold tables_allocated, ranks_allocated, DOMAIN_NR_RANKS in *.
  rewrite H1, H3, H4. repeat split; try assumption.
  intros w vc' Hv'. specialize (H5 w). rewrite Hv' in H5.
  destruct (vcpu_at d w) as [vc|] eqn:Hv; [|discriminate].
  cbn in H5. injection H5 as H5. rewrite H5. now apply T5 with w.
Qed.

Lemma line_descriptor d v vc irq :
  tables_allocated d -> vcpu_at d v = Some vc ->
  Z.of_nat irq < 32 + nr_lines d ->
  is_Some (pending_at d (pending_ptr_of v irq)).
Proof.
  intros (T1 & _ & _ & T4 & T5) Hv Hirq. unfold pending_ptr_of.
  destruct (Nat.ltb_spec irq 32) as [Hlt|Hge]; cbn [pending_at].
  - rewrite Hv. cbn. apply lookup_lt_is_Some. specialize (T5 v vc Hv). lia.
  - apply lookup_lt_is_Some. lia.
Qed.

Lemma line_rank d v vc irq :
  tables_allocated d -> vcpu_at d v = Some vc ->
  Z.of_nat irq < 32 + nr_lines d ->
  exists rp rk, vgic_rank_irq v irq d = Ok (Some rp) d [] /\ rank_at d rp = Some rk.
Proof.
  intros (T1 & _ & T3 & _) Hv Hirq. unfold vgic_rank_irq, vgic_rank_offset.
  rewrite (bind_pure _ _ _ _ _ (get_vcpu_Some _ _ _ Hv)).
  rewrite (bind_pure get _ d d d eq_refl).
  change (REG_RANK_NR 8 (Z.shiftr (Z.of_nat irq) DABT_WORD))
    with (Z.shiftr (Z.shiftr (Z.of_nat irq) 2) 3).
  rewrite Z.shiftr_shiftr by lia. rewrite Z.shiftr_div_pow2 by lia.
  change (2 ^ (2 + 3)) with 32.
  assert (Hq : 0 <= Z.of_nat irq / 32) by (apply Z.div_pos; lia).
  assert (Hle : Z.of_nat irq / 32 <= DOMAIN_NR_RANKS d).
  { unfold DOMAIN_NR_RANKS. rewrite Z.quot_div_nonneg by lia.
    apply Z.div_le_mono; lia. }
  destruct (Z.eqb_spec (Z.of_nat irq / 32) 0) as [_|Hne].
  - exists (private_rank v), (private_irqs vc). split; [reflexivity|].
    cbn. now rewrite Hv.
  - destruct (Z.leb_spec (Z.of_nat irq / 32) (DOMAIN_NR_RANKS d)) as [_|]; [|lia].
    assert (Hl : is_Some (shared_irqs d !! Z.to_nat (Z.of_nat irq / 32 - 1))).
    { apply lookup_lt_is_Some. unfold ranks_allocated in T3. lia. }
    destruct Hl as [rk Hrk]. exists (shared_rank (Z.to_nat (Z.of_nat irq / 32 - 1))), rk.
    split; [reflexivity|exact Hrk].
Qed.

Lemma is_Some_store_pending d p x q :
  is_Some (pending_at d q) -> is_Some (pending_at (store_pending_in d p x) q).
Proof.
  intros Hq. destruct (pending_ptr_eqb_spec p q) as [<-|Hne].
  - destruct Hq as [y Hy]. rewrite (pending_at_store_eq _ _ _ _ Hy). eauto.
  - now rewrite pending_at_store_ne.
Qed.

(** An injection of a line of the domain into a vCPU of the domain
    returns. *)
Lemma inject_returns cur d v vc irq :
  tables_allocated d -> inflight_valid d -> vcpu_at d v = Some vc ->
  Z.of_nat irq < 32 + nr_lines d ->
  exists d' tr, vgic_vcpu_inject_irq cur v irq d = Ok tt d' tr.
Proof.
  intros Ht Hval Hv Hirq.
  destruct (line_descriptor _ _ _ _ Ht Hv Hirq) as [np Hp].
  destruct (inflight_linked d (pending_ptr_of v irq)) eqn:Hl.
  - rewrite (inject_linked _ _ _ _ _ _ Hv Hp Hl). eauto.
  - destruct (test_bit _VPF_down (pause_flags vc)) eqn:Hdown.
    + rewrite (inject_offline _ _ _ _ _ _ Hv Hp Hl Hdown). eauto.
    + destruct (line_rank _ _ _ _ Ht Hv Hirq) as (rp & rk & Hr & Hrk).
      unfold vgic_vcpu_inject_irq.
      rewrite (bind_pure _ _ _ _ _ Hr).
      rewrite (bind_pure _ _ _ _ _ (irq_to_pending_ok _ _ _ irq Hv)).
      rewrite (bind_pure _ _ _ _ _ (load_pending_ok _ _ _ Hp)).
      rewrite (bind_pure get _ d d d eq_refl). rewrite Hl.
      rewrite (bind_pure _ _ _ _ _ (get_vcpu_Some _ _ _ Hv)). rewrite Hdown.
      rewrite (bind_pure _ _ _ _ _ (load_rank_ok _ _ _ Hrk)).
      set (n := pending_ptr_of v irq) in *.
      set (priority := u8 _).
      set (np' := mk_pending irq _ priority _).
      rewrite (bind_pure _ _ _ _ _ (store_pending_ok _ _ np' _ Hp)).
      set (d1 := store_pending_in d n np').
      unfold gic_raise_guest_irq. rewrite bind_emit_if.
      assert (Hv1 : vcpu_at d1 v = Some (stored_in_vcpu n np' v vc))
        by (unfold d1; rewrite vcpu_at_store_pending, Hv; reflexivity).
      rewrite (bind_pure _ _ _ _ _ (get_vcpu_Some _ _ _ Hv1)).
      assert (Hl1 : inflight_irqs (stored_in_vcpu n np' v vc) = inflight_irqs vc).
      { destruct n as [u i|i]; cbn; [|reflexivity]. now destruct (u =? v)%nat. }
      rewrite Hl1.
      destruct (inflight_add_returns priority n (inflight_irqs vc) d1) as [l' Hadd].
      { apply List.Forall_forall. intros q Hq. apply is_Some_store_pending.
        apply (Hval v). unfold inflight_of. now rewrite Hv. }
      rewrite (bind_pure _ _ _ _ _ Hadd).
      set (vc2 := set_inflight_irqs _ _).
      pose (d2 := set_d_vcpu d1 (<[v := Some vc2]> (d_vcpu d1))).
      rewrite (bind_pure (put_vcpu v vc2) _ d1 tt d2 eq_refl).
      assert (Hv2 : vcpu_at d2 v = Some vc2)
        by (unfold d2; rewrite (vcpu_at_put _ _ _ _ _ Hv1), Nat.eqb_refl; reflexivity).
      rewrite (inject_out_eval _ _ _ _ Hv2).
      destruct (test_bit _ _); cbn; eauto.
Qed.

Lemma same_shape_pending d d' q :
  same_shape d d' -> is_Some (pending_at d q) -> is_Some (pending_at d' q).
Proof.
  intros (_ & _ & _ & H4 & H5) Hq. destruct q as [w j|j]; cbn [pending_at] in *.
  - specialize (H5 w). destruct (vcpu_at d w) as [vc|]; [|destruct Hq; discriminate].
    destruct (vcpu_at d' w) as [vc'|]; [|discriminate]. cbn in *.
    injection H5 as H5. apply lookup_lt_is_Some. apply lookup_lt_is_Some in Hq. lia.
  - apply lookup_lt_is_Some. apply lookup_lt_is_Some in Hq. lia.
Qed.

Lemma sound_store_status d p pd s :
  pending_at d p = Some pd ->
  sound d -> sound (store_pending_in d p (set_p_status pd s)).
Proof.
  intros Hp [Ht Hr]. split.
  - apply (tables_allocated_shape d); [apply same_shape_store_pending|assumption].
  - now apply registry_ok_store_status.
Qed.

Lemma inject_sound cur v irq d d' tr :
  vgic_vcpu_inject_irq cur v irq d = Ok tt d' tr ->
  sound d -> sound d' /\ same_shape d d'.
Proof.
  intros H [Ht Hr].
  pose proof (inject_keeps_shape cur v irq d) as Hs. rewrite H in Hs. cbn in Hs.
  split; [split|exact Hs].
  - now apply (tables_allocated_shape d).
  - now apply (inject_preserves_registry _ _ _ _ _ _ H).
Qed.

Lemma after_trace_Ok_intro {A} t (r : result A) a d t' :
  r = Ok a d t' -> after_trace t r = Ok a d (t ++ t').
Proof. now intros ->. Qed.

(** One iteration of the enable loop for a line of the domain returns. *)
Lemma vgic_enable_irq_returns cur d v vc cv n i :
  sound d -> vcpu_at d v = Some vc -> vcpu_at d cur = Some cv ->
  Z.of_nat (i + 32 * Z.to_nat n) < 32 + nr_lines d ->
  exists d' t, vgic_enable_irq cur v n i d = Ok tt d' t.
Proof.
  intros Hs Hv Hcur Hirq. unfold vgic_enable_irq.
  set (irq := (i + 32 * Z.to_nat n)%nat) in *. set (p := pending_ptr_of v irq).
  destruct (line_descriptor _ _ _ _ (proj1 Hs) Hv Hirq) as [pd Hp]. fold p in Hp.
  rewrite (bind_pure _ _ _ _ _ (irq_to_pending_ok _ _ _ irq Hv)). fold p.
  rewrite (bind_pure _ _ _ _ _ (load_pending_ok _ _ _ Hp)).
  rewrite (bind_pure _ _ _ _ _ (store_pending_ok _ _ _ _ Hp)).
  set (pd' := set_p_status pd _). set (d1 := store_pending_in d p pd').
  assert (Hs1 : sound d1) by now apply sound_store_status.
  assert (Hv1 : vcpu_at d1 v = Some (stored_in_vcpu p pd' v vc))
    by (unfold d1; rewrite vcpu_at_store_pending, Hv; reflexivity).
  assert (Hcur1 : vcpu_at d1 cur = Some (stored_in_vcpu p pd' cur cv))
    by (unfold d1; rewrite vcpu_at_store_pending, Hcur; reflexivity).
  assert (Hp1 : pending_at d1 p = Some pd') by (apply (pending_at_store_eq _ _ _ _ Hp)).
  assert (Hnr1 : nr_lines d1 = nr_lines d) by apply same_shape_store_pending.
  rewrite (bind_pure _ _ _ _ _ (get_vcpu_Some _ _ _ Hv1)).
  rewrite (bind_pure get _ d1 d1 d1 eq_refl).
  assert (Hforce : exists b,
             (if (irq =? evtchn_irq d1)%nat
              then (cv0 <- get_vcpu cur;;
                    ret (evtchn_upcall_pending cv0 && negb (inflight_linked d1 p)))
              else ret false) d1 = Ok b d1 []).
  { destruct (irq =? evtchn_irq d1)%nat; [|eexists; reflexivity].
    rewrite (bind_pure _ _ _ _ _ (get_vcpu_Some _ _ _ Hcur1)). eexists. reflexivity. }
  destruct Hforce as [b Hforce].
  rewrite (bind_pure _ _ _ _ _ Hforce). cbv beta iota.
  assert (Hmid : exists d2 t2,
             (if b then vgic_vcpu_inject_irq cur v irq
              else (pd0 <- load_pending p;;
                    if inflight_linked d1 p
                       && negb (test_bit GIC_IRQ_GUEST_VISIBLE (p_status pd0))
                    then gic_raise_guest_irq v irq (p_priority pd0)
                    else ret tt)) d1 = Ok tt d2 t2 /\
             is_Some (pending_at d2 p)).
  { destruct b.
    - destruct (inject_returns cur d1 v _ irq (proj1 Hs1) (proj2 (proj2 (proj2 Hs1))) Hv1)
        as (d2 & t2 & Hinj); [lia|].
      exists d2, t2. split; [exact Hinj|].
      apply (same_shape_pending d1); [|eauto].
      now apply (inject_sound _ _ _ _ _ _ Hinj).
    - rewrite (bind_pure _ _ _ _ _ (load_pending_ok _ _ _ Hp1)).
      destruct (_ && _); eexists; eexists; (split; [reflexivity|eauto]). }
  destruct Hmid as (d2 & t2 & Hmid & [pd2 Hp2]).
  rewrite (bind_Ok _ _ _ _ _ _ Hmid).
  rewrite (bind_pure _ _ _ _ _ (load_pending_ok _ _ _ Hp2)).
  destruct (p_desc pd2); cbn; eauto.
Qed.

Lemma vgic_enable_irq_sound cur v n i d d' t :
  vgic_enable_irq cur v n i d = Ok tt d' t -> sound d -> sound d' /\ same_shape d d'.
Proof.
  intros H Hs.
  destruct (vgic_enable_irq_inv _ _ _ _ _ _ _ H)
    as (vc & pd & t2 & pd2 & Hv & Hp & [[_ Hinj]|[-> _]] & _).
  - destruct (inject_sound _ _ _ _ _ _ Hinj) as [Hs' Hsh];
      [now apply sound_store_status|].
    split; [exact Hs'|].
    eapply same_shape_trans; [apply same_shape_store_pending|exact Hsh].
  - split; [now apply sound_store_status|apply same_shape_store_pending].
Qed.

Lemma vgic_disable_irq_sound v n i d d' t :
  vgic_disable_irq v n i d = Ok tt d' t -> sound d -> sound d' /\ same_shape d d'.
Proof.
  intros H [Ht Hr].
  destruct (vgic_disable_irq_valid _ _ _ _ _ _ H) as (vc & pd & Hv & Hp).
  rewrite (vgic_disable_irq_eval _ _ _ _ _ _ Hv Hp) in H. injection H as <- _.
  assert (Hsh : same_shape d
                  (unlink_everywhere (pending_ptr_of v (i + 32 * Z.to_nat n))
                     (store_pending_in d (pending_ptr_of v (i + 32 * Z.to_nat n))
                        (set_p_status pd (clear_bit GIC_IRQ_GUEST_ENABLED (p_status pd)))))).
  { eapply same_shape_trans; [apply same_shape_store_pending|apply same_shape_unlink]. }
  split; [split|exact Hsh].
  - now apply (tables_allocated_shape d).
  - now apply registry_ok_unlink, registry_ok_store_status.
Qed.

(** A loop whose iterations return and keep an invariant returns and
    keeps it. *)
Lemma for_each_total {I} (body : I -> M unit) (Inv : domain -> Prop) l :
  (forall j d, In j l -> Inv d -> exists d' t, body j d = Ok tt d' t /\ Inv d') ->
  forall d, Inv d -> exists d' t, for_each l body d = Ok tt d' t /\ Inv d'.
Proof.
  induction l as [|j l IH]; intros Hb d Hd.
  - exists d, []. split; [reflexivity|assumption].
  - destruct (Hb j d (or_introl eq_refl) Hd) as (d1 & t1 & H1 & Hd1).
    destruct (IH (fun k x Hk => Hb k x (or_intror Hk)) d1 Hd1) as (d2 & t2 & H2 & Hd2).
    exists d2, (t1 ++ t2). split; [|assumption].
    cbn [for_each]. rewrite (bind_Ok _ _ _ _ _ _ H1). now apply after_trace_Ok_intro.
Qed.

Lemma vgic_enable_irqs_returns cur d v vc cv r n :
  sound d -> vcpu_at d v = Some vc -> vcpu_at d cur = Some cv ->
  (forall i, (i < 32)%nat -> Z.of_nat (i + 32 * Z.to_nat n) < 32 + nr_lines d) ->
  exists d' tr, vgic_enable_irqs cur v r n d = Ok tt d' tr.
Proof.
  intros Hs Hv Hcur Hlines.
  destruct (for_each_total (vgic_enable_irq cur v n)
              (fun d1 => sound d1 /\ same_shape d d1) (set_bits (u32 r) 32))
    with (d := d) as (d' & tr & H & _).
  - intros j d1 Hj [Hs1 Hsh].
    destruct (same_shape_vcpu _ _ v Hsh ltac:(eauto)) as [vc1 Hv1].
    destruct (same_shape_vcpu _ _ cur Hsh ltac:(eauto)) as [cv1 Hcur1].
    apply set_bits_In in Hj as [Hj _].
    destruct (vgic_enable_irq_returns cur d1 v vc1 cv1 n j Hs1 Hv1 Hcur1) as (d2 & t & H2).
    { destruct Hsh as [-> _]. now apply Hlines. }
    exists d2, t. split; [exact H2|].
    destruct (vgic_enable_irq_sound _ _ _ _ _ _ _ H2 Hs1) as [Hs2 Hsh2].
    split; [exact Hs2|]. now apply same_shape_trans with d1.
  - split; [assumption|apply same_shape_refl].
  - eauto.
Qed.

Lemma sgi_loop_returns cur d sgir mask l :
  sound d ->
  (forall w, In w l -> is_Some (vcpu_at d w)) ->
  exists d' tr, for_each l (sgi_deliver cur sgir mask) d = Ok tt d' tr.
Proof.
  intros Hs Hex.
  destruct (for_each_total (sgi_deliver cur sgir mask)
              (fun d1 => sound d1 /\ same_shape d d1) l)
    with (d := d) as (d' & tr & H & _).
  - intros j d1 Hj [Hs1 Hsh]. unfold sgi_deliver.
    rewrite (bind_pure get _ d1 d1 d1 eq_refl).
    destruct (vcpu_offline d1 j).
    + exists d1. eexists. split; [reflexivity|]. now split.
    + destruct (same_shape_vcpu _ _ j Hsh (Hex j Hj)) as [vc1 Hv1].
      destruct (inject_returns cur d1 j vc1 (Z.to_nat (Z.land sgir GICD_SGI_INTID_MASK))
                  (proj1 Hs1) (proj2 (proj2 (proj2 Hs1))) Hv1) as (d2 & t & H2).
      { pose proof (sgi_intid_lt sgir). destruct Hs1 as [(Hnr & _) _]. lia. }
      exists d2, t. split; [exact H2|].
      destruct (inject_sound _ _ _ _ _ _ H2 Hs1) as [Hs2 Hsh2].
      split; [exact Hs2|]. now apply same_shape_trans with d1.
  - split; [assumption|apply same_shape_refl].
  - eauto.
Qed.

Lemma vgic_to_sgi_returns cur d v vc sgir :
  sound d -> vcpu_at d v = Some vc -> sgi_targets_exist cur d sgir ->
  never_faults (vgic_to_sgi cur v sgir d).
Proof.
  intros Hs Hv Hex. unfold vgic_to_sgi.
  rewrite (bind_pure _ _ _ _ _ (get_vcpu_Some _ _ _ Hv)).
  rewrite (bind_pure get _ d d d eq_refl). cbv zeta.
  unfold sgi_targets_exist, sgi_target_mask in Hex. cbv zeta in Hex.
  assert (Hloop : forall mask,
             (forall w, (w < length (d_vcpu d))%nat ->
                        Z.testbit mask (Z.of_nat w) = true -> is_Some (vcpu_at d w)) ->
             never_faults
               ((for_each (set_bits mask (length (d_vcpu d))) (sgi_deliver cur sgir mask);;
                 ret 1) d)).
  { intros mask Hm.
    destruct (sgi_loop_returns cur d sgir mask (set_bits mask (length (d_vcpu d))) Hs)
      as (d' & tr & H).
    - intros w Hw. apply set_bits_In in Hw as [Hlt Hbit]. now apply Hm.
    - rewrite (bind_Ok _ _ _ _ _ _ H). exact I. }
  repeat match goal with
         | |- never_faults ((if ?c then _ else _) _) =>
             destruct c; [apply Hloop; intros w; now apply Hex|]
         end.
  exact I.
Qed.

Lemma never_faults_write_ignore d dabt g : never_faults (write_ignore dabt g d).
Proof. unfold write_ignore. now destruct (negb _). Qed.

Lemma never_faults_on_rank d v vc b n s dabt g (k : rank_ptr -> vgic_irq_rank -> M Z) :
  vcpu_at d v = Some vc -> ranks_allocated d -> 0 <= n ->
  (forall rp rk,
      vgic_rank_offset v b n s d = Ok (Some rp) d [] ->
      rank_at d rp = Some rk -> never_faults (k rp rk d)) ->
  never_faults
    ((rank <- vgic_rank_offset v b n s;;
      match rank with
      | None => write_ignore dabt g
      | Some rp => rk <- load_rank rp;; k rp rk
      end) d).
Proof.
  intros Hv Ha Hn Hk. destruct (vgic_rank_offset_ok d v vc b n s Hv) as [rank Hr].
  rewrite (bind_pure _ _ _ _ _ Hr).
  pose proof (rank_offset_loadable _ _ _ _ _ _ _ Hv Ha Hn Hr) as Hl.
  destruct rank as [rp|]; [|apply never_faults_write_ignore].
  destruct Hl as [rk Hrk]. rewrite (bind_pure _ _ _ _ _ (load_rank_ok _ _ _ Hrk)).
  now apply Hk.
Qed.

Lemma never_faults_store d rp rk rk' :
  rank_at d rp = Some rk -> never_faults ((store_rank rp rk';; ret 1) d).
Proof. intros H. now rewrite (bind_pure _ _ _ _ _ (store_rank_ok _ _ _ rk' H)). Qed.

(** The lines of a present rank of enable bits are lines of the domain. *)
Lemma rank_lines d v vc x rp :
  tables_allocated d -> vcpu_at d v = Some vc -> 0 <= x ->
  vgic_rank_offset v 1 x DABT_WORD d = Ok (Some rp) d [] ->
  forall i, (i < 32)%nat ->
            Z.of_nat (i + 32 * Z.to_nat (Z.shiftr x DABT_WORD)) < 32 + nr_lines d.
Proof.
  intros (T1 & T2 & _) Hv Hx. unfold vgic_rank_offset.
  rewrite (bind_pure _ _ _ _ _ (get_vcpu_Some _ _ _ Hv)).
  rewrite (bind_pure get _ d d d eq_refl).
  change (REG_RANK_NR 1 (Z.shiftr x DABT_WORD)) with (Z.shiftr x DABT_WORD).
  pose proof (proj2 (Z.shiftr_nonneg x DABT_WORD) Hx) as Hn.
  set (n := Z.shiftr x DABT_WORD) in *.
  assert (Hnr : DOMAIN_NR_RANKS d * 32 <= nr_lines d + 31).
  { unfold DOMAIN_NR_RANKS. rewrite Z.quot_div_nonneg by lia.
    pose proof (Z.mul_div_le (nr_lines d + 31) 32 ltac:(lia)). lia. }
  assert (Hnr' : DOMAIN_NR_RANKS d * 32 <= nr_lines d).
  { unfold DOMAIN_NR_RANKS in *. rewrite Z.quot_div_nonneg in * by lia.
    pose proof (Z.div_mod (nr_lines d) 32 ltac:(lia)) as Hd. rewrite T2 in Hd.
    assert ((nr_lines d + 31) / 32 = nr_lines d / 32).
    { symmetry. apply Z.div_unique with (r := 31); lia. }
    lia. }
  destruct (Z.eqb_spec n 0) as [Hz|Hnz].
  - intros _ i Hi. rewrite Hz. cbn. lia.
  - destruct (Z.leb_spec n (DOMAIN_NR_RANKS d)) as [Hle|_]; [|discriminate].
    intros _ i Hi. lia.
Qed.

Lemma sound_store_rank d rp rk : sound d -> sound (store_rank_in d rp rk).
Proof.
  intros [Ht Hr]. split.
  - apply (tables_allocated_shape d); [apply same_shape_store_rank|assumption].
  - now apply registry_ok_store_rank.
Qed.

Lemma never_faults_enable cur d v vc cv x rp rk rk' r :
  sound d -> vcpu_at d v = Some vc -> vcpu_at d cur = Some cv -> 0 <= x ->
  vgic_rank_offset v 1 x DABT_WORD d = Ok (Some rp) d [] ->
  rank_at d rp = Some rk ->
  never_faults
    ((store_rank rp rk';; vgic_enable_irqs cur v r (Z.shiftr x DABT_WORD);; ret 1) d).
Proof.
  intros Hs Hv Hcur Hx Hrank Hrk.
  rewrite (bind_pure _ _ _ _ _ (store_rank_ok _ _ _ rk' Hrk)).
  set (d1 := store_rank_in d rp rk').
  assert (Hsh : same_shape d d1) by apply same_shape_store_rank.
  destruct (same_shape_vcpu _ _ v Hsh ltac:(eauto)) as [vc1 Hv1].
  destruct (same_shape_vcpu _ _ cur Hsh ltac:(eauto)) as [cv1 Hcur1].
  destruct (vgic_enable_irqs_returns cur d1 v vc1 cv1 r (Z.shiftr x DABT_WORD))
    as (d2 & t & H); trivial.
  - now apply sound_store_rank.
  - intros i Hi. destruct Hsh as [-> _].
    now apply (rank_lines d v vc x rp (proj1 Hs) Hv Hx Hrank).
  - now rewrite (bind_Ok _ _ _ _ _ _ H).
Qed.

Lemma never_faults_disable d v vc x rp rk rk' r :
  sound d -> vcpu_at d v = Some vc -> 0 <= x ->
  vgic_rank_offset v 1 x DABT_WORD d = Ok (Some rp) d [] ->
  rank_at d rp = Some rk ->
  never_faults
    ((store_rank rp rk';; vgic_disable_irqs v r (Z.shiftr x DABT_WORD);; ret 1) d).
Proof.
  intros Hs Hv Hx Hrank Hrk.
  rewrite (bind_pure _ _ _ _ _ (store_rank_ok _ _ _ rk' Hrk)).
  set (d1 := store_rank_in d rp rk').
  assert (Hsh : same_shape d d1) by apply same_shape_store_rank.
  destruct (same_shape_vcpu _ _ v Hsh ltac:(eauto)) as [vc1 Hv1].
  destruct (vgic_disable_irqs_returns d1 v vc1 r (Z.shiftr x DABT_WORD) Hv1)
    as (d2 & t & H).
  - intros i Hi _. apply (line_descriptor d1 v vc1); [|assumption|].
    + apply (tables_allocated_shape d); [assumption|apply Hs].
    + destruct Hsh as [-> _].
      now apply (rank_lines d v vc x rp (proj1 Hs) Hv Hx Hrank).
  - now rewrite (bind_Ok _ _ _ _ _ _ H).
Qed.

Lemma write_switch_never_faults cur d v vc cv dabt g r :
  sound d -> vcpu_at d v = Some vc -> vcpu_at d cur = Some cv ->
  (g = GICD_SGIR -> sgi_targets_exist cur d r) ->
  never_faults (write_switch cur v dabt g r d).
Proof.
  intros Hs Hv Hcur Hsgi.
  pose proof (proj1 (proj2 (proj2 (proj1 Hs)))) as Ha.
  unfold write_switch. rewrite (bind_pure get _ d d d eq_refl). cbv zeta.
  repeat lazymatch goal with
  | |- never_faults ((if ?c then _ else _) _) =>
      let E := fresh "E" in destruct c eqn:E
  end;
  first [ exact I
        | apply never_faults_write_ignore
        | apply (vgic_to_sgi_returns _ _ _ _ _ Hs Hv), Hsgi;
          match goal with E : (g =? GICD_SGIR) = true |- _ => now apply Z.eqb_eq in E end
        | apply (never_faults_on_rank _ _ _ _ _ _ _ _ _ Hv Ha); [range_facts|];
          intros rp rk Hrank Hrk;
          first [ apply (never_faults_store _ _ _ _ Hrk)
                | eapply never_faults_enable;
                  [exact Hs|exact Hv|exact Hcur| |exact Hrank|exact Hrk]; range_facts
                | eapply never_faults_disable;
                  [exact Hs|exact Hv| |exact Hrank|exact Hrk]; range_facts ] ].
Qed.

(** X16: in a domain whose tables are allocated as the init functions
    allocate them and whose registry is consistent, a trapped write by a
    vCPU of the domain never dereferences outside a table or through a
    missing vCPU, whatever the offset, the width and the value, unless it
    is an SGI whose target list names a vCPU that does not exist: it
    returns or crashes the domain after a bad width; and when it returns
    the tables and the registry are again as required. *)
Theorem mmio_write_stays_in_tables cur d v vc cv info r :
  tables_allocated d -> registry_ok d ->
  vcpu_at d v = Some vc -> vcpu_at d cur = Some cv ->
  (gpa info - dbase d = GICD_SGIR -> sgi_targets_exist cur d r) ->
  never_faults (vgic_distr_mmio_write cur v info r d) /\
  (forall ret d' tr,
      vgic_distr_mmio_write cur v info r d = Ok ret d' tr ->
      tables_allocated d' /\ registry_ok d').
Proof.
  intros Ht Hr Hv Hcur Hsgi. split.
  - rewrite (mmio_write_switch _ _ _ _ _ _ Hv).
    now apply write_switch_never_faults with vc cv.
  - intros ret d' tr H. split.
    + pose proof (write_keeps_shape cur v info r d) as Hk. rewrite H in Hk.
      now apply (tables_allocated_shape d).
    + pose proof (write_preserves_registry cur v info r d) as Hk. rewrite H in Hk.
      now apply Hk.
Qed.

Lemma hwdom_tables : tables_allocated Ex.hwdom.
Proof.
  split; [vm_compute; discriminate|]. split; [reflexivity|].
  split; [unfold ranks_allocated; vm_compute; discriminate|].
  split; [vm_compute; discriminate|].
  intros [|[|w]] vc; [intros [= <-]; cbn; lia..|discriminate].
Qed.

Lemma hwdom_registry_ok : registry_ok Ex.hwdom.
Proof. apply start_registry_ok. intros [|[|v]]; reflexivity. Qed.

Lemma mmio_write_stays_in_tables_witness :
  never_faults
    (vgic_distr_mmio_write 0 0 (Ex.access (GICD_ISENABLER + 4) DABT_WORD) 0x80000001
       Ex.hwdom).
Proof.
  apply (mmio_write_stays_in_tables 0 Ex.hwdom 0
           (vcpu_vgic_init Ex.vcpu_blank 0) (vcpu_vgic_init Ex.vcpu_blank 0)
           (Ex.access (GICD_ISENABLER + 4) DABT_WORD) 0x80000001
           hwdom_tables hwdom_registry_ok eq_refl eq_refl).
  intros H. vm_compute in H. discriminate.
Defined.

(** X17: in a domain whose tables are allocated and whose registry is
    consistent, the injection of a line of the domain (a private line or
    one of the [nr_lines] shared lines) into a vCPU of the domain returns,
    whoever calls it, and leaves the tables allocated and the registry
    consistent. *)
Theorem inject_total cur d v vc irq :
  tables_allocated d -> registry_ok d -> vcpu_at d v = Some vc ->
  Z.of_nat irq < 32 + nr_lines d ->
  exists d' tr,
    vgic_vcpu_inject_irq cur v irq d = Ok tt d' tr /\
    tables_allocated d' /\ registry_ok d'.
Proof.
  intros Ht Hr Hv Hirq.
  destruct (inject_returns cur d v vc irq Ht (proj2 (proj2 Hr)) Hv Hirq) as (d' & tr & H).
  exists d', tr. split; [exact H|].
  now apply (inject_sound _ _ _ _ _ _ H).
Qed.

Lemma inject_total_witness :
  exists d' tr,
    vgic_vcpu_inject_irq 0 1 40 Ex.hwdom = Ok tt d' tr /\
    tables_allocated d' /\ registry_ok d'.
Proof.
  apply (inject_total 0 Ex.hwdom 1 (vcpu_vgic_init Ex.vcpu_blank 1) 40
           hwdom_tables hwdom_registry_ok eq_refl).
  vm_compute. reflexivity.
Defined.

(** ** Initialisation *)

(** X18: [domain_vgic_init] for a whole number of ranks of shared lines,
    over vCPUs set up by [vcpu_vgic_init], gives a domain whose tables are
    allocated, whose inflight lists are empty (a start state of the
    registry), whose distributor is disabled and whose shared ranks are
    all zero: the preconditions of the table-safety of reads, writes and
    injections hold from the start. *)
Theorem init_establishes_tables d0 lines :
  0 <= lines -> lines mod 32 = 0 ->
  (forall w vc, vcpu_at d0 w = Some vc -> exists vc0 id, vc = vcpu_vgic_init vc0 id) ->
  let d := domain_vgic_init d0 lines in
  tables_allocated d /\ vgic_reachable d /\ registry_ok d /\ ctlr d = 0 /\
  forall i rk, rank_at d (shared_rank i) = Some rk -> rk = zero_rank.
Proof.
  intros Hl Hm Hvc d.
  assert (Hat : forall w, vcpu_at d w = vcpu_at d0 w) by reflexivity.
  assert (Hempty : forall w, inflight_of d w = []).
  { intros w. unfold inflight_of. rewrite Hat.
    destruct (vcpu_at d0 w) as [vc|] eqn:Hw; [|reflexivity].
    destruct (Hvc w vc Hw) as (vc0 & id & ->). reflexivity. }
  assert (Hreach : vgic_reachable d) by now apply vreach_start.
  assert (Hreg : registry_ok d) by now apply start_registry_ok.
  split; [|split; [exact Hreach|split; [exact Hreg|split]]].
  - unfold tables_allocated, ranks_allocated, DOMAIN_NR_RANKS.
    change (nr_lines d) with lines.
    change (shared_irqs d) with (repeat zero_rank (Z.to_nat (Z.quot (lines + 31) 32))).
    change (domain_pending_irqs d) with (repeat zero_pending (Z.to_nat lines)).
    rewrite !repeat_length.
    split; [assumption|]. split; [assumption|]. split; [lia|]. split; [lia|].
    intros w vc Hw. rewrite Hat in Hw.
    destruct (Hvc w vc Hw) as (vc0 & id & ->). cbn. rewrite ?repeat_length. lia.
  - reflexivity.
  - intros i rk. cbn. intros H. apply list_elem_of_lookup_2, list_elem_of_In in H.
    now apply repeat_spec in H.
Qed.

Lemma init_establishes_tables_witness :
  tables_allocated Ex.hwdom /\ registry_ok Ex.hwdom.
Proof.
  pose proof (init_establishes_tables
                (mk_domain 0x2c001000 0 0 31 [] []
                   [Some (vcpu_vgic_init Ex.vcpu_blank 0);
                    Some (vcpu_vgic_init Ex.vcpu_blank 1)]) 32) as H.
  destruct H as (Ht & _ & Hr & _).
  - vm_compute. discriminate.
  - reflexivity.
  - intros [|[|w]] vc; [intros [= <-]; eauto..|discriminate].
  - split; [exact Ht|exact Hr].
Defined.

Lemma private_rank_offset d v vc b x :
  vcpu_at d v = Some vc -> REG_RANK_NR b (Z.shiftr x DABT_WORD) = 0 ->
  vgic_rank_offset v b x DABT_WORD d = Ok (Some (private_rank v)) d [].
Proof.
  intros Hv Hz. unfold vgic_rank_offset.
  rewrite (bind_pure _ _ _ _ _ (get_vcpu_Some _ _ _ Hv)).
  rewrite (bind_pure get _ d d d eq_refl). now rewrite Hz.
Qed.

(** X19: as long as the private rank of a vCPU is as [vcpu_vgic_init] left
    it, a word read of any of the eight target registers of the private
    lines (offsets 0x800 to 0x81f) returns the word that names the vCPU
    itself in each of its four bytes: for SGIs and PPIs the target is the
    reading vCPU. *)
Theorem fresh_targets_name_the_vcpu d v vc vc0 id g sgn rg :
  vcpu_at d v = Some vc ->
  private_irqs vc = private_irqs (vcpu_vgic_init vc0 id) ->
  in_range GICD_ITARGETSR (GICD_ITARGETSR + 31) g = true ->
  vgic_distr_mmio_read v (mk_info (dbase d + g) (mk_dabt DABT_WORD sgn rg)) d
  = Ok (1, Some (own_targets id)) d [].
Proof.
  intros Hv Hrk Hg. rewrite (mmio_read_switch _ _ _ _ Hv). cbn [gpa dabt].
  replace (dbase d + g - dbase d) with g by lia.
  assert (Hrank : vgic_rank_offset v 8 (g - GICD_ITARGETSR) DABT_WORD d
                  = Ok (Some (private_rank v)) d []).
  { apply private_rank_offset with vc; [assumption|].
    change (REG_RANK_NR 8 (Z.shiftr (g - GICD_ITARGETSR) DABT_WORD))
      with (Z.shiftr (Z.shiftr (g - GICD_ITARGETSR) 2) 3).
    apply in_range_iff in Hg. rewrite Z.shiftr_shiftr by lia.
    rewrite Z.shiftr_div_pow2 by lia. apply Z.div_small.
    change (2 ^ (2 + 3)) with 32. revert Hg. gic_consts. lia. }
  assert (Hload : load_rank (private_rank v) d = Ok (private_irqs vc) d []).
  { apply load_rank_ok. cbn. now rewrite Hv. }
  assert (Hword : word_at (itargets (private_irqs vc))
                    (REG_RANK_INDEX 8 (g - GICD_ITARGETSR) DABT_WORD) = own_targets id).
  { rewrite Hrk. cbn [vcpu_vgic_init private_irqs set_itargets itargets]. unfold word_at.
    pose proof (REG_RANK_INDEX_lt wr_targets (g - GICD_ITARGETSR) DABT_WORD) as Hi.
    cbn [word_reg_bits word_reg_len] in Hi.
    rewrite nth_indep with (d' := own_targets id) by (rewrite repeat_length; lia).
    apply nth_repeat. }
  unfold read_switch. rewrite (bind_pure get _ d d d eq_refl). cbv zeta. word_sized.
  revert Hrank Hword. cond_to_prop Hg. gic_consts. intros Hrank Hword. walk_to_leaf.
  rewrite (bind_pure _ _ _ _ _ Hrank), (bind_pure _ _ _ _ _ Hload).
  now rewrite Hword.
Qed.

Lemma fresh_targets_name_the_vcpu_witness :
  vgic_distr_mmio_read 1 (Ex.access (GICD_ITARGETSR + 4) DABT_WORD) Ex.hwdom
  = Ok (1, Some 0x02020202) Ex.hwdom [].
Proof.
  exact (fresh_targets_name_the_vcpu Ex.hwdom 1 (vcpu_vgic_init Ex.vcpu_blank 1)
           Ex.vcpu_blank 1 (GICD_ITARGETSR + 4) false 0%nat eq_refl eq_refl eq_refl).
Defined.

(** ** The first injection of the event-channel line *)

(** X20: the iteration of the enable loop for the event-channel line of the
    domain, when the running vCPU has an event-channel upcall pending and
    the line is not inflight, injects the line into the (online) vCPU: when
    the iteration returns, the descriptor of the line is enabled and queued
    and linked into the inflight list of the vCPU, the physical interface
    was asked to raise the line with the priority snapshotted by the
    injection, and the vCPU was unblocked. *)
Theorem evtchn_enable_forces_injection cur d v vc cv n i pd d' t :
  let irq := (i + 32 * Z.to_nat n)%nat in
  let p := pending_ptr_of v irq in
  vcpu_at d v = Some vc -> vcpu_at d cur = Some cv ->
  irq = evtchn_irq d -> evtchn_upcall_pending cv = true ->
  pending_at d p = Some pd -> inflight_linked d p = false ->
  is_vcpu_online vc = true ->
  vgic_enable_irq cur v n i d = Ok tt d' t ->
  exists pd',
    pending_at d' p = Some pd' /\
    test_bit GIC_IRQ_GUEST_ENABLED (p_status pd') = true /\
    test_bit GIC_IRQ_GUEST_QUEUED (p_status pd') = true /\
    In p (inflight_of d' v) /\
    In (GicRaiseGuestIrq v irq (p_priority pd')) t /\
    In (VcpuUnblock v) t.
Proof.
  intros irq p Hv Hcur Hirq Hup Hp Hl Hon H. unfold vgic_enable_irq in H.
  fold irq in H.
  rewrite (bind_pure _ _ _ _ _ (irq_to_pending_ok _ _ _ irq Hv)) in H. fold p in H.
  rewrite (bind_pure _ _ _ _ _ (load_pending_ok _ _ _ Hp)) in H.
  rewrite (bind_pure _ _ _ _ _ (store_pending_ok _ _ _ _ Hp)) in H.
  set (pd1 := set_p_status pd _) in H. set (d1 := store_pending_in d p pd1) in H.
  assert (Hv1 : vcpu_at d1 v = Some (stored_in_vcpu p pd1 v vc))
    by (unfold d1; rewrite vcpu_at_store_pending, Hv; reflexivity).
  assert (Hcur1 : vcpu_at d1 cur = Some (stored_in_vcpu p pd1 cur cv))
    by (unfold d1; rewrite vcpu_at_store_pending, Hcur; reflexivity).
  assert (Hl1 : inflight_linked d1 p = false).
  { unfold d1, inflight_linked. rewrite on_list_store_pending by apply sel_inflight_stored.
    exact Hl. }
  assert (Hp1 : pending_at d1 p = Some pd1) by (apply (pending_at_store_eq _ _ _ _ Hp)).
  assert (Hev1 : evtchn_irq d1 = evtchn_irq d).
  { unfold d1. destruct p as [u j|j]; cbn; [now destruct (vcpu_at d u)|reflexivity]. }
  rewrite (bind_pure _ _ _ _ _ (get_vcpu_Some _ _ _ Hv1)) in H.
  rewrite (bind_pure get _ d1 d1 d1 eq_refl) in H.
  assert (Hforce : (if (irq =? evtchn_irq d1)%nat
                    then (cv0 <- get_vcpu cur;;
                          ret (evtchn_upcall_pending cv0 && negb (inflight_linked d1 p)))
                    else ret false) d1 = Ok true d1 []).
  { rewrite Hev1, <- Hirq, Nat.eqb_refl.
    rewrite (bind_pure _ _ _ _ _ (get_vcpu_Some _ _ _ Hcur1)). rewrite Hl1.
    replace (evtchn_upcall_pending (stored_in_vcpu p pd1 cur cv)) with true; [reflexivity|].
    rewrite <- Hup. destruct p as [u j|j]; cbn; [|reflexivity]. now destruct (u =? cur)%nat. }
  rewrite (bind_pure _ _ _ _ _ Hforce) in H. cbv beta iota in H.
  apply bind_inv_Ok in H as ([] & d2 & t2 & t3 & Hinj & H & ->).
  apply bind_inv_Ok in H as (pd2 & d3 & t4 & t5 & Hload & H & ->).
  apply load_pending_inv in Hload as (Hp2 & -> & ->).
  assert (Hd' : d' = d2) by (destruct (p_desc pd2); now injection H as <- _).
  subst d'. clear H.
  assert (Hdown : test_bit _VPF_down (pause_flags (stored_in_vcpu p pd1 v vc)) = false).
  { unfold is_vcpu_online in Hon. apply negb_true_iff in Hon. rewrite <- Hon.
    destruct p as [u j|j]; cbn; [|reflexivity]. now destruct (u =? v)%nat. }
  destruct (inject_new_inv _ _ _ _ _ _ _ _ Hv1 Hp1 Hl1 Hdown Hinj)
    as (priority & l1 & l2 & _ & _ & Hlists & Hn & _ & _ & _ & ->).
  fold p in Hn, Hlists. rewrite Hn in Hp2. injection Hp2 as <-.
  assert (Hen : test_bit GIC_IRQ_GUEST_ENABLED
                  (set_bit GIC_IRQ_GUEST_QUEUED (p_status pd1)) = true).
  { cbn [pd1 p_status set_p_status].
    rewrite test_bit_set_bit_neq by (vm_compute; discriminate).
    apply test_bit_set_bit. vm_compute. discriminate. }
  eexists. split; [exact Hn|]. cbn [p_status p_priority].
  split; [exact Hen|]. split; [apply test_bit_set_bit; vm_compute; discriminate|].
  split; [|split].
  - rewrite Hlists, Nat.eqb_refl. apply in_or_app. right. now left.
  - rewrite Hen. cbn. now left.
  - apply in_or_app. left. apply in_or_app. right. now left.
Qed.

Lemma evtchn_enable_forces_injection_witness :
  exists d' t,
    vgic_enable_irq 0 0 0 31 Run.upcall = Ok tt d' t /\
    In (pending_ptr_of 0 31) (inflight_of d' 0) /\
    In (VcpuUnblock 0) t.
Proof.
  assert (He : exists d' t, vgic_enable_irq 0 0 0 31 Run.upcall = Ok tt d' t)
    by (vm_compute; eexists; eexists; reflexivity).
  destruct He as (d' & t & He). exists d', t. split; [exact He|].
  destruct (evtchn_enable_forces_injection 0 Run.upcall 0 _ _ 0 31 zero_pending d' t
              eq_refl eq_refl eq_refl eq_refl eq_refl eq_refl eq_refl He)
    as (pd' & _ & _ & _ & Hin & _ & Hun).
  split; [exact Hin|exact Hun].
Defined.

(** ** Word accesses are never refused *)

Lemma no_crash_read_as_zero_word sgn rg g :
  no_crash (read_as_zero (mk_dabt DABT_WORD sgn rg) g).
Proof. intros d d' tr. discriminate. Qed.

Lemma no_crash_write_ignore_word sgn rg g :
  no_crash (write_ignore (mk_dabt DABT_WORD sgn rg) g).
Proof. intros d d' tr. discriminate. Qed.

Lemma no_crash_of_rank_word v b n s sgn rg g (f : vgic_irq_rank -> Z) :
  no_crash (rank <- vgic_rank_offset v b n s;;
            match rank with
            | None => read_as_zero (mk_dabt DABT_WORD sgn rg) g
            | Some rp => rk <- load_rank rp;; ret (1, Some (f rk))
            end).
Proof.
  apply no_crash_bind; [apply no_crash_vgic_rank_offset|intros [rp|]].
  - apply no_crash_bind; [apply no_crash_load_rank|intros rk; apply no_crash_ret].
  - apply no_crash_read_as_zero_word.
Qed.

Lemma no_crash_on_rank_word v b n s sgn rg g (k : rank_ptr -> vgic_irq_rank -> M Z) :
  (forall rp rk, no_crash (k rp rk)) ->
  no_crash (rank <- vgic_rank_offset v b n s;;
            match rank with
            | None => write_ignore (mk_dabt DABT_WORD sgn rg) g
            | Some rp => rk <- load_rank rp;; k rp rk
            end).
Proof.
  intros Hk. apply no_crash_bind; [apply no_crash_vgic_rank_offset|intros [rp|]].
  - apply no_crash_bind; [apply no_crash_load_rank|intros rk; apply Hk].
  - apply no_crash_write_ignore_word.
Qed.

(** X21: no access of word width is refused: whatever the offset, the value
    and the state, a trapped read or write of word width never ends in
    [domain_crash_synchronous]. *)
Theorem word_access_never_crashes cur d v info r d' tr :
  dabt_size (dabt info) = DABT_WORD ->
  vgic_distr_mmio_read v info d <> Crash d' tr /\
  vgic_distr_mmio_write cur v info r d <> Crash d' tr.
Proof.
  intros Hw. destruct info as [gpa0 [sz sgn rg]]. cbn in Hw. subst sz.
  destruct (vcpu_at d v) as [vc|] eqn:Hv.
  2:{ unfold vgic_distr_mmio_read, vgic_distr_mmio_write.
      rewrite !(bind_Fault _ _ _ []) by (unfold get_vcpu; now rewrite Hv).
      split; discriminate. }
  rewrite (mmio_read_switch _ _ _ _ Hv), (mmio_write_switch _ _ _ _ _ _ Hv).
  cbn [gpa dabt]. generalize (gpa0 - dbase d) as g. intros g. split.
  - unfold read_switch. rewrite (bind_pure get _ d d d eq_refl). cbv zeta. word_sized.
    repeat lazymatch goal with
    | |- (if ?c then _ else _) _ <> _ => destruct c
    end;
    first [ discriminate
          | apply no_crash_read_as_zero_word
          | apply no_crash_of_rank_word ].
  - unfold write_switch. rewrite (bind_pure get _ d d d eq_refl). cbv zeta. word_sized.
    change (DABT_WORD =? 2) with true. cbn [negb].
    repeat lazymatch goal with
    | |- (if ?c then _ else _) _ <> _ => destruct c
    end;
    first [ discriminate
          | apply no_crash_write_ignore_word
          | apply no_crash_to_sgi
          | apply no_crash_on_rank_word; intros rp rk;
            repeat first [ apply no_crash_enable_irqs | apply no_crash_disable_irqs
                         | no_crash_step ] ].
Qed.

Lemma word_access_never_crashes_witness :
  vgic_distr_mmio_read 0 (Ex.access 0x7f9 DABT_WORD) Ex.guest <> Crash Ex.guest [] /\
  vgic_distr_mmio_write 0 0 (Ex.access GICD_SGIR DABT_WORD) 0x2000001 Ex.guest
    <> Crash Ex.guest [].
Proof.
  split.
  - exact (proj1 (word_access_never_crashes 0 Ex.guest 0 (Ex.access 0x7f9 DABT_WORD) 0
                    Ex.guest [] eq_refl)).
  - exact (proj2 (word_access_never_crashes 0 Ex.guest 0 (Ex.access GICD_SGIR DABT_WORD)
                    0x2000001 Ex.guest [] eq_refl)).
Defined.

(** ** The priority snapshotted by an injection *)

Lemma byte_of_word r b :
  0 <= b <= 3 ->
  u8 (vgic_byte_read (u32 r) false b) = Z.land (Z.shiftr r (8 * b)) 0xff.
Proof.
  intros Hb. unfold vgic_byte_read, u8. cbn [andb].
  assert (Hland : Z.land b 3 = b).
  { change 3 with (Z.ones 2). rewrite Z.land_ones by lia. apply Z.mod_small.
    change (2 ^ 2) with 4. lia. }
  rewrite Hland. rewrite <- Z.land_assoc. change (Z.land 255 255) with 255.
  apply Z.bits_inj'. intros i Hi. rewrite !Z.land_spec. rewrite !Z.shiftr_spec by lia.
  destruct (Z.lt_ge_cases i 8).
  - rewrite testbit_u32 by lia. reflexivity.
  - change 255 with (Z.ones 8). rewrite Z.ones_spec_high by lia.
    now rewrite !andb_false_r.
Qed.

(** X22: the priority that an injection snapshots is the one the guest
    wrote: after a word write of [r] to the priority register at the byte
    offset of line [irq], the injection of the line (not inflight, into the
    online vCPU) links its descriptor with byte [irq mod 4] of [r] as its
    priority, the key of the inflight order. *)
Theorem inject_snapshots_written_priority
  cur cur' d v vc irq r rp rk sgn rg ret d1 tr1 d2 tr2 :
  let p := pending_ptr_of v irq in
  vcpu_at d v = Some vc -> is_vcpu_online vc = true ->
  in_range GICD_IPRIORITYR GICD_IPRIORITYRN (GICD_IPRIORITYR + Z.of_nat irq) = true ->
  vgic_rank_irq v irq d = Ok (Some rp) d [] ->
  rank_at d rp = Some rk -> length (ipriority rk) = 8%nat ->
  inflight_linked d p = false ->
  vgic_distr_mmio_write cur v
    (mk_info (dbase d + (GICD_IPRIORITYR + Z.of_nat irq)) (mk_dabt DABT_WORD sgn rg)) r d
    = Ok ret d1 tr1 ->
  vgic_vcpu_inject_irq cur' v irq d1 = Ok tt d2 tr2 ->
  prio_of d2 p = Z.land (Z.shiftr r (8 * (Z.of_nat irq mod 4))) 0xff /\
  In p (inflight_of d2 v).
Proof.
  intros p Hv Hon Hg Hrank Hrk Hlen Hl Hw Hinj. unfold vgic_rank_irq in Hrank.
  (* the write *)
  rewrite (mmio_write_switch _ _ _ _ _ _ Hv) in Hw. cbn [gpa dabt] in Hw.
  replace (dbase d + (GICD_IPRIORITYR + Z.of_nat irq) - dbase d)
    with (GICD_IPRIORITYR + Z.of_nat irq) in Hw by lia.
  assert (Hoff : GICD_IPRIORITYR + Z.of_nat irq - word_reg_base wr_priority = Z.of_nat irq)
    by (cbn; lia).
  rewrite (write_switch_word_reg _ _ _ wr_priority _ _ rp rk) in Hw;
    [|exact Hg|now rewrite Hoff|exact Hrk].
  rewrite Hoff in Hw. cbn [word_reg_bits word_reg_update] in Hw.
  set (idx := REG_RANK_INDEX 8 (Z.of_nat irq) DABT_WORD) in *.
  set (rk1 := set_ipriority rk _) in Hw. injection Hw as _ <- _.
  set (d1 := store_rank_in d rp rk1) in *.
  (* the domain after the write *)
  destruct (store_rank_same_registry d rp rk1) as [Hpend Hlists]. fold d1 in Hpend, Hlists.
  destruct (store_rank_in_fields d rp rk1) as (_ & _ & Hnr & _). fold d1 in Hnr.
  destruct (inject_Ok_valid _ _ _ _ _ _ Hinj) as (vc1 & np & Hv1 & Hp1). fold p in Hp1.
  assert (Hl1 : inflight_linked d1 p = false).
  { apply not_true_iff_false. rewrite inflight_linked_iff. intros (w & Hin).
    rewrite Hlists in Hin. now apply (inflight_unlinked d p w Hl). }
  assert (Hdown : test_bit _VPF_down (pause_flags vc1) = false).
  { unfold is_vcpu_online in Hon. apply negb_true_iff in Hon. rewrite <- Hon.
    unfold d1 in Hv1. rewrite vcpu_at_store_rank, Hv in Hv1. cbn in Hv1.
    injection Hv1 as <-. destruct rp as [u|j]; [|reflexivity]. now destruct (u =? v)%nat. }
  assert (Hrank1 : vgic_rank_offset v 8 (Z.of_nat irq) DABT_WORD d1 = Ok (Some rp) d1 [])
    by (apply (vgic_rank_offset_frame d); eauto).
  assert (Hrk1 : rank_at d1 rp = Some rk1) by now apply rank_at_store_eq with rk.
  (* the injection, up to the store of the snapshot *)
  destruct (inject_new_inv _ _ _ _ _ _ _ _ Hv1 Hp1 Hl1 Hdown Hinj)
    as (_ & l1 & l2 & _ & _ & Hlist2 & _).
  split; [|rewrite Hlist2, Nat.eqb_refl; apply in_or_app; right; now left].
  unfold vgic_vcpu_inject_irq, vgic_rank_irq in Hinj.
  rewrite (bind_pure _ _ _ _ _ Hrank1) in Hinj.
  rewrite (bind_pure _ _ _ _ _ (irq_to_pending_ok _ _ _ irq Hv1)) in Hinj. fold p in Hinj.
  rewrite (bind_pure _ _ _ _ _ (load_pending_ok _ _ _ Hp1)) in Hinj.
  rewrite (bind_pure get _ d1 d1 d1 eq_refl) in Hinj. rewrite Hl1 in Hinj.
  rewrite (bind_pure _ _ _ _ _ (get_vcpu_Some _ _ _ Hv1)) in Hinj. rewrite Hdown in Hinj.
  rewrite (bind_pure _ _ _ _ _ (load_rank_ok _ _ _ Hrk1)) in Hinj.
  fold idx in Hinj. set (priority := u8 _) in Hinj.
  set (np' := mk_pending irq _ priority _) in Hinj.
  rewrite (bind_pure _ _ _ _ _ (store_pending_ok _ _ np' _ Hp1)) in Hinj.
  set (d1' := store_pending_in d1 p np') in Hinj.
  (* what follows keeps the descriptor *)
  set (R := fun x y : domain => pending_at y p = pending_at x p).
  assert (Rr : forall x, R x x) by (intros x; reflexivity).
  assert (Rt : forall x y z, R x y -> R y z -> R x z) by (unfold R; intros; congruence).
  match type of Hinj with
  | ?m d1' = _ => assert (Hk : keeps R m)
  end.
  { unfold gic_raise_guest_irq.
    apply keeps_bind; [exact Rt| |intros _].
    - destruct (test_bit _ _); [now apply keeps_emit|now apply keeps_ret].
    - apply keeps_link; [exact Rr|exact Rt| |now apply keeps_inject_out].
      intros x u uc l Hu. now apply pending_at_put_inflight. }
  specialize (Hk d1'). rewrite Hinj in Hk. cbn in Hk. unfold R in Hk.
  unfold prio_of. rewrite Hk. unfold d1'. rewrite (pending_at_store_eq _ _ _ _ Hp1).
  cbn [np' p_priority]. unfold priority.
  cbn [rk1 ipriority set_ipriority]. rewrite word_at_set_word_at.
  - assert (Hb : Z.land (Z.of_nat irq) 3 = Z.of_nat irq mod 4).
    { change 3 with (Z.ones 2). now rewrite Z.land_ones by lia. }
    rewrite Hb. apply byte_of_word.
    pose proof (Z.mod_pos_bound (Z.of_nat irq) 4 ltac:(lia)). lia.
  - pose proof (REG_RANK_INDEX_lt wr_priority (Z.of_nat irq) DABT_WORD) as Hi.
    cbn [word_reg_bits word_reg_len] in Hi. fold idx in Hi. lia.
Qed.

Lemma inject_snapshots_written_priority_witness :
  exists d2 tr2,
    vgic_vcpu_inject_irq 0 0 3
      (Run.written 0 0 (GICD_IPRIORITYR + 3) 0x40801080 Ex.guest) = Ok tt d2 tr2 /\
    prio_of d2 (pending_ptr_of 0 3) = 0x40.
Proof.
  assert (Hw : vgic_distr_mmio_write 0 0 (Ex.access (GICD_IPRIORITYR + 3) DABT_WORD)
                 0x40801080 Ex.guest
               = Ok 1 (Run.written 0 0 (GICD_IPRIORITYR + 3) 0x40801080 Ex.guest) [])
    by (vm_compute; reflexivity).
  assert (Hi : exists d2 tr2,
             vgic_vcpu_inject_irq 0 0 3
               (Run.written 0 0 (GICD_IPRIORITYR + 3) 0x40801080 Ex.guest) = Ok tt d2 tr2)
    by (vm_compute; eexists; eexists; reflexivity).
  destruct Hi as (d2 & tr2 & Hi). exists d2, tr2. split; [exact Hi|].
  exact (proj1 (inject_snapshots_written_priority 0 0 Ex.guest 0
                  (vcpu_vgic_init Ex.vcpu_blank 0) 3 0x40801080 (private_rank 0)
                  (private_irqs (vcpu_vgic_init Ex.vcpu_blank 0)) false 0%nat 1 _ [] d2 tr2
                  eq_refl eq_refl eq_refl eq_refl eq_refl eq_refl eq_refl Hw Hi)).
Defined.

(** ** The active bitmaps *)
















